(** * Workspace isolation in the filesystem tool server

  A shallow embedding of [filesystem_server.py]: the per-user workspace
  resolver ([get_user_workspace], [resolve_user_path], [is_safe_path]) and
  the tools built on it, together with the properties the specification
  states about them.

  Conventions.
  - A Python [str] is held as the bytes of its UTF-8 encoding, a Rocq
    [string]. Searching, splitting and joining at ASCII characters act on
    these bytes as they act on the characters. Where the code depends on
    characters outside ASCII this is said at the definition: [len] counts
    characters, [rstrip] knows the white space of Unicode, [lower] is
    exact as far as its result is compared with ASCII strings, and
    [int16] is the parser of [int] on ASCII strings.
  - Names of files are taken to be acceptable to the host: no NUL
    character, no component beyond the length limit.
  - The functions of [posixpath], [uuid] and [os] that the server calls are
    modelled after the CPython 3.11 library sources (POSIX flavour).
  - The filesystem is a finite map from absolute paths (lists of segments)
    to inodes; there are no symbolic links and no permission bits, so the
    only I/O errors are those determined by the shape of the tree. *)

From Stdlib Require Import ZArith Ascii String List Lia Bool.
From stdpp Require Import base option list gmap strings fin_maps pretty sorting.

Local Open Scope string_scope.
Local Open Scope list_scope.

(** ** Python string primitives *)

Module PyStr.

Definition eqb_ascii (a b : ascii) : bool := Ascii.eqb a b.

(** [s.startswith(p)] *)
Fixpoint startswith (p s : string) : bool :=
  match p, s with
  | EmptyString, _ => true
  | String a p', String b s' => eqb_ascii a b && startswith p' s'
  | String _ _, EmptyString => false
  end.

(** [s.endswith(c)] for a one-character [c] *)
Fixpoint endswith_char (c : ascii) (s : string) : bool :=
  match s with
  | EmptyString => false
  | String a EmptyString => eqb_ascii a c
  | String _ s' => endswith_char c s'
  end.

(** [s.lstrip(c)] for a one-character set *)
Fixpoint lstrip_char (c : ascii) (s : string) : string :=
  match s with
  | String a s' => if eqb_ascii a c then lstrip_char c s' else s
  | EmptyString => EmptyString
  end.

(** [s.rstrip(c)] for a one-character set *)
Fixpoint rstrip_char (c : ascii) (s : string) : string :=
  match s with
  | EmptyString => EmptyString
  | String a s' =>
      match rstrip_char c s' with
      | EmptyString => if eqb_ascii a c then EmptyString else String a EmptyString
      | r => String a r
      end
  end.

(** [s.isascii()] *)
Fixpoint is_ascii (s : string) : bool :=
  match s with
  | EmptyString => true
  | String a s' => (nat_of_ascii a <? 128)%nat && is_ascii s'
  end.

Definition is_byte (a : ascii) (n : nat) : bool := Nat.eqb (nat_of_ascii a) n.

(** [len(s)]: the number of characters, that is of the bytes that do not
    continue a character. *)
Definition is_continuation (a : ascii) : bool :=
  let n := nat_of_ascii a in (128 <=? n)%nat && (n <=? 191)%nat.

Fixpoint len (s : string) : nat :=
  match s with
  | EmptyString => O
  | String a s' => if is_continuation a then len s' else S (len s')
  end.

(** White space as recognised by [str.isspace]. In ASCII: TAB, LF, VT, FF,
    CR, the separators 0x1c..0x1f and the space. *)
Definition is_space (a : ascii) : bool :=
  let n := nat_of_ascii a in
  ((9 <=? n)%nat && (n <=? 13)%nat) || ((28 <=? n)%nat && (n <=? 32)%nat).

(** Beyond ASCII: U+0085 and U+00A0 (two bytes), U+1680, U+2000..U+200A,
    U+2028, U+2029, U+202F, U+205F and U+3000 (three bytes). *)
Definition is_space2 (a b : ascii) : bool :=
  is_byte a 194 && (is_byte b 133 || is_byte b 160).

Definition is_space3 (a b c : ascii) : bool :=
  let n := nat_of_ascii c in
  (is_byte a 225 && is_byte b 154 && is_byte c 128)
  || (is_byte a 226 && is_byte b 128
      && (((128 <=? n)%nat && (n <=? 138)%nat) || is_byte c 168 || is_byte c 169
          || is_byte c 175))
  || (is_byte a 226 && is_byte b 129 && is_byte c 159)
  || (is_byte a 227 && is_byte b 128 && is_byte c 128).

(** [s.isspace()] or [s] is empty: white space only. *)
Fixpoint all_space (s : string) : bool :=
  match s with
  | EmptyString => true
  | String a r =>
      if is_space a then all_space r
      else
        match r with
        | String b r1 =>
            if is_space2 a b then all_space r1
            else
              match r1 with
              | String c r2 => if is_space3 a b c then all_space r2 else false
              | EmptyString => false
              end
        | EmptyString => false
        end
  end.

(** [s.rstrip()]: [s] without its longest end of white space. *)
Fixpoint rstrip (s : string) : string :=
  match s with
  | EmptyString => EmptyString
  | String a s' => if all_space s then EmptyString else String a (rstrip s')
  end.

Definition lower_ascii (a : ascii) : ascii :=
  let n := nat_of_ascii a in
  if (65 <=? n)%nat && (n <=? 90)%nat then ascii_of_nat (n + 32) else a.

(** [s.lower()], as far as a comparison of the result with ASCII strings
    goes: the letters A..Z are lowered, and so is the one character
    outside ASCII whose lower case is in ASCII, the KELVIN SIGN U+212A
    (bytes E2 84 AA), which becomes [k]. The other characters outside
    ASCII are left as they are; [str.lower] maps each of them to a string
    with a character outside ASCII. *)
Fixpoint lower (s : string) : string :=
  match s with
  | EmptyString => EmptyString
  | String a s' =>
      match s' with
      | String b (String c s'') =>
          if is_byte a 226 && is_byte b 132 && is_byte c 170
          then String "k" (lower s'')
          else String (lower_ascii a) (lower s')
      | _ => String (lower_ascii a) (lower s')
      end
  end.

(** [s.split(c)] for a one-character separator: never the empty list. *)
Fixpoint split (c : ascii) (s : string) : list string :=
  match s with
  | EmptyString => [EmptyString]
  | String a s' =>
      if eqb_ascii a c then EmptyString :: split c s'
      else match split c s' with
           | x :: xs => String a x :: xs
           | [] => [String a EmptyString]
           end
  end.

(** [sep.join(l)] *)
Fixpoint join (sep : string) (l : list string) : string :=
  match l with
  | [] => EmptyString
  | [x] => x
  | x :: xs => x +:+ sep +:+ join sep xs
  end.

(** [''.join(l)] *)
Definition concat (l : list string) : string := fold_right String.append EmptyString l.

(** [s.replace(old, '')]: remove the non-overlapping occurrences of [old],
    scanning from the left. The fuel is the length of [s]. *)
Fixpoint drop (n : nat) (s : string) : string :=
  match n, s with
  | O, _ => s
  | S n', String _ s' => drop n' s'
  | S _, EmptyString => EmptyString
  end.

Fixpoint remove_all_fuel (fuel : nat) (old s : string) : string :=
  match fuel with
  | O => s
  | S fuel' =>
      match s with
      | EmptyString => EmptyString
      | String a s' =>
          if startswith old s then remove_all_fuel fuel' old (drop (String.length old) s)
          else String a (remove_all_fuel fuel' old s')
      end
  end.

Definition remove_all (old s : string) : string :=
  match old with
  | EmptyString => s
  | _ => remove_all_fuel (String.length s) old s
  end.

(** [c in s] for a character *)
Fixpoint mem_char (c : ascii) (s : string) : bool :=
  match s with
  | EmptyString => false
  | String a s' => eqb_ascii a c || mem_char c s'
  end.

(** [s.strip(chars)] *)
Fixpoint lstrip_set (chars s : string) : string :=
  match s with
  | String a s' => if mem_char a chars then lstrip_set chars s' else s
  | EmptyString => EmptyString
  end.

Fixpoint rstrip_set (chars s : string) : string :=
  match s with
  | EmptyString => EmptyString
  | String a s' =>
      match rstrip_set chars s' with
      | EmptyString => if mem_char a chars then EmptyString else String a EmptyString
      | r => String a r
      end
  end.

Definition strip_set (chars s : string) : string := rstrip_set chars (lstrip_set chars s).

(** [sub in s] *)
Fixpoint contains (sub s : string) : bool :=
  startswith sub s ||
  match s with
  | EmptyString => false
  | String _ s' => contains sub s'
  end.

(** Truthiness of a string: [not s] holds for the empty string. *)
Definition truthy (s : string) : bool :=
  match s with EmptyString => false | _ => true end.

End PyStr.

(** ** posixpath *)

Module PosixPath.
Import PyStr.

Definition sep : ascii := "/"%char.
Definition extsep : ascii := "."%char.
Definition curdir : string := ".".
Definition pardir : string := "..".

Definition isabs (s : string) : bool := startswith "/" s.

(** [os.path.join(a, b)] *)
Definition join (a b : string) : string :=
  if startswith "/" b then b
  else if negb (truthy a) || endswith_char sep a then a +:+ b
  else a +:+ "/" +:+ b.

(** One iteration of the loop of [normpath]. [new_comps] is kept as a
    stack: its head is [new_comps[-1]]. *)
Definition normpath_step (initial_slashes : nat) (new_comps : list string) (comp : string)
  : list string :=
  if String.eqb comp "" || String.eqb comp curdir then new_comps
  else if negb (String.eqb comp pardir)
          || (Nat.eqb initial_slashes 0 && match new_comps with [] => true | _ => false end)
          || match new_comps with top :: _ => String.eqb top pardir | [] => false end
       then comp :: new_comps
       else match new_comps with
            | _ :: rest => rest
            | [] => []
            end.

Definition initial_slashes_of (path : string) : nat :=
  if startswith "/" path then
    if startswith "//" path && negb (startswith "///" path) then 2 else 1
  else 0.

Fixpoint repeat_sep (n : nat) : string :=
  match n with O => EmptyString | S n' => String sep (repeat_sep n') end.

Definition normpath (path : string) : string :=
  if String.eqb path "" then curdir
  else
    let initial_slashes := initial_slashes_of path in
    let comps := rev (fold_left (normpath_step initial_slashes) (split sep path) []) in
    let path' := repeat_sep initial_slashes +:+ PyStr.join "/" comps in
    if String.eqb path' "" then curdir else path'.

Definition abspath (cwd path : string) : string :=
  normpath (if isabs path then path else join cwd path).

(** [p.rfind(c) + 1]: the length of the prefix up to and including the last
    occurrence of [c] (0 when there is none), and the split at that index. *)
Fixpoint split_last (c : ascii) (p : string) : string * string :=
  match p with
  | EmptyString => (EmptyString, EmptyString)
  | String a p' =>
      let '(h, t) := split_last c p' in
      if mem_char c p then (String a h, t) else (EmptyString, p)
  end.

Fixpoint all_sep (s : string) : bool :=
  match s with
  | EmptyString => true
  | String a s' => eqb_ascii a sep && all_sep s'
  end.

(** [os.path.split(p)] *)
Definition split_path (p : string) : string * string :=
  let '(head, tail) := split_last sep p in
  (if truthy head && negb (all_sep head) then rstrip_char sep head else head, tail).

Definition dirname (p : string) : string := fst (split_path p).
Definition basename (p : string) : string := snd (split_last sep p).

(** [genericpath._splitext]: the extension starts at the last dot of the
    last component, unless that component consists of leading dots up to
    it. *)
Fixpoint all_dots (s : string) : bool :=
  match s with
  | EmptyString => true
  | String a s' => eqb_ascii a extsep && all_dots s'
  end.

Definition splitext (p : string) : string * string :=
  let '(dir, name) := split_last sep p in
  if mem_char extsep name then
    let '(stem_dot, ext_tail) := split_last extsep name in
    (* stem_dot ends with the last dot; the characters before it are
       p[sepIndex+1 : dotIndex] *)
    let stem := match rev (list_ascii_of_string stem_dot) with
                | _ :: r => string_of_list_ascii (rev r)
                | [] => EmptyString
                end in
    if all_dots stem then (p, EmptyString)
    else (dir +:+ stem, String extsep ext_tail)
  else (p, EmptyString).

(** [len(commonprefix([l1, l2]))] on lists of components *)
Fixpoint common_len (l1 l2 : list string) : nat :=
  match l1, l2 with
  | x :: l1', y :: l2' => if String.eqb x y then S (common_len l1' l2') else 0
  | _, _ => 0
  end.

Definition components (abs : string) : list string :=
  List.filter truthy (split sep abs).

(** [os.path.relpath(path, start)]; [None] stands for the [ValueError]
    raised on an empty [path]. *)
Definition relpath (cwd path start : string) : option string :=
  if negb (truthy path) then None
  else
    let start_list := components (abspath cwd start) in
    let path_list := components (abspath cwd path) in
    let i := common_len start_list path_list in
    let rel_list := repeat pardir (length start_list - i) ++ skipn i path_list in
    match rel_list with
    | [] => Some curdir
    | _ => Some (PyStr.join "/" rel_list)
    end.

End PosixPath.

Module PosixPathExamples.
Import PosixPath.

Example normpath_dotdot : normpath "/srv/ws/u/../../etc/passwd" = "/srv/etc/passwd".
Proof. reflexivity. Qed.

Example normpath_rel : normpath "a//b/./c/.." = "a/b".
Proof. reflexivity. Qed.

Example normpath_up : normpath "../../x" = "../../x".
Proof. reflexivity. Qed.

Example normpath_root_up : normpath "/../x/" = "/x".
Proof. reflexivity. Qed.

Example normpath_two_slashes : normpath "//a" = "//a" /\ normpath "///a" = "/a".
Proof. split; reflexivity. Qed.

Example abspath_rel : abspath "/srv" "./user-workspaces/u" = "/srv/user-workspaces/u".
Proof. reflexivity. Qed.

Example splitext_plain : splitext "/srv/a/notes.txt" = ("/srv/a/notes", ".txt").
Proof. reflexivity. Qed.

Example splitext_hidden : splitext "/srv/a/.gitignore" = ("/srv/a/.gitignore", "").
Proof. reflexivity. Qed.

Example splitext_two : splitext "a.env.example" = ("a.env", ".example").
Proof. reflexivity. Qed.

Example splitext_dir_dot : splitext "/srv/a.b/notes" = ("/srv/a.b/notes", "").
Proof. reflexivity. Qed.

Example splitext_slash : splitext "a.txt/" = ("a.txt/", "").
Proof. reflexivity. Qed.

Example dirname_ex : dirname "/srv/a/notes.txt" = "/srv/a" /\ dirname "/x" = "/" /\ dirname "x" = "".
Proof. repeat split; reflexivity. Qed.

Example relpath_inside : relpath "/srv" "/srv/user-workspaces/u/a/b.txt" "./user-workspaces/u" = Some "a/b.txt".
Proof. reflexivity. Qed.

Example relpath_same : relpath "/srv" "/srv/user-workspaces/u" "./user-workspaces/u" = Some ".".
Proof. reflexivity. Qed.

Example relpath_sibling : relpath "/srv" "/srv/user-workspaces/ux/f" "./user-workspaces/u" = Some "../ux/f".
Proof. reflexivity. Qed.

End PosixPathExamples.

(** ** uuid: parsing, SHA-1 and the name-based identifiers *)

Module PyUuid.
Import PyStr.
Local Open Scope Z_scope.

Definition hex_value (a : ascii) : option Z :=
  let n := Z.of_nat (nat_of_ascii a) in
  if (48 <=? n) && (n <=? 57) then Some (n - 48)
  else if (97 <=? n) && (n <=? 102) then Some (n - 87)
  else if (65 <=? n) && (n <=? 70) then Some (n - 55)
  else None.

(** The digit scanner of [int(s, 16)]: hexadecimal digits with single
    underscores between them. [prev_us] tells that the previous character
    was an underscore. *)
Fixpoint scan_digits (prev_us : bool) (acc : Z) (s : string) : option Z :=
  match s with
  | EmptyString => if prev_us then None else Some acc
  | String a s' =>
      if eqb_ascii a "_" then
        if prev_us then None else scan_digits true acc s'
      else
        match hex_value a with
        | Some d => scan_digits false (16 * acc + d) s'
        | None => None
        end
  end.

(** The white space that [int] skips around a literal: TAB, LF, VT, FF, CR
    and the space. *)
Definition C_SPACE : string :=
  String "009" (String "010" (String "011" (String "012" (String "013" " ")))).

(** [int(s, 16)] for an ASCII string [s]; [None] stands for [ValueError].
    Surrounding white space, a sign and a [0x] prefix (followed by at most
    one underscore) are accepted. *)
Definition int16 (s : string) : option Z :=
  let s := strip_set C_SPACE s in
  let '(sign, s) :=
    match s with
    | String "+" r => (1, r)
    | String "-" r => (-1, r)
    | _ => (1, s)
    end in
  let s :=
    match s with
    | String "0" (String x r) =>
        if eqb_ascii x "x" || eqb_ascii x "X" then
          match r with
          | String "_" r' => r'
          | _ => r
          end
        else s
    | _ => s
    end in
  match s with
  | EmptyString => None
  | String "_" _ => None
  | _ => option_map (Z.mul sign) (scan_digits false 0 s)
  end.

(** [uuid.UUID(hex)] for an ASCII string [hex]: the 128-bit integer, or
    [None] for [ValueError]. *)
Definition UUID (hex : string) : option Z :=
  let hex := remove_all "uuid:" (remove_all "urn:" hex) in
  let hex := remove_all "-" (strip_set "{}" hex) in
  if negb (Nat.eqb (String.length hex) 32) then None
  else
    match int16 hex with
    | None => None
    | Some i => if (0 <=? i) && (i <? 2 ^ 128) then Some i else None
    end.

(** Setting the RFC 4122 variant and the version number. *)
Definition with_version (version i : Z) : Z :=
  let i := Z.land i (Z.lnot (Z.shiftl 0xc000 48)) in
  let i := Z.lor i (Z.shiftl 0x8000 48) in
  let i := Z.land i (Z.lnot (Z.shiftl 0xf000 64)) in
  Z.lor i (Z.shiftl version 76).

Definition hex_digit (d : Z) : ascii :=
  if d <? 10 then ascii_of_nat (Z.to_nat (48 + d)) else ascii_of_nat (Z.to_nat (87 + d)).

(** ['%0nx' % i] *)
Fixpoint hex_fixed (n : nat) (i : Z) (acc : string) : string :=
  match n with
  | O => acc
  | S n' => hex_fixed n' (Z.shiftr i 4) (String (hex_digit (Z.land i 15)) acc)
  end.

(** [str(UUID(int=i))] *)
Definition str_of_uuid (i : Z) : string :=
  let hex := hex_fixed 32 i EmptyString in
  (substring 0 8 hex +:+ "-" +:+ substring 8 4 hex +:+ "-" +:+ substring 12 4 hex
     +:+ "-" +:+ substring 16 4 hex +:+ "-" +:+ substring 20 12 hex)%string.

(** *** SHA-1 over bytes given as integers in [0, 255] *)

Definition w32 (x : Z) : Z := Z.land x 0xFFFFFFFF.
Definition rotl (n x : Z) : Z := w32 (Z.lor (Z.shiftl x n) (Z.shiftr x (32 - n))).

Fixpoint be_bytes (n : nat) (x : Z) (acc : list Z) : list Z :=
  match n with
  | O => acc
  | S n' => be_bytes n' (Z.shiftr x 8) (Z.land x 255 :: acc)
  end.

Definition sha1_pad (msg : list Z) : list Z :=
  let len := Z.of_nat (length msg) in
  let zeros := Z.to_nat ((55 - len) mod 64) in
  (msg ++ 0x80 :: repeat 0 zeros ++ be_bytes 8 (8 * len) [])%list.

Fixpoint words_of (fuel : nat) (bs : list Z) : list Z :=
  match fuel, bs with
  | S fuel', b0 :: b1 :: b2 :: b3 :: r =>
      (Z.shiftl b0 24 + Z.shiftl b1 16 + Z.shiftl b2 8 + b3) :: words_of fuel' r
  | _, _ => []
  end.

Record sha1_state := { ha : Z; hb : Z; hc : Z; hd : Z; he : Z }.

Definition sha1_f (t : nat) (b c d : Z) : Z * Z :=
  if (t <? 20)%nat then (Z.lor (Z.land b c) (Z.land (w32 (Z.lnot b)) d), 0x5A827999)
  else if (t <? 40)%nat then (Z.lxor (Z.lxor b c) d, 0x6ED9EBA1)
  else if (t <? 60)%nat then
    (Z.lor (Z.lor (Z.land b c) (Z.land b d)) (Z.land c d), 0x8F1BBCDC)
  else (Z.lxor (Z.lxor b c) d, 0xCA62C1D6).

(** Rounds [t], [t+1], ... with a sliding window of the sixteen most
    recent schedule words. *)
Fixpoint sha1_rounds (n t : nat) (win : list Z) (s : sha1_state) : sha1_state :=
  match n with
  | O => s
  | S n' =>
      let wt := nth 0 win 0 in
      let next := rotl 1 (Z.lxor (Z.lxor (Z.lxor (nth 13 win 0) (nth 8 win 0)) (nth 2 win 0)) wt) in
      let '(f, k) := sha1_f t (hb s) (hc s) (hd s) in
      let temp := w32 (rotl 5 (ha s) + f + he s + k + wt) in
      sha1_rounds n' (S t) (tl win ++ [next])%list
        {| ha := temp; hb := ha s; hc := rotl 30 (hb s); hd := hc s; he := hd s |}
  end.

Definition sha1_block (s : sha1_state) (block : list Z) : sha1_state :=
  let r := sha1_rounds 80 0 (words_of 16 block) s in
  {| ha := w32 (ha s + ha r); hb := w32 (hb s + hb r); hc := w32 (hc s + hc r);
     hd := w32 (hd s + hd r); he := w32 (he s + he r) |}.

Fixpoint sha1_blocks (fuel : nat) (s : sha1_state) (bs : list Z) : sha1_state :=
  match fuel, bs with
  | S fuel', _ :: _ => sha1_blocks fuel' (sha1_block s (firstn 64 bs)) (skipn 64 bs)
  | _, _ => s
  end.

Definition sha1 (msg : list Z) : list Z :=
  let padded := sha1_pad msg in
  let s := sha1_blocks (length padded) 
             {| ha := 0x67452301; hb := 0xEFCDAB89; hc := 0x98BADCFE;
                hd := 0x10325476; he := 0xC3D2E1F0 |} padded in
  (be_bytes 4 (ha s) [] ++ be_bytes 4 (hb s) [] ++ be_bytes 4 (hc s) []
     ++ be_bytes 4 (hd s) [] ++ be_bytes 4 (he s) [])%list.

Definition int_from_bytes (bs : list Z) : Z := fold_left (fun acc b => 256 * acc + b) bs 0.

Definition bytes_of_string (s : string) : list Z :=
  map (fun a => Z.of_nat (nat_of_ascii a)) (list_ascii_of_string s).

Definition NAMESPACE_DNS : Z := 0x6ba7b8109dad11d180b400c04fd430c8.

(** [uuid.uuid5(namespace, name)] *)
Definition uuid5 (namespace : Z) (name : string) : Z :=
  let hash := sha1 (be_bytes 16 namespace [] ++ bytes_of_string name)%list in
  with_version 5 (int_from_bytes (firstn 16 hash)).

(** [uuid.uuid4()], from sixteen random bytes read as an integer. *)
Definition uuid4 (random : Z) : Z := with_version 4 (Z.land random (2 ^ 128 - 1)).

End PyUuid.

Module PyUuidExamples.
Import PyUuid.

Example sha1_abc :
  hex_fixed 40 (int_from_bytes (sha1 (bytes_of_string "abc"))) "" =
  "a9993e364706816aba3e25717850c26c9cd0d89d".
Proof. vm_compute. reflexivity. Qed.

Example uuid5_u1 :
  str_of_uuid (uuid5 NAMESPACE_DNS "u1") = "db6cd388-0abf-538a-8503-dd3358d93458".
Proof. vm_compute. reflexivity. Qed.

Example UUID_canonical :
  UUID "12345678-1234-5678-1234-567812345678" = Some 0x12345678123456781234567812345678%Z.
Proof. vm_compute. reflexivity. Qed.

Example UUID_braces_upper :
  UUID "{ABCDEF78-1234-5678-1234-567812345678}" = Some 0xabcdef78123456781234567812345678%Z.
Proof. vm_compute. reflexivity. Qed.

Example UUID_short_name : UUID "u1" = None.
Proof. vm_compute. reflexivity. Qed.

End PyUuidExamples.

(** ** The host: filesystem, working directory and random source *)

Module Os.
Import PyStr PosixPath.

Inductive inode :=
| IFile (data : string)
| IDir.

#[global] Instance inode_eq_dec : EqDecision inode.
Proof. solve_decision. Defined.

(** The state a tool call runs against. The working directory is kept as
    its components, so that [os.getcwd()] is an absolute path; the root
    directory is the entry of the empty component list. [urandom n] is the
    [n]-th draw of sixteen random bytes (as an integer); [draws] counts the
    draws made. *)
Record World := mkWorld {
  cwd_components : list string;
  fs : gmap (list string) inode;
  urandom : nat -> Z;
  draws : nat
}.

(** [os.getcwd()] *)
Definition cwd (w : World) : string := String sep (PyStr.join "/" (cwd_components w)).

Definition set_fs (w : World) (m : gmap (list string) inode) : World :=
  {| cwd_components := cwd_components w; fs := m; urandom := urandom w; draws := draws w |}.

(** Exceptions. [UnicodeDecodeError] and [UnicodeEncodeError] are
    subclasses of [ValueError]; [KeyError] is a missing dictionary key. *)
Inductive exn :=
| ValueError (msg : string)
| UnicodeDecodeError (codec : string)
| UnicodeEncodeError (codec : string)
| KeyError (key : string)
| OSError (errno : Z) (filename : string).

Definition is_ValueError (e : exn) : bool :=
  match e with
  | ValueError _ | UnicodeDecodeError _ | UnicodeEncodeError _ => true
  | _ => false
  end.

Definition is_UnicodeDecodeError (e : exn) : bool :=
  match e with UnicodeDecodeError _ => true | _ => false end.

Definition ENOENT : Z := 2.
Definition EEXIST : Z := 17.
Definition ENOTDIR : Z := 20.
Definition EISDIR : Z := 21.
Definition ENOTEMPTY : Z := 39.

Definition strerror (errno : Z) : string :=
  if Z.eqb errno ENOENT then "No such file or directory"
  else if Z.eqb errno EEXIST then "File exists"
  else if Z.eqb errno ENOTDIR then "Not a directory"
  else if Z.eqb errno EISDIR then "Is a directory"
  else if Z.eqb errno ENOTEMPTY then "Directory not empty"
  else "Unknown error".

(** [str(e)]; the codec errors omit the byte position. *)
Definition str_exn (e : exn) : string :=
  match e with
  | ValueError msg => msg
  | UnicodeDecodeError codec => "'" +:+ codec +:+ "' codec can't decode bytes"
  | UnicodeEncodeError codec => "'" +:+ codec +:+ "' codec can't encode characters"
  | KeyError key => "'" +:+ key +:+ "'"
  | OSError errno filename =>
      "[Errno " +:+ pretty errno +:+ "] " +:+ strerror errno +:+ ": '" +:+ filename +:+ "'"
  end.

(** *** A state and exception monad *)

Inductive outcome (A : Type) :=
| Ret (a : A)
| Raise (e : exn).
Arguments Ret {A} a.
Arguments Raise {A} e.

Definition M (A : Type) : Type := World -> outcome A * World.

Definition ret {A} (a : A) : M A := fun w => (Ret a, w).
Definition raise {A} (e : exn) : M A := fun w => (Raise e, w).
Definition bind {A B} (m : M A) (k : A -> M B) : M B :=
  fun w => match m w with
           | (Ret a, w') => k a w'
           | (Raise e, w') => (Raise e, w')
           end.
Definition get : M World := fun w => (Ret w, w).
Definition modify_fs (f : gmap (list string) inode -> gmap (list string) inode) : M unit :=
  fun w => (Ret tt, set_fs w (f (fs w))).

(** [try: m except Exception as e: h e] *)
Definition try_except {A} (m : M A) (h : exn -> A) : M A :=
  fun w => match m w with
           | (Ret a, w') => (Ret a, w')
           | (Raise e, w') => (Ret (h e), w')
           end.

Declare Scope os_scope.
Delimit Scope os_scope with os.
Notation "x <- m ;; k" := (bind m (fun x => k))
  (at level 100, m at next level, right associativity) : os_scope.
Notation "m ;;; k" := (bind m (fun _ => k))
  (at level 100, right associativity) : os_scope.
Local Open Scope os_scope.

(** *** Paths as keys *)

(** The kernel resolves a path against the working directory. Without
    symbolic links this is the component list of [abspath]. *)
Definition key_of (w : World) (p : string) : list string :=
  components (abspath (cwd w) p).

Definition parent (k : list string) : list string := removelast k.

(** The name of [k'] when it is a direct child of [k]. *)
Fixpoint child_name (k k' : list string) : option string :=
  match k, k' with
  | [], [n] => Some n
  | x :: k1, y :: k1' => if String.eqb x y then child_name k1 k1' else None
  | _, _ => None
  end.

Definition listdir_key (m : gmap (list string) inode) (k : list string) : list string :=
  omap (fun kv => child_name k (fst kv)) (map_to_list m).

Fixpoint is_prefix (k k' : list string) : bool :=
  match k, k' with
  | [], _ => true
  | x :: k1, y :: k1' => String.eqb x y && is_prefix k1 k1'
  | _ :: _, [] => false
  end.

(** Removal of [k] and of everything below it. *)
Definition remove_tree (k : list string) (m : gmap (list string) inode)
  : gmap (list string) inode :=
  filter (fun kv => is_prefix k (fst kv) = false) m.

(** The error number for a path that leads to no entry: [ENOTDIR] when it
    passes through a file, [ENOENT] otherwise. *)
Fixpoint through_file (m : gmap (list string) inode) (done todo : list string) : bool :=
  match todo with
  | [] => false
  | x :: rest =>
      match m !! done with
      | Some (IFile _) => true
      | _ => through_file m (done ++ [x]) rest
      end
  end.

Definition missing_errno (m : gmap (list string) inode) (k : list string) : Z :=
  if through_file m [] k then ENOTDIR else ENOENT.

(** *** os and os.path on the world *)

Definition getcwd : M string := fun w => (Ret (cwd w), w).

Definition path_exists (p : string) : M bool :=
  fun w => (Ret (match fs w !! key_of w p with Some _ => true | None => false end), w).

Definition isfile (p : string) : M bool :=
  fun w => (Ret (match fs w !! key_of w p with Some (IFile _) => true | _ => false end), w).

Definition isdir (p : string) : M bool :=
  fun w => (Ret (match fs w !! key_of w p with Some IDir => true | _ => false end), w).

(** [st_size]: the byte count of a file; for a directory the host reports
    the size of its block, taken to be 4096. *)
Definition inode_size (i : inode) : nat :=
  match i with
  | IFile data => String.length data
  | IDir => 4096
  end.

Definition getsize (p : string) : M nat :=
  fun w => match fs w !! key_of w p with
           | Some i => (Ret (inode_size i), w)
           | None => (Raise (OSError (missing_errno (fs w) (key_of w p)) p), w)
           end.

Definition listdir (p : string) : M (list string) :=
  fun w => match fs w !! key_of w p with
           | Some IDir => (Ret (listdir_key (fs w) (key_of w p)), w)
           | Some (IFile _) => (Raise (OSError ENOTDIR p), w)
           | None => (Raise (OSError (missing_errno (fs w) (key_of w p)) p), w)
           end.

(** [os.makedirs] walks down from the root, creating what is missing. *)
Fixpoint makedirs_walk (done todo : list string) (exist_ok : bool)
    (m : gmap (list string) inode) : Z + gmap (list string) inode :=
  match todo with
  | [] => if exist_ok then inr m else inl EEXIST
  | [x] =>
      let k := done ++ [x] in
      match m !! k with
      | Some IDir => if exist_ok then inr m else inl EEXIST
      | Some (IFile _) => inl EEXIST
      | None => inr (<[k := IDir]> m)
      end
  | x :: todo' =>
      let k := done ++ [x] in
      match m !! k with
      | Some IDir => makedirs_walk k todo' exist_ok m
      | Some (IFile _) => inl ENOTDIR
      | None => makedirs_walk k todo' exist_ok (<[k := IDir]> m)
      end
  end.

Definition makedirs (p : string) (exist_ok : bool) : M unit :=
  fun w => match makedirs_walk [] (key_of w p) exist_ok (fs w) with
           | inr m => (Ret tt, set_fs w m)
           | inl errno => (Raise (OSError errno p), w)
           end.

(** [os.mkdir] *)
Definition mkdir (p : string) : M unit :=
  fun w =>
    let k := key_of w p in
    match fs w !! k with
    | Some _ => (Raise (OSError EEXIST p), w)
    | None =>
        match fs w !! parent k with
        | Some IDir => (Ret tt, set_fs w (<[k := IDir]> (fs w)))
        | Some (IFile _) => (Raise (OSError ENOTDIR p), w)
        | None => (Raise (OSError (missing_errno (fs w) k) p), w)
        end
    end.

(** [os.remove] *)
Definition remove (p : string) : M unit :=
  fun w =>
    let k := key_of w p in
    match fs w !! k with
    | Some (IFile _) => (Ret tt, set_fs w (delete k (fs w)))
    | Some IDir => (Raise (OSError EISDIR p), w)
    | None => (Raise (OSError (missing_errno (fs w) k) p), w)
    end.

(** [os.rmdir]: only an empty directory can be removed. *)
Definition rmdir (p : string) : M unit :=
  fun w =>
    let k := key_of w p in
    match fs w !! k with
    | Some IDir =>
        match listdir_key (fs w) k with
        | [] => (Ret tt, set_fs w (delete k (fs w)))
        | _ :: _ => (Raise (OSError ENOTEMPTY p), w)
        end
    | Some (IFile _) => (Raise (OSError ENOTDIR p), w)
    | None => (Raise (OSError (missing_errno (fs w) k) p), w)
    end.

(** [shutil.rmtree] *)
Definition rmtree (p : string) : M unit :=
  fun w =>
    let k := key_of w p in
    match fs w !! k with
    | Some IDir => (Ret tt, set_fs w (remove_tree k (fs w)))
    | Some (IFile _) => (Raise (OSError ENOTDIR p), w)
    | None => (Raise (OSError (missing_errno (fs w) k) p), w)
    end.

(** *** Text files *)

(** A text encoding, as the text layer of [open] uses it. [encode] is the
    encoder at the start of a file and [encode_more] the encoder further
    on; they differ for the codecs that begin a file with a byte-order
    mark. [decode] is the incremental decoder on a whole file, told that
    no bytes follow, and [decode_part] the same decoder on the bytes read
    so far, which holds back the bytes of a character that is not
    complete. [None] from an encoder is [UnicodeEncodeError], from a
    decoder it is [UnicodeDecodeError]. *)
Record Codec := mkCodec {
  codec_name : string;
  encode : string -> option string;
  encode_more : string -> option string;
  decode : string -> option string;
  decode_part : string -> option string
}.

Definition CR : ascii := "013"%char.
Definition LF : ascii := "010"%char.

(** Universal newlines on reading: ["\r\n"] and ["\r"] become ["\n"]. *)
Fixpoint universal_newlines (s : string) : string :=
  match s with
  | EmptyString => EmptyString
  | String a r =>
      if eqb_ascii a CR then
        match r with
        | String b r' =>
            if eqb_ascii b LF then String LF (universal_newlines r')
            else String LF (universal_newlines r)
        | EmptyString => String LF EmptyString
        end
      else String a (universal_newlines r)
  end.

(** Iterating over a text file: the lines, each with its terminator. *)
Fixpoint lines_of (s : string) : list string :=
  match s with
  | EmptyString => []
  | String a r =>
      if eqb_ascii a LF then String a EmptyString :: lines_of r
      else match lines_of r with
           | [] => [String a EmptyString]
           | l :: ls => String a l :: ls
           end
  end.

(** While more bytes may follow, a carriage return at the end of the
    text is held back, and a line counts once its terminator is there. *)
Fixpoint hold_cr (s : string) : string :=
  match s with
  | EmptyString => EmptyString
  | String a EmptyString => if eqb_ascii a CR then EmptyString else s
  | String a r => String a (hold_cr r)
  end.

Definition complete_lines (text : string) : list string :=
  List.filter (endswith_char LF) (lines_of (universal_newlines (hold_cr text))).

(** The text layer reads and decodes the file in chunks of this size. *)
Definition CHUNK_SIZE : nat := N.to_nat 8192.

(** Reading on, chunk by chunk, a file that does not decode as a whole:
    [j] chunks are read. The bytes that cannot be decoded are an error
    once they are reached, and they are reached at the latest with the
    end of the file. *)
Fixpoint read_chunks (fuel j : nat) (encoding : Codec) (data : string) (n : nat)
  : option (list string) :=
  match fuel with
  | O => None
  | S fuel' =>
      match decode_part encoding (substring 0 (j * CHUNK_SIZE) data) with
      | None => None
      | Some text =>
          let ready := complete_lines text in
          if (n <=? length ready)%nat then Some (firstn n ready)
          else if (String.length data <=? j * CHUNK_SIZE)%nat then None
          else read_chunks fuel' (S j) encoding data n
      end
  end.

(** The lines that iterating over a file yields when [n] lines are asked
    for, one after the other, and no more. A file that decodes as a whole
    yields its first [n] lines; reading in chunks and decoding them in
    turn gives the same text. Of another file only the chunks needed for
    [n] lines are decoded. *)
Definition lines_read (encoding : Codec) (data : string) (n : nat) : option (list string) :=
  match decode encoding data with
  | Some text => Some (firstn n (lines_of (universal_newlines text)))
  | None => read_chunks (S (String.length data)) 1 encoding data n
  end.

(** [open(p, 'r', encoding=...)] iterated over for at most [n] lines. *)
Definition read_text_lines (p : string) (encoding : Codec) (n : nat) : M (list string) :=
  fun w => match fs w !! key_of w p with
           | Some (IFile data) =>
               match lines_read encoding data n with
               | Some lines => (Ret lines, w)
               | None => (Raise (UnicodeDecodeError (codec_name encoding)), w)
               end
           | Some IDir => (Raise (OSError EISDIR p), w)
           | None => (Raise (OSError (missing_errno (fs w) (key_of w p)) p), w)
           end.

(** [with open(p, mode, encoding=...) as f: f.write(content)]. Opening in
    mode ['w'] truncates before anything is encoded. In mode ['a'] the
    encoder starts further on when the file is not empty, so that no
    second byte-order mark is written. *)
Definition write_text (p : string) (append : bool) (encoding : Codec) (content : string)
  : M unit :=
  fun w =>
    let k := key_of w p in
    match fs w !! k with
    | Some IDir => (Raise (OSError EISDIR p), w)
    | existing =>
        match fs w !! parent k with
        | Some IDir =>
            let old := match existing with
                       | Some (IFile data) => if append then data else EmptyString
                       | _ => EmptyString
                       end in
            let encoded := if truthy old then encode_more encoding content
                           else encode encoding content in
            match encoded with
            | Some bytes => (Ret tt, set_fs w (<[k := IFile (old +:+ bytes)]> (fs w)))
            | None => (Raise (UnicodeEncodeError (codec_name encoding)),
                       set_fs w (<[k := IFile old]> (fs w)))
            end
        | Some (IFile _) => (Raise (OSError ENOTDIR p), w)
        | None => (Raise (OSError (missing_errno (fs w) k) p), w)
        end
    end.

(** [os.walk(top)], top-down. The recursion is bounded by the number of
    entries of the filesystem, which bounds its depth. *)
Fixpoint walk_from (fuel : nat) (m : gmap (list string) inode) (top : string)
    (k : list string) : list (string * list string * list string) :=
  match fuel with
  | O => []
  | S fuel' =>
      match m !! k with
      | Some IDir =>
          let names := listdir_key m k in
          let is_d := fun n => match m !! (k ++ [n]) with Some IDir => true | _ => false end in
          let dirs := List.filter is_d names in
          let files := List.filter (fun n => negb (is_d n)) names in
          (top, dirs, files)
            :: flat_map (fun d => walk_from fuel' m (PosixPath.join top d) (k ++ [d])) dirs
      | _ => []
      end
  end.

Definition walk (top : string) : M (list (string * list string * list string)) :=
  fun w => (Ret (walk_from (S (size (fs w))) (fs w) top (key_of w top)), w).

(** Sixteen fresh random bytes. *)
Definition urandom16 : M Z :=
  fun w => (Ret (urandom w (draws w)),
            {| cwd_components := cwd_components w; fs := fs w; urandom := urandom w;
               draws := S (draws w) |}).

End Os.

(** ** filesystem_server.py *)

Module FilesystemServer.
Import PyStr PosixPath PyUuid Os.
Local Open Scope os_scope.
Local Open Scope Z_scope.

Definition ALLOWED_EXTENSIONS : list string :=
  [".txt"; ".md"; ".json"; ".csv"; ".xml"; ".html"; ".css"; ".js"; ".py"; ".java";
   ".cpp"; ".c"; ".h"; ".rb"; ".go"; ".rs"; ".php"; ".sql"; ".yaml"; ".yml";
   ".ini"; ".cfg"; ".conf"; ".log"; ".dockerfile"; ".gitignore"; ".env.example";
   ".pdf"; ".docx"; ".xlsx"; ".pptx"; ".zip"; ".tar"; ".gz"].

(** [ext in ALLOWED_EXTENSIONS] *)
Definition allowed (ext : string) : bool := existsb (String.eqb ext) ALLOWED_EXTENSIONS.

Definition USER_WORKSPACE_BASE : string := "./user-workspaces".

Definition MAX_FILE_SIZE : Z := 10 * 1024 * 1024.

(** What a tool returns: a plain message, or a report whose template is
    filled with the given values. Timestamps, permission bits and MIME
    types come from [os.stat] and [mimetypes] and are left out of the
    reports. *)
Inductive reply (A : Type) :=
| Report (a : A)
| Message (text : string).
Arguments Report {A} a.
Arguments Message {A} text.

Definition get_user_workspace (user_id : option string) : M string :=
  user_id <- match user_id with
             | Some u => if truthy u then ret u
                         else (r <- urandom16 ;; ret (str_of_uuid (uuid4 r)))
             | None => r <- urandom16 ;; ret (str_of_uuid (uuid4 r))
             end ;;
  let user_id := match UUID user_id with
                 | Some _ => user_id
                 | None => str_of_uuid (uuid5 NAMESPACE_DNS user_id)
                 end in
  let workspace_path := join USER_WORKSPACE_BASE user_id in
  makedirs workspace_path true ;;;
  ret workspace_path.

Definition resolve_user_path (path : string) (user_id : option string) : M string :=
  user_workspace <- get_user_workspace user_id ;;
  let path := if isabs path then lstrip_char sep path else path in
  let resolved_path := join user_workspace path in
  cwd <- getcwd ;;
  let resolved_path := abspath cwd resolved_path in
  let workspace_abs := abspath cwd user_workspace in
  if negb (startswith workspace_abs resolved_path)
  then raise (ValueError ("Path '" +:+ path +:+ "' is outside user workspace"))
  else ret resolved_path.

Definition is_safe_path (resolved_path user_workspace : string) : M bool :=
  cwd <- getcwd ;;
  let workspace_abs := abspath cwd user_workspace in
  let path_abs := abspath cwd resolved_path in
  ret (startswith workspace_abs path_abs).

Record file_info := mk_file_info {
  size : Z;
  is_file : bool;
  is_dir : bool
}.

(** The dictionary of [get_file_info], or the text under its ['error']
    key. *)
Definition get_file_info (path : string) : M (file_info + string) :=
  try_except
    (sz <- getsize path ;;
     f <- isfile path ;;
     d <- isdir path ;;
     ret (inl {| size := Z.of_nat sz; is_file := f; is_dir := d |}))
    (fun e => inr (str_exn e)).

(** [os.path.relpath] in the monad *)
Definition relpath_m (path start : string) : M string :=
  cwd <- getcwd ;;
  match relpath cwd path start with
  | Some r => ret r
  | None => raise (ValueError "no path specified")
  end.

(** [sorted(names)] *)
Definition sorted (names : list string) : list string := merge_sort String.le names.

(** *** list_directory *)

Record dir_entry := mk_dir_entry {
  entry_name : string;
  entry_type : string;
  entry_path : string;
  entry_size : string
}.

Record listing := mk_listing {
  listing_path : string;
  listing_count : Z;
  listing_items : list dir_entry
}.

Fixpoint list_directory_loop (resolved_path user_workspace : string) (show_hidden : bool)
    (max_items : Z) (names : list string) (items : list dir_entry) (count : Z)
  : M (list dir_entry * Z) :=
  match names with
  | [] => ret (items, count)
  | item :: rest =>
      if count >=? max_items then ret (items, count)
      else if negb show_hidden && startswith "." item then
        list_directory_loop resolved_path user_workspace show_hidden max_items rest items count
      else
        let item_path := join resolved_path item in
        info <- get_file_info item_path ;;
        match info with
        | inr _ =>
            list_directory_loop resolved_path user_workspace show_hidden max_items rest items count
        | inl info =>
            let item_type := if is_dir info then "DIR" else "FILE" in
            let size_str := if is_file info then pretty (size info) +:+ " bytes" else "" in
            relative_item_path <- relpath_m item_path user_workspace ;;
            list_directory_loop resolved_path user_workspace show_hidden max_items rest
              (items ++ [{| entry_name := item; entry_type := item_type;
                            entry_path := relative_item_path; entry_size := size_str |}])
              (count + 1)
        end
  end.

Definition list_directory (path : string) (show_hidden : bool) (max_items : Z)
    (user_id : option string) : M (reply listing) :=
  try_except
    (user_workspace <- get_user_workspace user_id ;;
     resolved_path <- resolve_user_path path user_id ;;
     safe <- is_safe_path resolved_path user_workspace ;;
     if negb safe then ret (Message ("Error: Access denied to path: " +:+ path)) else
     ex <- path_exists resolved_path ;;
     if negb ex then ret (Message ("Error: Path does not exist: " +:+ path)) else
     d <- isdir resolved_path ;;
     if negb d then ret (Message ("Error: Path is not a directory: " +:+ path)) else
     names <- listdir resolved_path ;;
     r <- list_directory_loop resolved_path user_workspace show_hidden max_items
            (sorted names) [] 0 ;;
     match fst r with
     | [] => ret (Message ("Directory " +:+ path +:+ " is empty or no accessible items found."))
     | _ =>
         relative_display_path <- relpath_m resolved_path user_workspace ;;
         ret (Report {| listing_path := relative_display_path;
                        listing_count := snd r;
                        listing_items := fst r |})
     end)
    (fun e => if is_ValueError e then Message ("Error: " +:+ str_exn e)
              else Message ("Error listing directory: " +:+ str_exn e)).

(** *** read_file *)

Record file_report := mk_file_report {
  report_file : string;
  report_size : Z;
  report_encoding : string;
  report_lines_shown : Z;
  report_content : string
}.

Definition truncation_marker (max_lines : Z) : string :=
  String LF "... (truncated after " +:+ pretty max_lines +:+ " lines)".

(** The loop over [enumerate(f)], started at index [i]. It takes line
    [i] from the file only while [i <= max_lines]: at [i = max_lines] it
    appends the marker and leaves. The file is therefore asked for at
    most [max_lines + 1] lines (one line when [max_lines] is negative). *)
Fixpoint read_loop (max_lines i : Z) (file_lines lines : list string) : list string :=
  match file_lines with
  | [] => lines
  | line :: rest =>
      if i >=? max_lines then lines ++ [truncation_marker max_lines]
      else read_loop max_lines (i + 1) rest (lines ++ [rstrip line])
  end.

Definition info_size (info : file_info + string) : Z :=
  match info with
  | inl i => size i
  | inr _ => 0
  end.

Definition read_file (path : string) (encoding : Codec) (max_lines : Z)
    (user_id : option string) : M (reply file_report) :=
  try_except
    (user_workspace <- get_user_workspace user_id ;;
     resolved_path <- resolve_user_path path user_id ;;
     safe <- is_safe_path resolved_path user_workspace ;;
     if negb safe then ret (Message ("Error: Access denied to path: " +:+ path)) else
     ex <- path_exists resolved_path ;;
     if negb ex then ret (Message ("Error: File does not exist: " +:+ path)) else
     f <- isfile resolved_path ;;
     if negb f then ret (Message ("Error: Path is not a file: " +:+ path)) else
     file_size <- getsize resolved_path ;;
     let file_size := Z.of_nat file_size in
     if file_size >? MAX_FILE_SIZE then
       ret (Message ("Error: File too large (" +:+ pretty file_size
                       +:+ " bytes). Maximum allowed: " +:+ pretty MAX_FILE_SIZE +:+ " bytes"))
     else
     let ext := snd (splitext resolved_path) in
     if negb (allowed (lower ext)) then
       ret (Message ("Error: File type '" +:+ ext +:+ "' not allowed for reading"))
     else
     file_lines <- read_text_lines resolved_path encoding (Z.to_nat max_lines + 1) ;;
     let lines := read_loop max_lines 0 file_lines [] in
     info <- get_file_info resolved_path ;;
     relative_path <- relpath_m resolved_path user_workspace ;;
     ret (Report {| report_file := relative_path;
                    report_size := info_size info;
                    report_encoding := codec_name encoding;
                    report_lines_shown := Z.min (Z.of_nat (length lines)) max_lines;
                    report_content := PyStr.concat lines |}))
    (fun e => if is_ValueError e then Message ("Error: " +:+ str_exn e)
              else if is_UnicodeDecodeError e then
                Message ("Error: Cannot decode file with " +:+ codec_name encoding
                           +:+ " encoding. File may be binary.")
              else Message ("Error reading file: " +:+ str_exn e)).

(** *** write_file *)

Record write_report := mk_write_report {
  written_action : string;
  written_file : string;
  written_size : Z;
  written_length : Z
}.

Definition write_file (path content : string) (encoding : Codec) (append : bool)
    (user_id : option string) : M (reply write_report) :=
  try_except
    (user_workspace <- get_user_workspace user_id ;;
     resolved_path <- resolve_user_path path user_id ;;
     safe <- is_safe_path resolved_path user_workspace ;;
     if negb safe then ret (Message ("Error: Access denied to path: " +:+ path)) else
     let ext := snd (splitext resolved_path) in
     if negb (allowed (lower ext)) then
       ret (Message ("Error: File type '" +:+ ext +:+ "' not allowed for writing"))
     else
     let directory := dirname resolved_path in
     ex <- path_exists directory ;;
     (if truthy directory && negb ex then makedirs directory false else ret tt) ;;;
     write_text resolved_path append encoding content ;;;
     info <- get_file_info resolved_path ;;
     relative_path <- relpath_m resolved_path user_workspace ;;
     let action := if append then "appended to" else "written to" in
     ret (Report {| written_action := action;
                    written_file := relative_path;
                    written_size := info_size info;
                    written_length := Z.of_nat (len content) |}))
    (fun e => if is_ValueError e then Message ("Error: " +:+ str_exn e)
              else Message ("Error writing file: " +:+ str_exn e)).

(** *** delete_file *)

Definition delete_file (path : string) (force : bool) (user_id : option string) : M string :=
  try_except
    (user_workspace <- get_user_workspace user_id ;;
     resolved_path <- resolve_user_path path user_id ;;
     safe <- is_safe_path resolved_path user_workspace ;;
     if negb safe then ret ("Error: Access denied to path: " +:+ path) else
     ex <- path_exists resolved_path ;;
     if negb ex then ret ("Error: Path does not exist: " +:+ path) else
     info <- get_file_info resolved_path ;;
     relative_path <- relpath_m resolved_path user_workspace ;;
     f <- isfile resolved_path ;;
     if f then
       remove resolved_path ;;;
       ret ("File deleted successfully: " +:+ relative_path)
     else
       d <- isdir resolved_path ;;
       if d then
         if force then
           rmtree resolved_path ;;;
           ret ("Directory deleted successfully (forced): " +:+ relative_path)
         else
           rmdir resolved_path ;;;
           ret ("Empty directory deleted successfully: " +:+ relative_path)
       else ret ("Error: Unknown file type: " +:+ path))
    (fun e =>
       if is_ValueError e then "Error: " +:+ str_exn e
       else match e with
            | OSError errno _ =>
                if errno =? 39 then
                  "Error: Directory not empty. Use force=True to delete non-empty directory: "
                    +:+ path
                else "Error deleting path: " +:+ str_exn e
            | _ => "Error deleting path: " +:+ str_exn e
            end).

(** *** search_files *)

Record match_entry := mk_match_entry {
  match_path : string;
  match_type : string;
  match_size : string
}.

Record search_report := mk_search_report {
  search_count : Z;
  search_pattern : string;
  search_dir : string;
  search_matches : list match_entry
}.

Section Search.

(** [fnmatch.fnmatch(name, pattern)]: shell-style wildcard matching of
    the standard library. *)
Variable fnmatch : string -> string -> bool.

(** The inner loop over the items of one directory. *)
Fixpoint search_items (root user_workspace pattern : string) (max_results : Z)
    (items : list string) (matches : list match_entry) (count : Z)
  : M (list match_entry * Z) :=
  match items with
  | [] => ret (matches, count)
  | item :: rest =>
      if count >=? max_results then ret (matches, count)
      else if fnmatch item pattern then
        let item_path := join root item in
        safe <- is_safe_path item_path user_workspace ;;
        if safe then
          info <- get_file_info item_path ;;
          rel_path <- relpath_m item_path user_workspace ;;
          match info with
          | inr _ => raise (KeyError "is_file")
          | inl info =>
              let item_type := if is_file info then "FILE" else "DIR" in
              let size_str := if is_file info then pretty (size info) +:+ " bytes" else "" in
              search_items root user_workspace pattern max_results rest
                (matches ++ [{| match_path := rel_path; match_type := item_type;
                                match_size := size_str |}])
                (count + 1)
          end
        else search_items root user_workspace pattern max_results rest matches count
      else search_items root user_workspace pattern max_results rest matches count
  end.

(** The outer loop over [os.walk(resolved_dir)]. *)
Fixpoint search_walk (user_workspace pattern : string) (file_only : bool) (max_results : Z)
    (triples : list (string * list string * list string))
    (matches : list match_entry) (count : Z) : M (list match_entry * Z) :=
  match triples with
  | [] => ret (matches, count)
  | (root, dirs, files) :: rest =>
      if count >=? max_results then ret (matches, count)
      else
        safe <- is_safe_path root user_workspace ;;
        if negb safe then
          search_walk user_workspace pattern file_only max_results rest matches count
        else
          let items := if file_only then files else files ++ dirs in
          r <- search_items root user_workspace pattern max_results items matches count ;;
          search_walk user_workspace pattern file_only max_results rest (fst r) (snd r)
  end.

Definition search_files (directory pattern : string) (file_only : bool) (max_results : Z)
    (user_id : option string) : M (reply search_report) :=
  try_except
    (user_workspace <- get_user_workspace user_id ;;
     resolved_dir <- resolve_user_path directory user_id ;;
     safe <- is_safe_path resolved_dir user_workspace ;;
     if negb safe then ret (Message ("Error: Access denied to directory: " +:+ directory)) else
     ex <- path_exists resolved_dir ;;
     if negb ex then ret (Message ("Error: Directory does not exist: " +:+ directory)) else
     d <- isdir resolved_dir ;;
     if negb d then ret (Message ("Error: Path is not a directory: " +:+ directory)) else
     triples <- walk resolved_dir ;;
     r <- search_walk user_workspace pattern file_only max_results triples [] 0 ;;
     match fst r with
     | [] => ret (Message ("No files matching pattern '" +:+ pattern +:+ "' found in "
                             +:+ directory))
     | _ =>
         relative_search_dir <- relpath_m resolved_dir user_workspace ;;
         ret (Report {| search_count := Z.of_nat (length (fst r));
                        search_pattern := pattern;
                        search_dir := relative_search_dir;
                        search_matches := fst r |})
     end)
    (fun e => if is_ValueError e then Message ("Error: " +:+ str_exn e)
              else Message ("Error searching files: " +:+ str_exn e)).

End Search.

(** *** get_file_info_tool *)

Record info_report := mk_info_report {
  info_path : string;
  info_type : string;
  info_size_bytes : Z;
  info_items : option Z
}.

Definition get_file_info_tool (path : string) (user_id : option string)
  : M (reply info_report) :=
  try_except
    (user_workspace <- get_user_workspace user_id ;;
     resolved_path <- resolve_user_path path user_id ;;
     safe <- is_safe_path resolved_path user_workspace ;;
     if negb safe then ret (Message ("Error: Access denied to path: " +:+ path)) else
     ex <- path_exists resolved_path ;;
     if negb ex then ret (Message ("Error: Path does not exist: " +:+ path)) else
     info <- get_file_info resolved_path ;;
     relative_path <- relpath_m resolved_path user_workspace ;;
     match info with
     | inr _ => raise (KeyError "is_file")
     | inl info =>
         let item_type := if is_file info then "File" else "Directory" in
         items <- (if is_dir info then
                     names <- listdir resolved_path ;;
                     ret (Some (Z.of_nat (length names)))
                   else ret None) ;;
         ret (Report {| info_path := relative_path;
                        info_type := item_type;
                        info_size_bytes := size info;
                        info_items := items |})
     end)
    (fun e => if is_ValueError e then Message ("Error: " +:+ str_exn e)
              else Message ("Error getting file info: " +:+ str_exn e)).

(** *** get_workspace_info *)

Record workspace_report := mk_workspace_report {
  workspace_id : string;
  workspace_path : string;
  total_files : Z;
  total_dirs : Z;
  total_size : Z
}.

(** The sizes of the files of one directory; a file whose size cannot be
    read is skipped. *)
Fixpoint sum_sizes (root : string) (files : list string) (total_size : Z) : M Z :=
  match files with
  | [] => ret total_size
  | file :: rest =>
      let file_path := join root file in
      sz <- try_except (n <- getsize file_path ;; ret (Some n)) (fun _ => None) ;;
      match sz with
      | Some n => sum_sizes root rest (total_size + Z.of_nat n)
      | None => sum_sizes root rest total_size
      end
  end.

Fixpoint workspace_stats (triples : list (string * list string * list string))
    (total_files total_dirs total_size : Z) : M (Z * Z * Z) :=
  match triples with
  | [] => ret (total_files, total_dirs, total_size)
  | (root, dirs, files) :: rest =>
      let total_dirs := total_dirs + Z.of_nat (length dirs) in
      let total_files := total_files + Z.of_nat (length files) in
      total_size <- sum_sizes root files total_size ;;
      workspace_stats rest total_files total_dirs total_size
  end.

Definition get_workspace_info (user_id : option string) : M (reply workspace_report) :=
  try_except
    (user_workspace <- get_user_workspace user_id ;;
     cwd <- getcwd ;;
     let workspace_abs := abspath cwd user_workspace in
     triples <- walk user_workspace ;;
     stats <- workspace_stats triples 0 0 0 ;;
     let '(files, dirs, sz) := stats in
     ret (Report {| workspace_id := basename user_workspace;
                    workspace_path := workspace_abs;
                    total_files := files;
                    total_dirs := dirs;
                    total_size := sz |}))
    (fun e => Message ("Error getting workspace info: " +:+ str_exn e)).

End FilesystemServer.

(** ** Facts about paths *)

Module PathFacts.
Import PyStr PosixPath.

Lemma eqb_ascii_true a b : eqb_ascii a b = true <-> a = b.
Proof. unfold eqb_ascii. apply Ascii.eqb_eq. Qed.

Lemma eqb_ascii_refl a : eqb_ascii a a = true.
Proof. apply eqb_ascii_true. reflexivity. Qed.

Lemma startswith_app p s : startswith p (p +:+ s) = true.
Proof. induction p as [|a p IH]; simpl; [reflexivity|]. rewrite eqb_ascii_refl. exact IH. Qed.

Lemma startswith_refl p : startswith p p = true.
Proof. induction p as [|a p IH]; simpl; [reflexivity|]. rewrite eqb_ascii_refl. exact IH. Qed.

Lemma startswith_app_r p s t : startswith p s = true -> startswith p (s +:+ t) = true.
Proof.
  revert s. induction p as [|a p IH]; intros [|b s]; simpl; try reflexivity; try discriminate.
  intros H. apply andb_true_iff in H as [-> H]. simpl. auto.
Qed.

Lemma mem_char_app c s t : mem_char c (s +:+ t) = mem_char c s || mem_char c t.
Proof. induction s as [|a s IH]; simpl; [reflexivity|]. rewrite IH. apply orb_assoc. Qed.

(** Every piece produced by [split] is free of the separator. *)
Lemma split_no_sep c s : Forall (fun x => mem_char c x = false) (split c s).
Proof.
  induction s as [|a s IH]; simpl.
  - repeat constructor.
  - destruct (eqb_ascii a c) eqn:E.
    + constructor; [reflexivity | exact IH].
    + destruct (split c s) as [|x xs]; inversion IH; subst; constructor; simpl;
        try rewrite E; auto.
Qed.

Lemma split_not_nil c s : split c s <> [].
Proof.
  destruct s as [|a s]; simpl; [discriminate|].
  destruct (eqb_ascii a c); [discriminate|]. destruct (split c s); discriminate.
Qed.

Lemma split_no_sep_id c x : mem_char c x = false -> split c x = [x].
Proof.
  induction x as [|a x IH]; simpl; [reflexivity|].
  intros H. apply orb_false_iff in H as [-> H]. rewrite (IH H). reflexivity.
Qed.

Lemma split_app_sep c x s :
  mem_char c x = false -> split c (x +:+ String c s) = x :: split c s.
Proof.
  induction x as [|a x IH]; simpl.
  - intros _. rewrite eqb_ascii_refl. reflexivity.
  - intros H. apply orb_false_iff in H as [-> H]. rewrite (IH H). reflexivity.
Qed.

Lemma split_join comps :
  comps <> [] -> Forall (fun x => mem_char sep x = false) comps ->
  split sep (PyStr.join "/" comps) = comps.
Proof.
  induction comps as [|x [|y ys] IH]; intros Hne Hall; [congruence| |].
  - simpl. inversion Hall; subst. apply (split_no_sep_id sep); assumption.
  - inversion Hall; subst.
    change (PyStr.join "/" (x :: y :: ys)) with (x +:+ String sep (PyStr.join "/" (y :: ys))).
    rewrite (split_app_sep sep) by assumption. f_equal. apply IH; [discriminate | assumption].
Qed.

(** A component of a normalised absolute path. *)
Definition norm_comp (x : string) : Prop :=
  x <> "" /\ x <> curdir /\ x <> pardir /\ mem_char sep x = false.

Lemma normpath_step_abs n stack comp :
  n <> 0 -> Forall norm_comp stack -> mem_char sep comp = false ->
  Forall norm_comp (normpath_step n stack comp).
Proof.
  intros Hn Hst Hc. unfold normpath_step.
  destruct (String.eqb comp "") eqn:E1; simpl; [assumption|].
  destruct (String.eqb comp curdir) eqn:E2; simpl; [assumption|].
  apply String.eqb_neq in E1, E2.
  destruct (String.eqb comp pardir) eqn:E3; simpl.
  - destruct n as [|n]; [congruence|]. simpl.
    destruct stack as [|top rest]; simpl; [constructor|].
    inversion Hst as [|? ? Htop Hrest]; subst.
    destruct (String.eqb top pardir) eqn:E4.
    + apply String.eqb_eq in E4. destruct Htop as (_ & _ & Hp & _). congruence.
    + assumption.
  - apply String.eqb_neq in E3. constructor; [|assumption]. repeat split; assumption.
Qed.

Lemma fold_normpath_abs n comps stack :
  n <> 0 -> Forall norm_comp stack -> Forall (fun x => mem_char sep x = false) comps ->
  Forall norm_comp (fold_left (normpath_step n) comps stack).
Proof.
  intros Hn. revert stack. induction comps as [|c comps IH]; intros stack Hst Hall; simpl.
  - assumption.
  - inversion Hall; subst. apply IH; [|assumption]. apply normpath_step_abs; assumption.
Qed.

Lemma normpath_step_push n stack comp :
  norm_comp comp -> normpath_step n stack comp = comp :: stack.
Proof.
  intros (H1 & H2 & H3 & _). unfold normpath_step.
  apply String.eqb_neq in H1, H2, H3. rewrite H1, H2, H3. reflexivity.
Qed.

Lemma fold_normpath_push n comps stack :
  Forall norm_comp comps -> fold_left (normpath_step n) comps stack = rev comps ++ stack.
Proof.
  revert stack. induction comps as [|c comps IH]; intros stack Hall; simpl; [reflexivity|].
  inversion Hall; subst. rewrite normpath_step_push by assumption.
  rewrite IH by assumption. rewrite <- app_assoc. reflexivity.
Qed.

Lemma normpath_step_skip n stack : normpath_step n stack "" = stack.
Proof. reflexivity. Qed.

Lemma initial_slashes_abs p : isabs p = true -> initial_slashes_of p = 1 \/ initial_slashes_of p = 2.
Proof.
  unfold isabs, initial_slashes_of. intros ->.
  destruct (startswith "//" p && negb (startswith "///" p)); auto.
Qed.

Lemma Forall_rev_norm l : Forall norm_comp l -> Forall norm_comp (rev l).
Proof. apply List.Forall_rev. Qed.

(** The shape of a normalised absolute path: one or two slashes followed
    by the components joined with single slashes. *)
Lemma normpath_abs_shape p :
  isabs p = true ->
  exists n comps, (n = 1 \/ n = 2) /\ Forall norm_comp comps /\
                  normpath p = repeat_sep n +:+ PyStr.join "/" comps.
Proof.
  intros Habs. unfold normpath.
  destruct (String.eqb p "") eqn:E.
  { apply String.eqb_eq in E. subst. discriminate. }
  exists (initial_slashes_of p), (rev (fold_left (normpath_step (initial_slashes_of p)) (split sep p) [])).
  pose proof (initial_slashes_abs p Habs) as Hn.
  split; [assumption|]. split.
  - apply Forall_rev_norm. apply fold_normpath_abs; [lia | constructor | apply split_no_sep].
  - destruct Hn as [-> | ->]; reflexivity.
Qed.

Lemma eqb_ascii_sym a b : eqb_ascii a b = eqb_ascii b a.
Proof. unfold eqb_ascii. apply Ascii.eqb_sym. Qed.

Lemma no_sep_not_abs x : mem_char sep x = false -> startswith "/" x = false.
Proof.
  destruct x as [|a x]; [reflexivity|]. cbn [mem_char startswith]. intros H.
  apply orb_false_iff in H as [H _]. rewrite eqb_ascii_sym. unfold sep in H. rewrite H.
  reflexivity.
Qed.

Lemma startswith_app_l p x s : x <> "" -> startswith (String p "") (x +:+ s) = startswith (String p "") x.
Proof. destruct x as [|a x]; [congruence|]. intros _. simpl. reflexivity. Qed.

(** A non-empty piece without separator. *)
Definition plain (x : string) : Prop := x <> "" /\ mem_char sep x = false.

Lemma norm_comp_plain x : norm_comp x -> plain x.
Proof. intros (H & _ & _ & Hs). split; assumption. Qed.

Lemma join_plain_not_abs comps :
  Forall plain comps -> startswith "/" (PyStr.join "/" comps) = false.
Proof.
  destruct comps as [|x xs]; [reflexivity|]. intros H. inversion H as [|? ? Hx _]; subst.
  destruct Hx as (Hne & Hs).
  destruct xs as [|y ys]; simpl PyStr.join.
  - apply no_sep_not_abs; assumption.
  - rewrite startswith_app_l by assumption. apply no_sep_not_abs; assumption.
Qed.

Lemma join_head_not_sep comps :
  Forall norm_comp comps -> startswith "/" (PyStr.join "/" comps) = false.
Proof.
  intros H. apply join_plain_not_abs. eapply Forall_impl; [exact H|]. apply norm_comp_plain.
Qed.

Lemma normpath_shape_fixed n comps :
  (n = 1 \/ n = 2) -> Forall norm_comp comps ->
  normpath (repeat_sep n +:+ PyStr.join "/" comps) = repeat_sep n +:+ PyStr.join "/" comps.
Proof.
  intros Hn Hall.
  pose proof (join_head_not_sep comps Hall) as Hhead.
  assert (Forall (fun x => mem_char sep x = false) comps) as Hsep.
  { eapply Forall_impl; [exact Hall|]. intros x (_ & _ & _ & H). exact H. }
  set (j := PyStr.join "/" comps) in *.
  assert (initial_slashes_of (repeat_sep n +:+ j) = n) as Hinit.
  { destruct Hn as [-> | ->]; unfold initial_slashes_of.
    - change (repeat_sep 1 +:+ j) with (String sep j).
      destruct j as [|a j]; [reflexivity|]. cbn [startswith] in *.
      rewrite andb_true_r in Hhead. rewrite Hhead. reflexivity.
    - change (repeat_sep 2 +:+ j) with (String sep (String sep j)).
      destruct j as [|a j]; [reflexivity|]. cbn [startswith] in *.
      rewrite andb_true_r in Hhead. rewrite Hhead. reflexivity. }
  assert (fold_left (normpath_step n) (split sep (repeat_sep n +:+ j)) [] = rev comps) as Hfold.
  { assert (fold_left (normpath_step n) (split sep j) [] = rev comps) as Hj.
    { destruct comps as [|x xs].
      - reflexivity.
      - subst j. rewrite split_join by (assumption || discriminate).
        rewrite fold_normpath_push by assumption. apply app_nil_r. }
    destruct Hn as [-> | ->]; simpl; exact Hj. }
  unfold normpath. rewrite Hinit, Hfold, rev_involutive.
  destruct Hn as [-> | ->]; reflexivity.
Qed.

(** [normpath] is idempotent on absolute paths. *)
Lemma normpath_idem p : isabs p = true -> normpath (normpath p) = normpath p.
Proof.
  intros H. destruct (normpath_abs_shape p H) as (n & comps & Hn & Hall & ->).
  apply normpath_shape_fixed; assumption.
Qed.

Lemma normpath_isabs p : isabs p = true -> isabs (normpath p) = true.
Proof.
  intros H. destruct (normpath_abs_shape p H) as (n & comps & Hn & _ & ->).
  destruct Hn as [-> | ->]; reflexivity.
Qed.

Lemma join_isabs a b : isabs a = true -> isabs (join a b) = true.
Proof.
  intros Ha. unfold join, isabs in *.
  destruct (startswith "/" b) eqn:Eb; [exact Eb|].
  destruct (negb (truthy a) || endswith_char sep a); apply startswith_app_r; exact Ha.
Qed.

Lemma abspath_isabs c p : isabs c = true -> isabs (abspath c p) = true.
Proof.
  intros Hc. unfold abspath. apply normpath_isabs.
  destruct (isabs p) eqn:E; [exact E | apply join_isabs; exact Hc].
Qed.

(** [abspath] leaves its own results alone. *)
Lemma abspath_idem c p : isabs c = true -> abspath c (abspath c p) = abspath c p.
Proof.
  intros Hc. unfold abspath at 1. rewrite (abspath_isabs c p Hc).
  unfold abspath. apply normpath_idem.
  destruct (isabs p) eqn:E; [exact E | apply join_isabs; exact Hc].
Qed.

Lemma components_plain s : Forall plain (components s).
Proof.
  unfold components. pose proof (split_no_sep sep s) as H.
  induction H as [|x l Hx _ IH]; simpl; [constructor|].
  destruct x as [|a x]; simpl; [exact IH|]. constructor; [|exact IH].
  split; [discriminate | exact Hx].
Qed.

Lemma Forall_skipn_plain n l : Forall plain l -> Forall plain (skipn n l).
Proof.
  revert l. induction n as [|n IH]; intros l H; simpl; [exact H|].
  destruct l as [|x l]; [constructor|]. inversion H; subst. apply IH. assumption.
Qed.

Lemma Forall_repeat_pardir n : Forall plain (repeat pardir n).
Proof. induction n; simpl; constructor; [split; [discriminate | reflexivity] | assumption]. Qed.

(** [os.path.relpath] never returns an absolute path. *)
Lemma relpath_not_abs c p start r : relpath c p start = Some r -> isabs r = false.
Proof.
  unfold relpath. destruct (negb (truthy p)); [discriminate|].
  set (sl := components (abspath c start)). set (pl := components (abspath c p)).
  set (i := common_len sl pl).
  assert (Forall plain (repeat pardir (length sl - i) ++ skipn i pl)) as Hall.
  { apply Forall_app. split; [apply Forall_repeat_pardir|].
    apply Forall_skipn_plain. apply components_plain. }
  destruct (repeat pardir (length sl - i) ++ skipn i pl) as [|x xs] eqn:E.
  - intros [= <-]. reflexivity.
  - intros [= <-]. unfold isabs. apply (join_plain_not_abs (x :: xs)). exact Hall.
Qed.

End PathFacts.

(** ** Facts about the host *)

Module OsFacts.
Import PyStr PosixPath Os PathFacts.

Lemma bind_Ret {A B} (m : M A) (k : A -> M B) w a w' :
  m w = (Ret a, w') -> bind m k w = k a w'.
Proof. unfold bind. intros ->. reflexivity. Qed.

Lemma bind_Raise {A B} (m : M A) (k : A -> M B) w e w' :
  m w = (Raise e, w') -> bind m k w = (Raise e, w').
Proof. unfold bind. intros ->. reflexivity. Qed.

Lemma try_except_Ret {A} (m : M A) h w a w' :
  m w = (Ret a, w') -> try_except m h w = (Ret a, w').
Proof. unfold try_except. intros ->. reflexivity. Qed.

Lemma try_except_Raise {A} (m : M A) h w e w' :
  m w = (Raise e, w') -> try_except m h w = (Ret (h e), w').
Proof. unfold try_except. intros ->. reflexivity. Qed.

(** A run is determined by its outcome and its final state. *)
Lemma run_Ret {A} (m : M A) w a : fst (m w) = Ret a -> m w = (Ret a, snd (m w)).
Proof. destruct (m w) as [r w']. simpl. intros ->. reflexivity. Qed.

Lemma run_Raise {A} (m : M A) w e : fst (m w) = Raise e -> m w = (Raise e, snd (m w)).
Proof. destruct (m w) as [r w']. simpl. intros ->. reflexivity. Qed.

Lemma cwd_isabs w : isabs (cwd w) = true.
Proof. reflexivity. Qed.

Lemma cwd_set_fs w m : cwd (set_fs w m) = cwd w.
Proof. reflexivity. Qed.

Lemma key_of_set_fs w m p : key_of (set_fs w m) p = key_of w p.
Proof. reflexivity. Qed.

Lemma is_prefix_refl k : is_prefix k k = true.
Proof. induction k as [|x k IH]; simpl; [reflexivity|]. rewrite String.eqb_refl. exact IH. Qed.

(** *** makedirs *)

(** Every non-empty prefix of [todo], below [done], is a directory. *)
Definition dirs_ready (m : gmap (list string) inode) (done todo : list string) : Prop :=
  forall n, (0 < n <= length todo)%nat -> m !! (done ++ firstn n todo) = Some IDir.

Lemma makedirs_walk_cons done x y t ok m :
  makedirs_walk done (x :: y :: t) ok m =
  match m !! (done ++ [x]) with
  | Some IDir => makedirs_walk (done ++ [x]) (y :: t) ok m
  | Some (IFile _) => inl ENOTDIR
  | None => makedirs_walk (done ++ [x]) (y :: t) ok (<[done ++ [x] := IDir]> m)
  end.
Proof. reflexivity. Qed.

Lemma makedirs_walk_preserves done todo ok m m' :
  makedirs_walk done todo ok m = inr m' ->
  forall j v, m !! j = Some v -> m' !! j = Some v.
Proof.
  revert done m. induction todo as [|x t IH]; intros done m H j v Hj.
  - simpl in H. destruct ok; [|discriminate]. injection H as <-. exact Hj.
  - destruct t as [|y t].
    + simpl in H. destruct (m !! (done ++ [x])) as [[d|]|] eqn:E.
      * discriminate.
      * destruct ok; [|discriminate]. injection H as <-. exact Hj.
      * injection H as <-. rewrite lookup_insert_ne; [exact Hj|]. congruence.
    + rewrite makedirs_walk_cons in H. destruct (m !! (done ++ [x])) as [[d|]|] eqn:E.
      * discriminate.
      * eapply IH; eassumption.
      * eapply IH; [eassumption|]. rewrite lookup_insert_ne; [exact Hj|]. congruence.
Qed.

(** What [makedirs] adds is a directory on the way to its target. *)
Lemma makedirs_walk_new done todo ok m m' :
  makedirs_walk done todo ok m = inr m' ->
  forall j v, m' !! j = Some v -> m !! j = None ->
              v = IDir /\ is_prefix j (done ++ todo) = true.
Proof.
  revert done m. induction todo as [|x t IH]; intros done m H j v Hj Hn.
  - simpl in H. destruct ok; [|discriminate]. injection H as <-. congruence.
  - assert (is_prefix (done ++ [x]) (done ++ x :: t) = true) as Hpre.
    { clear. induction done as [|d done IH]; simpl.
      - rewrite String.eqb_refl. reflexivity.
      - rewrite String.eqb_refl. exact IH. }
    destruct t as [|y t].
    + simpl in H. destruct (m !! (done ++ [x])) as [[d|]|] eqn:E.
      * discriminate.
      * destruct ok; [|discriminate]. injection H as <-. congruence.
      * injection H as <-. destruct (decide (done ++ [x] = j)) as [<-|Hne].
        -- rewrite lookup_insert_eq in Hj. injection Hj as <-. split; [reflexivity | exact Hpre].
        -- rewrite lookup_insert_ne in Hj by exact Hne. congruence.
    + rewrite makedirs_walk_cons in H.
      replace (done ++ x :: y :: t) with ((done ++ [x]) ++ y :: t)
        by (rewrite <- app_assoc; reflexivity).
      destruct (m !! (done ++ [x])) as [[d|]|] eqn:E.
      * discriminate.
      * eapply IH; eassumption.
      * destruct (decide (done ++ [x] = j)) as [<-|Hne].
        -- pose proof (makedirs_walk_preserves _ _ _ _ _ H (done ++ [x]) IDir) as Hp.
           rewrite lookup_insert_eq in Hp. specialize (Hp eq_refl).
           rewrite Hp in Hj. injection Hj as <-. split; [reflexivity|].
           rewrite <- app_assoc. exact Hpre.
        -- eapply IH; [eassumption | eassumption |].
           rewrite lookup_insert_ne by exact Hne. exact Hn.
Qed.

Lemma makedirs_walk_ready done todo m m' :
  makedirs_walk done todo true m = inr m' -> dirs_ready m' done todo.
Proof.
  revert done m. induction todo as [|x t IH]; intros done m H n Hn.
  - simpl in Hn. lia.
  - destruct n as [|n]; [lia|]. cbn [firstn].
    assert (m' !! (done ++ [x]) = Some IDir /\ (t <> [] -> dirs_ready m' (done ++ [x]) t))
      as [Hx Ht].
    { destruct t as [|y t].
      - simpl in H. split; [|congruence].
        destruct (m !! (done ++ [x])) as [[d|]|] eqn:E; [discriminate | |].
        + injection H as <-. exact E.
        + injection H as <-. apply lookup_insert_eq.
      - rewrite makedirs_walk_cons in H.
        destruct (m !! (done ++ [x])) as [[d|]|] eqn:E; [discriminate | |].
        + split; [eapply makedirs_walk_preserves; eassumption | intros _; eapply IH; eassumption].
        + split; [|intros _; eapply IH; eassumption].
          eapply makedirs_walk_preserves; [eassumption|]. apply lookup_insert_eq. }
    destruct n as [|n].
    + rewrite firstn_O. exact Hx.
    + replace (done ++ x :: firstn (S n) t) with ((done ++ [x]) ++ firstn (S n) t)
        by (rewrite <- app_assoc; reflexivity).
      apply Ht; [destruct t; [simpl in Hn; lia | discriminate]|]. simpl in Hn. lia.
Qed.

Lemma makedirs_walk_of_ready done todo m :
  dirs_ready m done todo -> makedirs_walk done todo true m = inr m.
Proof.
  revert done. induction todo as [|x t IH]; intros done H; [reflexivity|].
  assert (m !! (done ++ [x]) = Some IDir) as Hx.
  { specialize (H 1%nat). simpl in H. apply H. lia. }
  destruct t as [|y t].
  - simpl. rewrite Hx. reflexivity.
  - rewrite makedirs_walk_cons. rewrite Hx. apply IH. intros n Hn.
    specialize (H (S n)). cbn [firstn] in H. rewrite <- app_assoc. apply H. simpl in *. lia.
Qed.

(** A second [makedirs(..., exist_ok=True)] changes nothing. *)
Lemma makedirs_walk_idem done todo m m' :
  makedirs_walk done todo true m = inr m' -> makedirs_walk done todo true m' = inr m'.
Proof. intros H. apply makedirs_walk_of_ready. eapply makedirs_walk_ready. exact H. Qed.

Lemma dirs_ready_insert_file m done todo k data :
  dirs_ready m done todo -> m !! k <> Some IDir -> dirs_ready (<[k := IFile data]> m) done todo.
Proof.
  intros H Hk n Hn. rewrite lookup_insert_ne; [apply H; exact Hn|].
  intros ->. apply Hk. apply H. exact Hn.
Qed.


(** *** rmtree *)

Lemma remove_tree_self k m : remove_tree k m !! k = None.
Proof.
  unfold remove_tree. apply map_lookup_filter_None. right. intros x _. simpl.
  rewrite is_prefix_refl. discriminate.
Qed.

Lemma remove_tree_below k m j : is_prefix k j = true -> remove_tree k m !! j = None.
Proof.
  intros H. unfold remove_tree. apply map_lookup_filter_None. right. intros x _. simpl.
  rewrite H. discriminate.
Qed.


(** *** listdir *)

Lemma child_name_spec k k' n : child_name k k' = Some n <-> k' = k ++ [n].
Proof.
  revert k'. induction k as [|x k IH]; intros k'.
  - destruct k' as [|y [|z k']]; simpl; split; intros H; congruence.
  - destruct k' as [|y k']; simpl.
    + split; intros H; discriminate.
    + destruct (String.eqb x y) eqn:E.
      * apply String.eqb_eq in E. subst y. rewrite IH. split; intros H; congruence.
      * apply String.eqb_neq in E. split; intros H; congruence.
Qed.

(** The names listed in a directory are those of its direct children. *)
Lemma elem_of_listdir_key m k n : n ∈ listdir_key m k <-> is_Some (m !! (k ++ [n])).
Proof.
  unfold listdir_key. rewrite list_elem_of_omap. split.
  - intros ((k' & v) & Hin & Hc). apply elem_of_map_to_list in Hin. simpl in Hc.
    apply child_name_spec in Hc. subst k'. eauto.
  - intros (v & Hv). exists (k ++ [n], v). split.
    + apply elem_of_map_to_list. exact Hv.
    + simpl. apply child_name_spec. reflexivity.
Qed.

End OsFacts.

(** ** The resolver *)

Module ResolverFacts.
Import PyStr PosixPath PyUuid Os FilesystemServer PathFacts OsFacts.
Local Open Scope os_scope.

(** The directory name [get_user_workspace] settles on for a supplied
    identifier, and the workspace path built from it. *)
Definition canonical_id (user_id : string) : string :=
  match UUID user_id with
  | Some _ => user_id
  | None => str_of_uuid (uuid5 NAMESPACE_DNS user_id)
  end.

Definition workspace_of (user_id : string) : string :=
  join USER_WORKSPACE_BASE (canonical_id user_id).

(** The requested path once a leading separator is removed. *)
Definition relative_part (path : string) : string :=
  if isabs path then lstrip_char sep path else path.

(** Where [resolve_user_path] lands before the containment test. *)
Definition target_of (w : World) (user_id path : string) : string :=
  abspath (cwd w) (join (workspace_of user_id) (relative_part path)).

Definition workspace_abs_of (w : World) (user_id : string) : string :=
  abspath (cwd w) (workspace_of user_id).

Lemma get_user_workspace_some u w :
  truthy u = true ->
  get_user_workspace (Some u) w =
  match makedirs_walk [] (key_of w (workspace_of u)) true (fs w) with
  | inr m => (Ret (workspace_of u), set_fs w m)
  | inl errno => (Raise (OSError errno (workspace_of u)), w)
  end.
Proof.
  intros Hu. unfold get_user_workspace. rewrite Hu.
  unfold bind, ret, makedirs. fold (canonical_id u). fold (workspace_of u).
  destruct (makedirs_walk [] (key_of w (workspace_of u)) true (fs w)); reflexivity.
Qed.

(** The outcomes of [get_user_workspace] for a supplied identifier. *)
Lemma get_user_workspace_cases u w :
  truthy u = true ->
  (exists m, makedirs_walk [] (key_of w (workspace_of u)) true (fs w) = inr m /\
             get_user_workspace (Some u) w = (Ret (workspace_of u), set_fs w m)) \/
  (exists errno, get_user_workspace (Some u) w = (Raise (OSError errno (workspace_of u)), w)).
Proof.
  intros Hu. rewrite get_user_workspace_some by exact Hu.
  destruct (makedirs_walk [] (key_of w (workspace_of u)) true (fs w)) as [e|m]; eauto.
Qed.

Lemma get_user_workspace_Ret u w ws w1 :
  truthy u = true -> get_user_workspace (Some u) w = (Ret ws, w1) ->
  ws = workspace_of u /\
  exists m, makedirs_walk [] (key_of w (workspace_of u)) true (fs w) = inr m /\ w1 = set_fs w m.
Proof.
  intros Hu. rewrite get_user_workspace_some by exact Hu.
  destruct (makedirs_walk [] (key_of w (workspace_of u)) true (fs w)) as [e|m] eqn:E;
    [discriminate|].
  intros [= <- <-]. eauto.
Qed.

(** Once the workspace exists, asking for it again changes nothing. *)
Lemma get_user_workspace_again u w ws w1 :
  truthy u = true -> get_user_workspace (Some u) w = (Ret ws, w1) ->
  get_user_workspace (Some u) w1 = (Ret ws, w1).
Proof.
  intros Hu H. destruct (get_user_workspace_Ret u w ws w1 Hu H) as (-> & m & Hm & ->).
  rewrite get_user_workspace_some by exact Hu. rewrite key_of_set_fs. simpl fs.
  rewrite (makedirs_walk_idem _ _ _ _ Hm). destruct w; reflexivity.
Qed.

(** Whenever the workspace is ready, [get_user_workspace] is a no-op. *)
Lemma get_user_workspace_ready u w :
  truthy u = true -> dirs_ready (fs w) [] (key_of w (workspace_of u)) ->
  get_user_workspace (Some u) w = (Ret (workspace_of u), w).
Proof.
  intros Hu H. rewrite get_user_workspace_some by exact Hu.
  rewrite (makedirs_walk_of_ready _ _ _ H). destruct w; reflexivity.
Qed.

Lemma resolve_user_path_unfold path user_id w :
  resolve_user_path path user_id w =
  match get_user_workspace user_id w with
  | (Ret ws, w1) =>
      let resolved := abspath (cwd w1) (join ws (relative_part path)) in
      if negb (startswith (abspath (cwd w1) ws) resolved)
      then (Raise (ValueError ("Path '" +:+ relative_part path
                                 +:+ "' is outside user workspace")), w1)
      else (Ret resolved, w1)
  | (Raise e, w1) => (Raise e, w1)
  end.
Proof.
  unfold resolve_user_path, bind, getcwd, raise, ret. fold (relative_part path).
  destruct (get_user_workspace user_id w) as [[ws|e] w1]; [|reflexivity].
  destruct (negb _); reflexivity.
Qed.

(** The working directory never changes. *)
Definition keeps_cwd {A} (m : M A) : Prop :=
  forall w r w1, m w = (r, w1) -> cwd w1 = cwd w.

Lemma keeps_cwd_ret {A} (a : A) : keeps_cwd (ret a).
Proof. intros w r w1 H. unfold ret in H. congruence. Qed.

Lemma keeps_cwd_bind {A B} (m : M A) (k : A -> M B) :
  keeps_cwd m -> (forall a, keeps_cwd (k a)) -> keeps_cwd (bind m k).
Proof.
  intros Hm Hk w r w1 H. unfold bind in H.
  destruct (m w) as [[a|e] w0] eqn:E.
  - rewrite (Hk a w0 r w1 H). exact (Hm _ _ _ E).
  - injection H as _ <-. exact (Hm _ _ _ E).
Qed.

Lemma keeps_cwd_makedirs p ok : keeps_cwd (makedirs p ok).
Proof.
  intros w r w1 H. unfold makedirs in H.
  destruct (makedirs_walk [] (key_of w p) ok (fs w)); injection H as _ <-; reflexivity.
Qed.

Lemma keeps_cwd_urandom16 : keeps_cwd urandom16.
Proof. intros w r w1 H. unfold urandom16 in H. injection H as _ <-. reflexivity. Qed.

Lemma get_user_workspace_cwd user_id w r w1 :
  get_user_workspace user_id w = (r, w1) -> cwd w1 = cwd w.
Proof.
  revert w r w1. change (keeps_cwd (get_user_workspace user_id)).
  unfold get_user_workspace. apply keeps_cwd_bind.
  - destruct user_id as [u|]; [destruct (truthy u)|].
    + apply keeps_cwd_ret.
    + apply keeps_cwd_bind; [apply keeps_cwd_urandom16 | intros; apply keeps_cwd_ret].
    + apply keeps_cwd_bind; [apply keeps_cwd_urandom16 | intros; apply keeps_cwd_ret].
  - intros a. apply keeps_cwd_bind; [apply keeps_cwd_makedirs | intros; apply keeps_cwd_ret].
Qed.

(** What a successful resolution tells: the workspace was obtained, the
    result is the normalised target, and the string-prefix test passed. *)
Lemma resolve_user_path_Ret u path w p w1 :
  truthy u = true -> resolve_user_path path (Some u) w = (Ret p, w1) ->
  get_user_workspace (Some u) w = (Ret (workspace_of u), w1) /\
  p = target_of w u path /\
  startswith (workspace_abs_of w u) p = true.
Proof.
  intros Hu. rewrite resolve_user_path_unfold.
  destruct (get_user_workspace (Some u) w) as [[ws|e] w'] eqn:E; [|discriminate].
  pose proof (get_user_workspace_cwd _ _ _ _ E) as Hc.
  destruct (get_user_workspace_Ret u w ws w' Hu E) as (-> & _).
  cbv zeta. rewrite Hc.
  destruct (startswith _ _) eqn:Es; simpl; [|discriminate].
  intros [= <- <-]. repeat split. exact Es.
Qed.

(** The prelude shared by the tools, for a supplied identifier: after a
    successful resolution the second workspace lookup, the resolution
    itself and [is_safe_path] all succeed without touching the state. *)
Lemma tool_prelude u path w p w1 :
  truthy u = true -> resolve_user_path path (Some u) w = (Ret p, w1) ->
  get_user_workspace (Some u) w = (Ret (workspace_of u), w1) /\
  resolve_user_path path (Some u) w1 = (Ret p, w1) /\
  is_safe_path p (workspace_of u) w1 = (Ret true, w1).
Proof.
  intros Hu H. destruct (resolve_user_path_Ret u path w p w1 Hu H) as (Hg & Hp & Hs).
  pose proof (get_user_workspace_cwd _ _ _ _ Hg) as Hc.
  pose proof (get_user_workspace_again u w _ w1 Hu Hg) as Hg1.
  split; [exact Hg|]. split.
  - rewrite resolve_user_path_unfold, Hg1. cbv zeta. rewrite Hc.
    fold (target_of w u path). fold (workspace_abs_of w u). rewrite <- Hp, Hs. reflexivity.
  - unfold is_safe_path, bind, getcwd, ret. rewrite Hc.
    fold (workspace_abs_of w u). rewrite Hp. unfold target_of.
    rewrite abspath_idem by apply cwd_isabs.
    fold (target_of w u path). rewrite <- Hp, Hs. reflexivity.
Qed.

(** The tools start by resolving; when that fails with [ValueError] the
    tool reports it. *)
Lemma resolve_user_path_Raise u path w e w1 :
  truthy u = true -> resolve_user_path path (Some u) w = (Raise e, w1) ->
  (get_user_workspace (Some u) w = (Raise e, w1)) \/
  (get_user_workspace (Some u) w = (Ret (workspace_of u), w1) /\
   startswith (workspace_abs_of w u) (target_of w u path) = false /\
   e = ValueError ("Path '" +:+ relative_part path +:+ "' is outside user workspace")).
Proof.
  intros Hu. rewrite resolve_user_path_unfold.
  destruct (get_user_workspace (Some u) w) as [[ws|e'] w'] eqn:E.
  - pose proof (get_user_workspace_cwd _ _ _ _ E) as Hc.
    destruct (get_user_workspace_Ret u w ws w' Hu E) as (-> & _).
    cbv zeta. rewrite Hc. fold (target_of w u path). fold (workspace_abs_of w u).
    destruct (startswith _ _) eqn:Es; simpl; [discriminate|].
    intros [= <- <-]. right. repeat split.
  - intros [= <- <-]. left. reflexivity.
Qed.

End ResolverFacts.

(** ** Concrete hosts used in the examples *)

Module Scenario.
Import PyStr PosixPath PyUuid Os FilesystemServer ResolverFacts.

(** Well-formedness of UTF-8, after Table 3-7 of the Unicode standard. *)
Definition in_range (lo hi : nat) (a : ascii) : bool :=
  let n := nat_of_ascii a in (lo <=? n)%nat && (n <=? hi)%nat.

Fixpoint utf8_valid (s : string) : bool :=
  match s with
  | EmptyString => true
  | String a r =>
      if in_range 0 127 a then utf8_valid r
      else match r with
           | String b r1 =>
               if in_range 194 223 a then in_range 128 191 b && utf8_valid r1
               else match r1 with
                    | String c r2 =>
                        if in_range 224 239 a then
                          (if in_range 224 224 a then in_range 160 191 b
                           else if in_range 237 237 a then in_range 128 159 b
                           else in_range 128 191 b)
                          && in_range 128 191 c && utf8_valid r2
                        else match r2 with
                             | String d r3 =>
                                 in_range 240 244 a
                                 && (if in_range 240 240 a then in_range 144 191 b
                                     else if in_range 244 244 a then in_range 128 143 b
                                     else in_range 128 191 b)
                                 && in_range 128 191 c && in_range 128 191 d && utf8_valid r3
                             | EmptyString => false
                             end
                    | EmptyString => false
                    end
           | EmptyString => false
           end
  end.

(** The bytes read so far: the text up to a character that is not
    complete; [None] when a byte cannot begin or continue a character.
    This is the incremental decoder of CPython: the second byte of a
    character is examined as soon as it is there. *)
Definition second_of_three (a b : ascii) : bool :=
  if in_range 224 224 a then in_range 160 191 b
  else if in_range 237 237 a then in_range 128 159 b
  else in_range 128 191 b.

Definition second_of_four (a b : ascii) : bool :=
  if in_range 240 240 a then in_range 144 191 b
  else if in_range 244 244 a then in_range 128 143 b
  else in_range 128 191 b.

Fixpoint utf8_part (s : string) : option string :=
  match s with
  | EmptyString => Some EmptyString
  | String a r =>
      if in_range 0 127 a then option_map (String a) (utf8_part r)
      else
        match r with
        | EmptyString => if in_range 194 244 a then Some EmptyString else None
        | String b r1 =>
            if in_range 194 223 a then
              if in_range 128 191 b
              then option_map (fun t => String a (String b t)) (utf8_part r1)
              else None
            else if in_range 224 239 a then
              if second_of_three a b then
                match r1 with
                | EmptyString => Some EmptyString
                | String c r2 =>
                    if in_range 128 191 c
                    then option_map (fun t => String a (String b (String c t))) (utf8_part r2)
                    else None
                end
              else if in_range 237 237 a && in_range 160 191 b then
                (* the beginning of a surrogate is held back when nothing follows *)
                match r1 with
                | EmptyString => Some EmptyString
                | String _ _ => None
                end
              else None
            else if in_range 240 244 a then
              if second_of_four a b then
                match r1 with
                | EmptyString => Some EmptyString
                | String c r2 =>
                    if in_range 128 191 c then
                      match r2 with
                      | EmptyString => Some EmptyString
                      | String d r3 =>
                          if in_range 128 191 d
                          then option_map
                                 (fun t => String a (String b (String c (String d t))))
                                 (utf8_part r3)
                          else None
                      end
                    else None
                end
              else None
            else None
        end
  end.

(** The ['utf-8'] codec: a [str] is kept as its UTF-8 bytes; it has no
    byte-order mark. A string that is not well-formed UTF-8, as the one
    with a lone surrogate, cannot be encoded. *)
Definition utf_8 : Codec :=
  {| codec_name := "utf-8";
     encode := fun s => if utf8_valid s then Some s else None;
     encode_more := fun s => if utf8_valid s then Some s else None;
     decode := fun b => if utf8_valid b then Some b else None;
     decode_part := utf8_part |}.

(** A server started in [/srv], nothing created yet. *)
Definition srv : World :=
  {| cwd_components := ["srv"];
     fs := {[ [] := IDir; ["srv"] := IDir ]};
     urandom := fun n => Z.of_nat n;
     draws := 0 |}.

Definition u1_id : string := "db6cd388-0abf-538a-8503-dd3358d93458".
Definition u1_key : list string := ["srv"; "user-workspaces"; u1_id].

(** [srv] after the workspace of user ["u1"] was created. *)
Definition srv_u1 : World := snd (get_user_workspace (Some "u1") srv).

Example srv_u1_workspace :
  fs srv !! u1_key = None /\ fs srv_u1 !! u1_key = Some IDir
  /\ fs srv_u1 !! ["srv"; "user-workspaces"] = Some IDir.
Proof. repeat split; vm_compute; reflexivity. Qed.

Example workspace_of_u1 : workspace_of "u1" = "./user-workspaces/db6cd388-0abf-538a-8503-dd3358d93458".
Proof. vm_compute. reflexivity. Qed.

Example get_user_workspace_u1 :
  get_user_workspace (Some "u1") srv = (Ret "./user-workspaces/db6cd388-0abf-538a-8503-dd3358d93458", srv_u1).
Proof. apply OsFacts.run_Ret. vm_compute. reflexivity. Qed.

End Scenario.

(** ** C1: containment of resolved paths *)

Module Containment.
Import PyStr PosixPath PyUuid Os FilesystemServer PathFacts OsFacts ResolverFacts Scenario.

(** A path lies under a root when the root's components are a prefix of
    the path's components. *)
Definition under (w : World) (root p : string) : bool :=
  is_prefix (key_of w root) (key_of w p).

Definition sibling_request : string :=
  "../db6cd388-0abf-538a-8503-dd3358d93458x/secret.txt".

(** C1 (fails on the code). [resolve_user_path] answers the request
    [../<workspace name>x/secret.txt] of user ["u1"] with a path in the
    sibling directory [<workspace name>x]: the test is [str.startswith] on
    the two strings, and that path is not under the workspace. *)
Theorem resolve_user_path_accepts_sibling :
  fst (resolve_user_path sibling_request (Some "u1") srv) =
    Ret "/srv/user-workspaces/db6cd388-0abf-538a-8503-dd3358d93458x/secret.txt"
  /\ under srv (workspace_of "u1")
       "/srv/user-workspaces/db6cd388-0abf-538a-8503-dd3358d93458x/secret.txt" = false.
Proof. split; vm_compute; reflexivity. Qed.

(** What the test does establish: the result has the absolute workspace
    path as a prefix of its characters. *)
Lemma resolve_user_path_string_prefix u path w p w1 :
  truthy u = true -> resolve_user_path path (Some u) w = (Ret p, w1) ->
  startswith (workspace_abs_of w u) p = true.
Proof. intros Hu H. apply (resolve_user_path_Ret u path w p w1 Hu H). Qed.

End Containment.

(** ** C2: rejected traversals *)

Module Traversal.
Import PyStr PosixPath PyUuid Os FilesystemServer PathFacts OsFacts ResolverFacts Scenario.

(** All that obtaining the workspace does to the filesystem: what was there
    stays, and what is new is a directory on the way to the workspace. *)
Definition only_workspace_created (u : string) (w w1 : World) : Prop :=
  (forall k v, fs w !! k = Some v -> fs w1 !! k = Some v) /\
  (forall k v, fs w1 !! k = Some v -> fs w !! k = None ->
               v = IDir /\ is_prefix k (key_of w (workspace_of u)) = true).

Lemma get_user_workspace_effect u w ws w1 :
  truthy u = true -> get_user_workspace (Some u) w = (Ret ws, w1) ->
  only_workspace_created u w w1.
Proof.
  intros Hu H. destruct (get_user_workspace_Ret u w ws w1 Hu H) as (_ & m & Hm & ->).
  split; intros k v; simpl.
  - apply (makedirs_walk_preserves _ _ _ _ _ Hm).
  - apply (makedirs_walk_new _ _ _ _ _ Hm).
Qed.

(** C2 (as stated, fails). For a request that looks absolute the error
    names the request without its leading separator, not the request. *)
Lemma traversal_error_names_stripped_path :
  fst (resolve_user_path "/../../etc/passwd" (Some "u1") srv) =
    Raise (ValueError "Path '../../etc/passwd' is outside user workspace")
  /\ contains "/../../etc/passwd" "Path '../../etc/passwd' is outside user workspace" = false.
Proof. split; vm_compute; reflexivity. Qed.

(** C2 (amended). Whenever the normalised target does not begin with the
    absolute workspace path, [resolve_user_path] raises the traversal error
    naming the request without leading separators, and the filesystem is
    as [get_user_workspace] left it: nothing but the workspace directory
    was created. *)
Theorem traversal_rejected (u path : string) (w w1 : World) :
  truthy u = true ->
  get_user_workspace (Some u) w = (Ret (workspace_of u), w1) ->
  startswith (workspace_abs_of w u) (target_of w u path) = false ->
  resolve_user_path path (Some u) w =
    (Raise (ValueError ("Path '" +:+ relative_part path +:+ "' is outside user workspace")), w1)
  /\ only_workspace_created u w w1.
Proof.
  intros Hu Hg Hs. split.
  - rewrite resolve_user_path_unfold, Hg. cbv zeta.
    rewrite (get_user_workspace_cwd _ _ _ _ Hg).
    fold (target_of w u path). fold (workspace_abs_of w u). rewrite Hs. reflexivity.
  - eapply get_user_workspace_effect; eassumption.
Qed.

(** The scenario of the specification: ['../../etc/passwd'] for user
    ['u1']. *)
Lemma traversal_rejected_witness :
  resolve_user_path "../../etc/passwd" (Some "u1") srv =
    (Raise (ValueError "Path '../../etc/passwd' is outside user workspace"), srv_u1)
  /\ only_workspace_created "u1" srv srv_u1.
Proof.
  apply (traversal_rejected "u1" "../../etc/passwd" srv srv_u1).
  - reflexivity.
  - apply run_Ret. vm_compute; reflexivity.
  - vm_compute; reflexivity.
Defined.

End Traversal.

(** ** C7: the identifier derived for a malformed user id *)

Module Identifier.
Import PyStr PosixPath PyUuid Os FilesystemServer PathFacts OsFacts ResolverFacts Scenario.

(** The workspace path of a malformed identifier. *)
Definition hashed_workspace (u : string) : string :=
  join USER_WORKSPACE_BASE (str_of_uuid (uuid5 NAMESPACE_DNS u)).

(** C7 (as stated, fails). The empty string is not a valid UUID, but it is
    treated as a missing identifier: two calls in a row draw two random
    identifiers. *)
Lemma empty_user_id_is_random :
  UUID "" = None
  /\ fst (get_user_workspace (Some "") srv)
     = Ret "./user-workspaces/00000000-0000-4000-8000-000000000000"
  /\ fst (get_user_workspace (Some "") (snd (get_user_workspace (Some "") srv)))
     = Ret "./user-workspaces/00000000-0000-4000-8000-000000000001".
Proof. repeat split; vm_compute; reflexivity. Qed.

(** C7 (amended). For a non-empty ASCII string that [uuid.UUID] rejects,
    the workspace path is the one built from the SHA-1 name-based
    identifier of the string, whatever the state: a call either returns
    that path or fails with an [OSError] of [os.makedirs], and after a call
    returned, calling again returns the same path and changes nothing. *)
Theorem get_user_workspace_deterministic (u : string) :
  truthy u = true -> is_ascii u = true -> UUID u = None ->
  (forall w, (exists w1, get_user_workspace (Some u) w = (Ret (hashed_workspace u), w1))
             \/ (exists errno, get_user_workspace (Some u) w
                               = (Raise (OSError errno (hashed_workspace u)), w)))
  /\ (forall w p w1, get_user_workspace (Some u) w = (Ret p, w1) ->
                     p = hashed_workspace u
                     /\ get_user_workspace (Some u) w1 = (Ret p, w1)).
Proof.
  intros Hu _ Hbad.
  assert (workspace_of u = hashed_workspace u) as Hw.
  { unfold workspace_of, canonical_id, hashed_workspace. rewrite Hbad. reflexivity. }
  split.
  - intros w. rewrite <- Hw.
    destruct (get_user_workspace_cases u w Hu) as [(m & _ & H) | (e & H)]; eauto.
  - intros w p w1 H. split.
    + rewrite <- Hw. apply (get_user_workspace_Ret u w p w1 Hu H).
    + eapply get_user_workspace_again; eassumption.
Qed.

Lemma get_user_workspace_deterministic_witness :
  get_user_workspace (Some "u1") srv_u1
  = (Ret "./user-workspaces/db6cd388-0abf-538a-8503-dd3358d93458", srv_u1).
Proof.
  apply (proj2 (get_user_workspace_deterministic "u1" eq_refl eq_refl
                  ltac:(vm_compute; reflexivity)) srv _ srv_u1).
  apply run_Ret. vm_compute; reflexivity.
Defined.

End Identifier.

(** ** Running the tools step by step *)

Module ToolFacts.
Import PyStr PosixPath PyUuid Os FilesystemServer PathFacts OsFacts ResolverFacts.

Lemma bind_ret_l {A B} (a : A) (k : A -> M B) w : bind (ret a) k w = k a w.
Proof. reflexivity. Qed.

Lemma bind_path_exists {B} p (k : bool -> M B) w :
  bind (path_exists p) k w =
  k (match fs w !! key_of w p with Some _ => true | None => false end) w.
Proof. reflexivity. Qed.

Lemma bind_isfile {B} p (k : bool -> M B) w :
  bind (isfile p) k w =
  k (match fs w !! key_of w p with Some (IFile _) => true | _ => false end) w.
Proof. reflexivity. Qed.

Lemma bind_isdir {B} p (k : bool -> M B) w :
  bind (isdir p) k w =
  k (match fs w !! key_of w p with Some IDir => true | _ => false end) w.
Proof. reflexivity. Qed.

Lemma getsize_at p w i :
  fs w !! key_of w p = Some i -> getsize p w = (Ret (inode_size i), w).
Proof. unfold getsize. intros ->. reflexivity. Qed.

Lemma get_file_info_at p w i :
  fs w !! key_of w p = Some i ->
  get_file_info p w =
  (Ret (inl {| size := Z.of_nat (inode_size i);
               is_file := match i with IFile _ => true | IDir => false end;
               is_dir := match i with IDir => true | IFile _ => false end |}), w).
Proof.
  intros H. unfold get_file_info. apply try_except_Ret.
  rewrite (bind_Ret _ _ _ _ _ (getsize_at p w i H)).
  rewrite bind_isfile, bind_isdir, H. destruct i; reflexivity.
Qed.

(** [normpath] and [abspath] never return the empty string. *)
Lemma normpath_truthy p : truthy (normpath p) = true.
Proof.
  unfold normpath. destruct (String.eqb p ""); [reflexivity|].
  match goal with |- truthy (if String.eqb ?x "" then _ else _) = true =>
    destruct (String.eqb x "") eqn:E; [reflexivity|]; destruct x; [discriminate | reflexivity]
  end.
Qed.

Lemma relpath_m_total p start w :
  truthy p = true -> exists r, relpath_m p start w = (Ret r, w) /\ isabs r = false.
Proof.
  intros Hp. unfold relpath_m, bind, getcwd.
  destruct (relpath (cwd w) p start) as [r|] eqn:E.
  - exists r. split; [reflexivity|]. eapply relpath_not_abs. exact E.
  - unfold relpath in E. rewrite Hp in E. simpl in E.
    destruct (_ ++ _) in E; discriminate.
Qed.

Lemma target_truthy w u path : truthy (target_of w u path) = true.
Proof. apply normpath_truthy. Qed.

End ToolFacts.

(** ** C5 and C8: the extension allow-list *)

Module Extensions.
Import PyStr PosixPath PyUuid Os FilesystemServer PathFacts OsFacts ResolverFacts ToolFacts.
Import Scenario Traversal.

Definition not_allowed_for_writing (ext : string) : string :=
  "Error: File type '" +:+ ext +:+ "' not allowed for writing".

Definition not_allowed_for_reading (ext : string) : string :=
  "Error: File type '" +:+ ext +:+ "' not allowed for reading".

(** C5 (as stated, fails). A refused write still leaves a new directory
    behind: the workspace of the user, created before any check. *)
Lemma refused_write_creates_workspace :
  fst (write_file "notes.exe" "x" utf_8 false (Some "u1") srv)
    = Ret (Message (not_allowed_for_writing ".exe"))
  /\ fs srv !! u1_key = None
  /\ fs (snd (write_file "notes.exe" "x" utf_8 false (Some "u1") srv)) !! u1_key = Some IDir.
Proof. repeat split; vm_compute; reflexivity. Qed.

(** The refusal itself, shared by the two claims below. *)
Lemma write_file_refused
    (u path content : string) (encoding : Codec) (append : bool) (w w1 : World) (p : string) :
  truthy u = true ->
  resolve_user_path path (Some u) w = (Ret p, w1) ->
  allowed (lower (snd (splitext p))) = false ->
  write_file path content encoding append (Some u) w
    = (Ret (Message (not_allowed_for_writing (snd (splitext p)))), w1).
Proof.
  intros Hu Hr Hext. destruct (tool_prelude u path w p w1 Hu Hr) as (Hg & Hr1 & Hs).
  unfold write_file. apply try_except_Ret.
  rewrite (bind_Ret _ _ _ _ _ Hg). cbv beta.
  rewrite (bind_Ret _ _ _ _ _ Hr1). cbv beta.
  rewrite (bind_Ret _ _ _ _ _ Hs). cbv beta zeta. cbn [negb].
  rewrite Hext. reflexivity.
Qed.

(** C5 (amended). When the request of a supplied user resolves inside the
    workspace and the extension of the resolved path, lowercased, is not in
    the allow-list, [write_file] answers with the extension error; the
    state is the one left by resolving: no file was created, and no
    directory other than the workspace. *)
Theorem write_file_rejects_extension
    (u path content : string) (encoding : Codec) (append : bool) (w w1 : World) (p : string) :
  truthy u = true ->
  resolve_user_path path (Some u) w = (Ret p, w1) ->
  allowed (lower (snd (splitext p))) = false ->
  write_file path content encoding append (Some u) w
    = (Ret (Message (not_allowed_for_writing (snd (splitext p)))), w1)
  /\ only_workspace_created u w w1.
Proof.
  intros Hu Hr Hext. split; [apply write_file_refused; assumption|].
  destruct (tool_prelude u path w p w1 Hu Hr) as (Hg & _ & _).
  eapply get_user_workspace_effect; eassumption.
Qed.

Lemma write_file_rejects_extension_witness :
  write_file "Report.EXE" "x" utf_8 false (Some "u1") srv
    = (Ret (Message "Error: File type '.EXE' not allowed for writing"),
       snd (resolve_user_path "Report.EXE" (Some "u1") srv)).
Proof.
  apply (proj1 (write_file_rejects_extension "u1" "Report.EXE" "x" utf_8 false srv
                  (snd (resolve_user_path "Report.EXE" (Some "u1") srv))
                  "/srv/user-workspaces/db6cd388-0abf-538a-8503-dd3358d93458/Report.EXE"
                  eq_refl
                  ltac:(apply run_Ret; vm_compute; reflexivity)
                  ltac:(vm_compute; reflexivity))).
Defined.

(** The comparison ignores case as [str.lower] does: the extension
    [.DOC], KELVIN SIGN (U+212A), [ERFILE] lowers to [.dockerfile], which
    is allowed, and the file is written. *)
Example kelvin_sign_extension_is_written :
  allowed (lower (".DOC" +:+ String "226" (String "132" (String "170" "ERFILE")))) = true
  /\ fst (write_file ("x.DOC" +:+ String "226" (String "132" (String "170" "ERFILE")))
            "x" utf_8 false (Some "u1") srv)
     = Ret (Report {| written_action := "written to";
                      written_file :=
                        "x.DOC" +:+ String "226" (String "132" (String "170" "ERFILE"));
                      written_size := 1; written_length := 1 |}).
Proof. split; vm_compute; reflexivity. Qed.

(** C8 (as stated, fails). An extensionless request that names nothing is
    answered with the missing-file error, and the request ["a.txt/"], for
    which [splitext] yields no extension, is written: the extension is
    taken from the resolved path. *)
Lemma extensionless_request_other_outcomes :
  snd (splitext "notes") = ""
  /\ fst (read_file "notes" utf_8 1000 (Some "u1") srv)
     = Ret (Message "Error: File does not exist: notes")
  /\ snd (splitext "a.txt/") = ""
  /\ fst (write_file "a.txt/" "hello" utf_8 false (Some "u1") srv)
     = Ret (Report {| written_action := "written to"; written_file := "a.txt";
                      written_size := 5; written_length := 5 |}).
Proof. repeat split; vm_compute; reflexivity. Qed.

(** C8 (amended). When the request of a supplied user resolves to a path
    without extension, [write_file] answers with the file-type error;
    [read_file] never returns content, and answers with the file-type error
    once the earlier checks pass (the path is a regular file within the size
    limit). *)
Theorem extensionless_never_served
    (u path : string) (encoding : Codec) (w w1 : World) (p : string) :
  truthy u = true ->
  resolve_user_path path (Some u) w = (Ret p, w1) ->
  snd (splitext p) = "" ->
  (forall content append,
      write_file path content encoding append (Some u) w
      = (Ret (Message (not_allowed_for_writing "")), w1))
  /\ (forall max_lines, exists msg,
         read_file path encoding max_lines (Some u) w = (Ret (Message msg), w1))
  /\ (forall max_lines data,
         fs w1 !! key_of w1 p = Some (IFile data) ->
         (Z.of_nat (String.length data) <= MAX_FILE_SIZE)%Z ->
         read_file path encoding max_lines (Some u) w
         = (Ret (Message (not_allowed_for_reading "")), w1)).
Proof.
  intros Hu Hr Hext. destruct (tool_prelude u path w p w1 Hu Hr) as (Hg & Hr1 & Hs).
  assert (forall max_lines,
             read_file path encoding max_lines (Some u) w =
             (Ret (Message
                (match fs w1 !! key_of w1 p with
                 | None => "Error: File does not exist: " +:+ path
                 | Some IDir => "Error: Path is not a file: " +:+ path
                 | Some (IFile data) =>
                     if (Z.of_nat (String.length data) >? MAX_FILE_SIZE)%Z
                     then "Error: File too large (" +:+ pretty (Z.of_nat (String.length data))
                            +:+ " bytes). Maximum allowed: " +:+ pretty MAX_FILE_SIZE +:+ " bytes"
                     else not_allowed_for_reading ""
                 end)), w1)) as Hread.
  { intros max_lines. unfold read_file. apply try_except_Ret.
    rewrite (bind_Ret _ _ _ _ _ Hg). cbv beta.
    rewrite (bind_Ret _ _ _ _ _ Hr1). cbv beta.
    rewrite (bind_Ret _ _ _ _ _ Hs). cbv beta. cbn [negb].
    rewrite bind_path_exists.
    destruct (fs w1 !! key_of w1 p) as [i|] eqn:E; cbn [negb]; [|reflexivity].
    rewrite bind_isfile, E. destruct i as [data|]; cbn [negb]; [|reflexivity].
    rewrite (bind_Ret _ _ _ _ _ (getsize_at p w1 _ E)). cbv beta zeta. cbn [inode_size].
    destruct (Z.of_nat (String.length data) >? MAX_FILE_SIZE)%Z; [reflexivity|].
    rewrite Hext. reflexivity. }
  split; [|split].
  - intros content append. rewrite <- Hext.
    apply (write_file_refused u path content encoding append w w1 p Hu Hr).
    rewrite Hext. reflexivity.
  - intros max_lines. eexists. apply Hread.
  - intros max_lines data Hd Hsize. rewrite Hread, Hd.
    destruct (Z.of_nat (String.length data) >? MAX_FILE_SIZE)%Z eqn:E; [lia | reflexivity].
Qed.

Lemma extensionless_never_served_witness :
  write_file "Makefile" "all:" utf_8 false (Some "u1") srv
    = (Ret (Message "Error: File type '' not allowed for writing"),
       snd (resolve_user_path "Makefile" (Some "u1") srv)).
Proof.
  apply (proj1 (extensionless_never_served "u1" "Makefile" utf_8 srv
                  (snd (resolve_user_path "Makefile" (Some "u1") srv))
                  "/srv/user-workspaces/db6cd388-0abf-538a-8503-dd3358d93458/Makefile"
                  eq_refl
                  ltac:(apply run_Ret; vm_compute; reflexivity)
                  ltac:(vm_compute; reflexivity))).
Defined.

End Extensions.

(** ** C6: deleting a non-empty directory *)

Module Deletion.
Import PyStr PosixPath PyUuid Os FilesystemServer PathFacts OsFacts ResolverFacts ToolFacts.
Import Scenario.

Lemma rmdir_nonempty p w :
  fs w !! key_of w p = Some IDir -> listdir_key (fs w) (key_of w p) <> [] ->
  rmdir p w = (Raise (OSError ENOTEMPTY p), w).
Proof.
  intros Hd Hne. unfold rmdir. rewrite Hd.
  destruct (listdir_key (fs w) (key_of w p)); [congruence | reflexivity].
Qed.

Lemma rmtree_directory p w :
  fs w !! key_of w p = Some IDir ->
  rmtree p w = (Ret tt, set_fs w (remove_tree (key_of w p) (fs w))).
Proof. intros Hd. unfold rmtree. rewrite Hd. reflexivity. Qed.

(** A directory that has an entry before the workspace lookup still has it
    afterwards. *)
Lemma listdir_nonempty_preserved (m m1 : gmap (list string) inode) k :
  (forall j v, m !! j = Some v -> m1 !! j = Some v) ->
  listdir_key m k <> [] -> listdir_key m1 k <> [].
Proof.
  intros Hp Hne. destruct (listdir_key m k) as [|n l] eqn:E; [congruence|].
  assert (n ∈ listdir_key m k) as Hin by (rewrite E; left).
  apply elem_of_listdir_key in Hin as (v & Hv). apply Hp in Hv.
  assert (n ∈ listdir_key m1 k) as Hin1 by (apply elem_of_listdir_key; eauto).
  intros Hnil. rewrite Hnil in Hin1. inversion Hin1.
Qed.

(** C6. For a supplied user, let the request resolve to a directory that
    has at least one entry. Without [force], [delete_file] answers with the
    directory-not-empty error and the directory is still there; with
    [force] it succeeds, and neither the directory nor anything below it
    exists afterwards. *)
Theorem delete_nonempty_directory (u path : string) (w w1 : World) (p : string) :
  truthy u = true ->
  resolve_user_path path (Some u) w = (Ret p, w1) ->
  fs w !! key_of w p = Some IDir ->
  listdir_key (fs w) (key_of w p) <> [] ->
  (delete_file path false (Some u) w
   = (Ret ("Error: Directory not empty. Use force=True to delete non-empty directory: "
             +:+ path), w1)
   /\ fs w1 !! key_of w1 p = Some IDir)
  /\ (exists rel w2,
         delete_file path true (Some u) w
         = (Ret ("Directory deleted successfully (forced): " +:+ rel), w2)
         /\ fs w2 !! key_of w2 p = None
         /\ forall k, is_prefix (key_of w2 p) k = true -> fs w2 !! k = None).
Proof.
  intros Hu Hr Hdir Hne.
  destruct (tool_prelude u path w p w1 Hu Hr) as (Hg & Hr1 & Hs).
  destruct (resolve_user_path_Ret u path w p w1 Hu Hr) as (_ & Hp & _).
  destruct (get_user_workspace_Ret u w _ w1 Hu Hg) as (_ & m & Hm & Hw1).
  assert (key_of w1 p = key_of w p) as Hk by (rewrite Hw1; reflexivity).
  assert (fs w1 !! key_of w1 p = Some IDir) as Hdir1.
  { rewrite Hk, Hw1. simpl. eapply makedirs_walk_preserves; eassumption. }
  assert (listdir_key (fs w1) (key_of w1 p) <> []) as Hne1.
  { rewrite Hk, Hw1. simpl. eapply listdir_nonempty_preserved; [|exact Hne].
    apply (makedirs_walk_preserves _ _ _ _ _ Hm). }
  assert (truthy p = true) as Htp by (rewrite Hp; apply target_truthy).
  destruct (relpath_m_total p (workspace_of u) w1 Htp) as (rel & Hrel & _).
  assert (forall force,
             delete_file path force (Some u) w =
             try_except
               (if force
                then bind (rmtree p) (fun _ =>
                       ret ("Directory deleted successfully (forced): " +:+ rel))
                else bind (rmdir p) (fun _ =>
                       ret ("Empty directory deleted successfully: " +:+ rel)))
               (fun e =>
                  if is_ValueError e then "Error: " +:+ str_exn e
                  else match e with
                       | OSError errno _ =>
                           if (errno =? 39)%Z then
                             "Error: Directory not empty. Use force=True to delete non-empty directory: "
                               +:+ path
                           else "Error deleting path: " +:+ str_exn e
                       | _ => "Error deleting path: " +:+ str_exn e
                       end) w1) as Hrun.
  { intros force. unfold delete_file, try_except.
    rewrite (bind_Ret _ _ _ _ _ Hg). cbv beta.
    rewrite (bind_Ret _ _ _ _ _ Hr1). cbv beta.
    rewrite (bind_Ret _ _ _ _ _ Hs). cbv beta. cbn [negb].
    rewrite bind_path_exists, Hdir1. cbn [negb].
    rewrite (bind_Ret _ _ _ _ _ (get_file_info_at p w1 _ Hdir1)). cbv beta.
    rewrite (bind_Ret _ _ _ _ _ Hrel). cbv beta.
    rewrite bind_isfile, Hdir1. rewrite bind_isdir, Hdir1.
    destruct force; reflexivity. }
  split.
  - split; [|exact Hdir1]. rewrite Hrun.
    rewrite (try_except_Raise _ _ _ (OSError ENOTEMPTY p) w1); [reflexivity|].
    apply bind_Raise. apply rmdir_nonempty; assumption.
  - exists rel, (set_fs w1 (remove_tree (key_of w1 p) (fs w1))). split; [|split].
    + rewrite Hrun. apply try_except_Ret.
      rewrite (bind_Ret _ _ _ _ _ (rmtree_directory p w1 Hdir1)). reflexivity.
    + rewrite key_of_set_fs. simpl. apply remove_tree_self.
    + intros k Hpre. rewrite key_of_set_fs in Hpre. simpl. apply remove_tree_below. exact Hpre.
Qed.

(** A workspace of user ["u1"] holding the directory [docs] with one
    file. *)
Definition srv_docs : World :=
  {| cwd_components := ["srv"];
     fs := list_to_map
             [([], IDir); (["srv"], IDir); (["srv"; "user-workspaces"], IDir);
              (u1_key, IDir); (u1_key ++ ["docs"], IDir);
              (u1_key ++ ["docs"; "a.txt"], IFile "hello")];
     urandom := fun n => Z.of_nat n;
     draws := 0 |}.

Lemma delete_nonempty_directory_witness :
  delete_file "docs" false (Some "u1") srv_docs
  = (Ret "Error: Directory not empty. Use force=True to delete non-empty directory: docs",
     snd (resolve_user_path "docs" (Some "u1") srv_docs)).
Proof.
  apply (proj1 (proj1 (delete_nonempty_directory "u1" "docs" srv_docs
                  (snd (resolve_user_path "docs" (Some "u1") srv_docs))
                  "/srv/user-workspaces/db6cd388-0abf-538a-8503-dd3358d93458/docs"
                  eq_refl
                  ltac:(apply run_Ret; vm_compute; reflexivity)
                  ltac:(vm_compute; reflexivity)
                  ltac:(vm_compute; discriminate)))).
Defined.

Example delete_forced_example :
  fst (delete_file "docs" true (Some "u1") srv_docs)
    = Ret "Directory deleted successfully (forced): docs"
  /\ fs (snd (delete_file "docs" true (Some "u1") srv_docs)) !! (u1_key ++ ["docs"]) = None
  /\ fs (snd (delete_file "docs" true (Some "u1") srv_docs)) !! (u1_key ++ ["docs"; "a.txt"])
     = None.
Proof. repeat split; vm_compute; reflexivity. Qed.

End Deletion.

(** ** C9: truncation in read_file *)

Module Reading.
Import PyStr PosixPath PyUuid Os FilesystemServer PathFacts OsFacts ResolverFacts ToolFacts.
Import Scenario.
Local Open Scope Z_scope.

(** The loop keeps the first [max_lines - i] lines, stripped, and adds the
    marker exactly when a further line is met. *)
Lemma read_loop_spec max_lines i file_lines lines :
  i <= max_lines ->
  read_loop max_lines i file_lines lines =
  lines ++ map rstrip (firstn (Z.to_nat (max_lines - i)) file_lines)
        ++ (if (Z.to_nat (max_lines - i) <? length file_lines)%nat
            then [truncation_marker max_lines] else []).
Proof.
  revert i lines. induction file_lines as [|line rest IH]; intros i lines Hi.
  - simpl. rewrite firstn_nil. simpl.
    destruct (Z.to_nat (max_lines - i)); simpl; rewrite app_nil_r; reflexivity.
  - cbn [read_loop]. destruct (i >=? max_lines) eqn:E.
    + assert (i = max_lines) as -> by lia. rewrite Z.sub_diag. reflexivity.
    + assert (i < max_lines) as Hlt by lia.
      rewrite IH by lia.
      replace (Z.to_nat (max_lines - i)) with (S (Z.to_nat (max_lines - (i + 1)))) by lia.
      cbn [firstn map length]. rewrite <- app_assoc. reflexivity.
Qed.

Lemma read_loop_short max_lines file_lines :
  Z.of_nat (length file_lines) <= max_lines ->
  read_loop max_lines 0 file_lines [] = map rstrip file_lines.
Proof.
  intros H. rewrite read_loop_spec by lia. rewrite Z.sub_0_r.
  rewrite firstn_all2 by lia.
  destruct (Z.to_nat max_lines <? length file_lines)%nat eqn:E.
  - apply Nat.ltb_lt in E. lia.
  - simpl. apply app_nil_r.
Qed.

Lemma read_loop_long max_lines file_lines :
  0 <= max_lines -> Z.of_nat (length file_lines) > max_lines ->
  read_loop max_lines 0 file_lines []
  = map rstrip (firstn (Z.to_nat max_lines) file_lines) ++ [truncation_marker max_lines].
Proof.
  intros H0 H. rewrite read_loop_spec by lia. rewrite Z.sub_0_r.
  destruct (Z.to_nat max_lines <? length file_lines)%nat eqn:E.
  - reflexivity.
  - apply Nat.ltb_ge in E. lia.
Qed.

Lemma append_cons (a : ascii) (s t : string) : String a s +:+ t = String a (s +:+ t).
Proof. reflexivity. Qed.

Lemma append_nil_r (s : string) : s +:+ "" = s.
Proof. induction s as [|a s IH]; [reflexivity|]. rewrite append_cons, IH. reflexivity. Qed.

Lemma append_assoc (s t v : string) : (s +:+ t) +:+ v = s +:+ (t +:+ v).
Proof. induction s as [|a s IH]; [reflexivity|]. rewrite !append_cons, IH. reflexivity. Qed.

Lemma concat_app (l1 l2 : list string) :
  PyStr.concat (l1 ++ l2) = PyStr.concat l1 +:+ PyStr.concat l2.
Proof.
  induction l1 as [|x l1 IH]; simpl; [reflexivity|].
  unfold PyStr.concat in *. simpl. rewrite IH. symmetry. apply append_assoc.
Qed.

Lemma read_text_lines_at p encoding n w data :
  fs w !! key_of w p = Some (IFile data) ->
  read_text_lines p encoding n w
  = (match lines_read encoding data n with
     | Some ls => Ret ls
     | None => Raise (UnicodeDecodeError (codec_name encoding))
     end, w).
Proof.
  intros Hd. unfold read_text_lines. rewrite Hd.
  destruct (lines_read encoding data n); reflexivity.
Qed.

(** Asking the file for one line more than the limit is enough for the
    loop. *)
Lemma read_loop_firstn max_lines file_lines :
  0 <= max_lines ->
  read_loop max_lines 0 (firstn (Z.to_nat max_lines + 1) file_lines) []
  = read_loop max_lines 0 file_lines [].
Proof.
  intros H. rewrite !read_loop_spec by lia. rewrite Z.sub_0_r.
  rewrite firstn_firstn, length_firstn.
  replace (Init.Nat.min (Z.to_nat max_lines) (Z.to_nat max_lines + 1))
    with (Z.to_nat max_lines) by lia.
  f_equal. f_equal.
  destruct (Z.to_nat max_lines <? length file_lines)%nat eqn:E.
  - apply Nat.ltb_lt in E.
    assert ((Z.to_nat max_lines
             <? Init.Nat.min (Z.to_nat max_lines + 1) (length file_lines))%nat = true) as ->
      by (apply Nat.ltb_lt; lia).
    reflexivity.
  - apply Nat.ltb_ge in E.
    assert ((Z.to_nat max_lines
             <? Init.Nat.min (Z.to_nat max_lines + 1) (length file_lines))%nat = false) as ->
      by (apply Nat.ltb_ge; lia).
    reflexivity.
Qed.

(** The chunked reader yields exactly the lines asked for, and they are
    the first complete lines of a decoded beginning of the file. *)
Lemma read_chunks_Some fuel j encoding data n ls :
  read_chunks fuel j encoding data n = Some ls ->
  length ls = n
  /\ exists j' text,
       decode_part encoding (substring 0 (j' * CHUNK_SIZE) data) = Some text
       /\ ls = firstn n (complete_lines text).
Proof.
  revert j. induction fuel as [|fuel IH]; intros j; [discriminate|].
  cbn [read_chunks].
  destruct (decode_part encoding (substring 0 (j * CHUNK_SIZE) data)) as [text|] eqn:E;
    [|discriminate].
  cbv zeta. destruct (n <=? length (complete_lines text))%nat eqn:En.
  - intros [= <-]. apply Nat.leb_le in En. split.
    + rewrite length_firstn. lia.
    + exists j, text. split; [exact E | reflexivity].
  - destruct (String.length data <=? j * CHUNK_SIZE)%nat; [discriminate|]. apply IH.
Qed.

(** [read_file] up to the reading of the lines, on a file that passes
    every check. *)
Lemma read_file_reaches
    (u path : string) (encoding : Codec) (max_lines : Z) (w w1 : World) (p data : string) :
  truthy u = true ->
  resolve_user_path path (Some u) w = (Ret p, w1) ->
  fs w1 !! key_of w1 p = Some (IFile data) ->
  Z.of_nat (String.length data) <= MAX_FILE_SIZE ->
  allowed (lower (snd (splitext p))) = true ->
  exists rel,
    isabs rel = false /\
    read_file path encoding max_lines (Some u) w
    = match lines_read encoding data (Z.to_nat max_lines + 1) with
      | Some ls =>
          (Ret (Report
                  {| report_file := rel;
                     report_size := Z.of_nat (String.length data);
                     report_encoding := codec_name encoding;
                     report_lines_shown :=
                       Z.min (Z.of_nat (length (read_loop max_lines 0 ls []))) max_lines;
                     report_content := PyStr.concat (read_loop max_lines 0 ls []) |}), w1)
      | None =>
          (Ret (Message ("Error: " +:+ str_exn (UnicodeDecodeError (codec_name encoding)))),
           w1)
      end.
Proof.
  intros Hu Hr Hd Hsize Hext.
  destruct (tool_prelude u path w p w1 Hu Hr) as (Hg & Hr1 & Hs).
  destruct (resolve_user_path_Ret u path w p w1 Hu Hr) as (_ & Hp & _).
  assert (truthy p = true) as Htp by (rewrite Hp; apply target_truthy).
  destruct (relpath_m_total p (workspace_of u) w1 Htp) as (rel & Hrel & Hrabs).
  exists rel. split; [exact Hrabs|].
  pose proof (read_text_lines_at p encoding (Z.to_nat max_lines + 1) w1 data Hd) as Hread.
  destruct (lines_read encoding data (Z.to_nat max_lines + 1)) as [ls|].
  - unfold read_file. apply try_except_Ret.
    rewrite (bind_Ret _ _ _ _ _ Hg). cbv beta.
    rewrite (bind_Ret _ _ _ _ _ Hr1). cbv beta.
    rewrite (bind_Ret _ _ _ _ _ Hs). cbv beta. cbn [negb].
    rewrite bind_path_exists, Hd. cbn [negb].
    rewrite bind_isfile, Hd. cbn [negb].
    rewrite (bind_Ret _ _ _ _ _ (getsize_at p w1 _ Hd)). cbv beta zeta. cbn [inode_size].
    destruct (Z.of_nat (String.length data) >? MAX_FILE_SIZE) eqn:E; [lia|].
    rewrite Hext. cbn [negb].
    rewrite (bind_Ret _ _ _ _ _ Hread). cbv beta zeta.
    rewrite (bind_Ret _ _ _ _ _ (get_file_info_at p w1 _ Hd)). cbv beta.
    rewrite (bind_Ret _ _ _ _ _ Hrel). reflexivity.
  - unfold read_file, try_except.
    rewrite (bind_Ret _ _ _ _ _ Hg). cbv beta.
    rewrite (bind_Ret _ _ _ _ _ Hr1). cbv beta.
    rewrite (bind_Ret _ _ _ _ _ Hs). cbv beta. cbn [negb].
    rewrite bind_path_exists, Hd. cbn [negb].
    rewrite bind_isfile, Hd. cbn [negb].
    rewrite (bind_Ret _ _ _ _ _ (getsize_at p w1 _ Hd)). cbv beta zeta. cbn [inode_size].
    destruct (Z.of_nat (String.length data) >? MAX_FILE_SIZE) eqn:E; [lia|].
    rewrite Hext. cbn [negb].
    rewrite (bind_Raise _ _ _ _ _ Hread). reflexivity.
Qed.

(** C9. Let [read_file] reach the file: the request of a supplied user
    resolves to a regular file within the size limit, with an allowed
    extension, and the limit is [max_lines >= 0].

    When the file decodes, [read_file] answers with the report, and a
    file with more than [max_lines] lines yields its first [max_lines]
    lines followed by the marker, a new line and
    [... (truncated after max_lines lines)]; a file with at most
    [max_lines] lines yields all its lines and no marker.

    A file that does not decode as a whole is served as well when
    reading it in chunks gives [max_lines + 1] lines before the bytes
    that cannot be decoded are reached: these are complete lines of a
    decoded beginning of the file, and the content is the first
    [max_lines] of them followed by the marker. When reading does not
    give the lines the reply is an error message.

    (Each line is included stripped of trailing white space, and the
    lines are joined without a separator.) *)
Theorem read_file_truncates
    (u path : string) (encoding : Codec) (max_lines : Z) (w w1 : World)
    (p data : string) :
  truthy u = true ->
  resolve_user_path path (Some u) w = (Ret p, w1) ->
  fs w1 !! key_of w1 p = Some (IFile data) ->
  Z.of_nat (String.length data) <= MAX_FILE_SIZE ->
  allowed (lower (snd (splitext p))) = true ->
  0 <= max_lines ->
  (forall text, decode encoding data = Some text ->
     exists r,
       read_file path encoding max_lines (Some u) w = (Ret (Report r), w1)
       /\ (Z.of_nat (length (lines_of (universal_newlines text))) > max_lines ->
           report_content r
           = PyStr.concat (map rstrip (firstn (Z.to_nat max_lines)
                                         (lines_of (universal_newlines text))))
               +:+ String LF "... (truncated after " +:+ pretty max_lines +:+ " lines)")
       /\ (Z.of_nat (length (lines_of (universal_newlines text))) <= max_lines ->
           report_content r
           = PyStr.concat (map rstrip (lines_of (universal_newlines text)))))
  /\ (forall ls, decode encoding data = None ->
        lines_read encoding data (Z.to_nat max_lines + 1) = Some ls ->
        Z.of_nat (length ls) = max_lines + 1
        /\ (exists j text,
              decode_part encoding (substring 0 (j * CHUNK_SIZE) data) = Some text
              /\ ls = firstn (Z.to_nat max_lines + 1) (complete_lines text))
        /\ exists r,
             read_file path encoding max_lines (Some u) w = (Ret (Report r), w1)
             /\ report_content r
                = PyStr.concat (map rstrip (firstn (Z.to_nat max_lines) ls))
                    +:+ String LF "... (truncated after " +:+ pretty max_lines +:+ " lines)")
  /\ (lines_read encoding data (Z.to_nat max_lines + 1) = None ->
      exists msg,
        read_file path encoding max_lines (Some u) w = (Ret (Message msg), w1)).
Proof.
  intros Hu Hr Hd Hsize Hext Hmax.
  destruct (read_file_reaches u path encoding max_lines w w1 p data
              Hu Hr Hd Hsize Hext) as (rel & _ & Hread).
  split; [|split].
  - intros text Hdec. unfold lines_read in Hread. rewrite Hdec in Hread.
    eexists. split; [exact Hread|]. cbn [report_content].
    rewrite read_loop_firstn by exact Hmax. split; intros Hlen.
    + rewrite read_loop_long by assumption. rewrite concat_app.
      unfold PyStr.concat at 2. cbn [map fold_right]. rewrite append_nil_r. reflexivity.
    + rewrite read_loop_short by assumption. reflexivity.
  - intros ls Hdec Hls. rewrite Hls in Hread. unfold lines_read in Hls.
    rewrite Hdec in Hls. apply read_chunks_Some in Hls as (Hlen & Hfrom).
    split; [lia|]. split; [exact Hfrom|].
    eexists. split; [exact Hread|]. cbn [report_content].
    rewrite read_loop_long by lia. rewrite concat_app.
    unfold PyStr.concat at 2. cbn [map fold_right]. rewrite append_nil_r. reflexivity.
  - intros Hnone. rewrite Hnone in Hread. eexists. exact Hread.
Qed.

(** A workspace of user ["u1"] holding [notes.txt] with three lines. *)
Definition three_lines : string :=
  "one" +:+ String LF ("two  " +:+ String LF ("three" +:+ String LF "")).

Definition srv_with (name data : string) : World :=
  {| cwd_components := ["srv"];
     fs := list_to_map
             [([], IDir); (["srv"], IDir); (["srv"; "user-workspaces"], IDir);
              (u1_key, IDir); (u1_key ++ [name], IFile data)];
     urandom := fun n => Z.of_nat n;
     draws := 0 |}.

Definition srv_notes : World := srv_with "notes.txt" three_lines.

Lemma read_file_truncates_witness :
  (forall text, decode utf_8 three_lines = Some text ->
     exists r,
       read_file "notes.txt" utf_8 2 (Some "u1") srv_notes
       = (Ret (Report r), snd (resolve_user_path "notes.txt" (Some "u1") srv_notes))
       /\ (Z.of_nat (length (lines_of (universal_newlines text))) > 2 ->
           report_content r
           = PyStr.concat (map rstrip (firstn (Z.to_nat 2)
                                         (lines_of (universal_newlines text))))
               +:+ String LF "... (truncated after " +:+ pretty 2 +:+ " lines)")
       /\ (Z.of_nat (length (lines_of (universal_newlines text))) <= 2 ->
           report_content r
           = PyStr.concat (map rstrip (lines_of (universal_newlines text)))))
  /\ (forall ls, decode utf_8 three_lines = None ->
        lines_read utf_8 three_lines (Z.to_nat 2 + 1) = Some ls ->
        Z.of_nat (length ls) = 2 + 1
        /\ (exists j text,
              decode_part utf_8 (substring 0 (j * CHUNK_SIZE) three_lines) = Some text
              /\ ls = firstn (Z.to_nat 2 + 1) (complete_lines text))
        /\ exists r,
             read_file "notes.txt" utf_8 2 (Some "u1") srv_notes
             = (Ret (Report r), snd (resolve_user_path "notes.txt" (Some "u1") srv_notes))
             /\ report_content r
                = PyStr.concat (map rstrip (firstn (Z.to_nat 2) ls))
                    +:+ String LF "... (truncated after " +:+ pretty 2 +:+ " lines)")
  /\ (lines_read utf_8 three_lines (Z.to_nat 2 + 1) = None ->
      exists msg,
        read_file "notes.txt" utf_8 2 (Some "u1") srv_notes
        = (Ret (Message msg), snd (resolve_user_path "notes.txt" (Some "u1") srv_notes))).
Proof.
  apply (read_file_truncates "u1" "notes.txt" utf_8 2 srv_notes
           (snd (resolve_user_path "notes.txt" (Some "u1") srv_notes))
           "/srv/user-workspaces/db6cd388-0abf-538a-8503-dd3358d93458/notes.txt"
           three_lines).
  - reflexivity.
  - apply run_Ret. vm_compute. reflexivity.
  - vm_compute. reflexivity.
  - vm_compute. discriminate.
  - vm_compute. reflexivity.
  - lia.
Defined.

Example read_file_truncated_example :
  fst (read_file "notes.txt" utf_8 2 (Some "u1") srv_notes)
  = Ret (Report {| report_file := "notes.txt"; report_size := 16;
                   report_encoding := "utf-8"; report_lines_shown := 2;
                   report_content := "onetwo" +:+ String LF "... (truncated after 2 lines)" |}).
Proof. vm_compute. reflexivity. Qed.

Example read_file_whole_example :
  fst (read_file "notes.txt" utf_8 1000 (Some "u1") srv_notes)
  = Ret (Report {| report_file := "notes.txt"; report_size := 16;
                   report_encoding := "utf-8"; report_lines_shown := 3;
                   report_content := "onetwothree" |}).
Proof. vm_compute. reflexivity. Qed.

(** A line is stripped of the white space of Unicode: here of a no-break
    space, U+00A0, before the line terminator. *)
Example read_file_strips_no_break_space :
  fst (read_file "notes.txt" utf_8 1000 (Some "u1")
         (srv_with "notes.txt" ("one" +:+ String "194" (String "160" (String LF "two")))))
  = Ret (Report {| report_file := "notes.txt"; report_size := 9;
                   report_encoding := "utf-8"; report_lines_shown := 2;
                   report_content := "onetwo" |}).
Proof. vm_compute. reflexivity. Qed.

(** Two lines, then a byte that is no UTF-8, at offset [at_]. *)
Fixpoint filler (n : nat) : string :=
  match n with
  | O => EmptyString
  | S n' => String "x" (filler n')
  end.

Definition late_bad_byte (at_ : nat) : string :=
  "one" +:+ String LF ("two" +:+ String LF (filler (at_ - 8) +:+ String "255" "")).

(** With the byte in the second chunk, one line is served and the marker
    follows; with the byte in the first chunk, the file is refused. *)
Example read_file_bad_byte_in_second_chunk :
  decode utf_8 (late_bad_byte CHUNK_SIZE) = None
  /\ fst (read_file "notes.txt" utf_8 1 (Some "u1")
            (srv_with "notes.txt" (late_bad_byte CHUNK_SIZE)))
     = Ret (Report {| report_file := "notes.txt"; report_size := 8193;
                      report_encoding := "utf-8"; report_lines_shown := 1;
                      report_content := "one" +:+ String LF "... (truncated after 1 lines)" |}).
Proof. split; vm_compute; reflexivity. Qed.

Example read_file_bad_byte_in_first_chunk :
  exists msg,
    fst (read_file "notes.txt" utf_8 1 (Some "u1")
           (srv_with "notes.txt" (late_bad_byte (CHUNK_SIZE - 1))))
    = Ret (Message msg).
Proof. eexists. vm_compute. reflexivity. Qed.

End Reading.

(** ** C3: writing, then reading back *)

Module Roundtrip.
Import PyStr PosixPath PyUuid Os FilesystemServer PathFacts OsFacts ResolverFacts ToolFacts.
Import Scenario Reading.
Local Open Scope Z_scope.

Lemma bind_Ret_inv {A B} (m : M A) (k : A -> M B) w b w2 :
  bind m k w = (Ret b, w2) -> exists a w1, m w = (Ret a, w1) /\ k a w1 = (Ret b, w2).
Proof.
  unfold bind. destruct (m w) as [[a|e] w1]; [eauto | discriminate].
Qed.

Lemma get_file_info_state p w r w' : get_file_info p w = (r, w') -> w' = w.
Proof.
  unfold get_file_info, try_except, bind, getsize, isfile, isdir, ret.
  destruct (fs w !! key_of w p); intros [= _ <-]; reflexivity.
Qed.

Lemma relpath_m_state p start w r w' : relpath_m p start w = (r, w') -> w' = w.
Proof.
  unfold relpath_m, bind, getcwd, ret, raise.
  destruct (relpath (cwd w) p start); intros [= _ <-]; reflexivity.
Qed.

(** What creating the parent directory can do. *)
Lemma parent_creation_effect (cond : bool) d w w3 :
  (if cond then makedirs d false else ret tt) w = (Ret tt, w3) ->
  cwd w3 = cwd w /\ forall j v, fs w !! j = Some v -> fs w3 !! j = Some v.
Proof.
  destruct cond.
  - unfold makedirs. destruct (makedirs_walk [] (key_of w d) false (fs w)) as [e|m] eqn:E;
      [discriminate|].
    intros [= <-]. split; [reflexivity|]. simpl. apply (makedirs_walk_preserves _ _ _ _ _ E).
  - intros [= <-]. split; [reflexivity | auto].
Qed.

(** A successful write in mode ['w'] puts the encoded content in place of
    whatever was there, which was not a directory. *)
Lemma write_text_Ret_inv p encoding content w w4 :
  write_text p false encoding content w = (Ret tt, w4) ->
  exists bytes,
    encode encoding content = Some bytes
    /\ fs w !! key_of w p <> Some IDir
    /\ w4 = set_fs w (<[key_of w p := IFile bytes]> (fs w)).
Proof.
  unfold write_text.
  destruct (fs w !! key_of w p) as [[old|]|] eqn:E; [| discriminate |];
    (destruct (fs w !! parent (key_of w p)) as [[?|]|]; [discriminate | | discriminate]);
    (destruct (encode encoding content) as [bytes|]; [|discriminate]);
    intros [= <-]; exists bytes; (split; [reflexivity|]); (split; [congruence | reflexivity]).
Qed.

Definition two_lines : string := "hello" +:+ String LF "world".

(** C3. The round trip fails for a content of two lines: after
    [write_file] has written ["hello\nworld"] to [notes.txt] for user
    ["u1"], [read_file] with the same encoding answers with the content
    ["helloworld"]. The line terminator is lost: [read_file] strips every
    line, terminator included, and joins the lines without a separator. *)
Theorem written_lines_come_back_joined :
  fst (write_file "notes.txt" two_lines utf_8 false (Some "u1") srv)
    = Ret (Report {| written_action := "written to"; written_file := "notes.txt";
                     written_size := 11; written_length := 11 |})
  /\ fst (read_file "notes.txt" utf_8 1000 (Some "u1")
            (snd (write_file "notes.txt" two_lines utf_8 false (Some "u1") srv)))
     = Ret (Report {| report_file := "notes.txt"; report_size := 11;
                      report_encoding := "utf-8"; report_lines_shown := 2;
                      report_content := "helloworld" |})
  /\ "helloworld" <> two_lines.
Proof. repeat split; try (vm_compute; reflexivity). vm_compute. discriminate. Qed.

End Roundtrip.

(** ** C10: directory listings *)

Module Listing.
Import PyStr PosixPath PyUuid Os FilesystemServer PathFacts OsFacts ResolverFacts ToolFacts.
Import Scenario Roundtrip.
Local Open Scope Z_scope.

(** A reported path is relative to [ws] when [os.path.relpath] computed it
    against [ws]. *)
Definition relative_to (w : World) (ws r : string) : Prop :=
  exists target, relpath (cwd w) target ws = Some r.

Lemma relative_to_not_abs w ws r : relative_to w ws r -> isabs r = false.
Proof. intros (t & H). eapply relpath_not_abs. exact H. Qed.

Lemma relpath_m_Ret_inv p start w r w' :
  relpath_m p start w = (Ret r, w') -> w' = w /\ relative_to w start r.
Proof.
  intros H. pose proof (relpath_m_state _ _ _ _ _ H) as ->. split; [reflexivity|].
  exists p. unfold relpath_m, bind, getcwd, ret, raise in H.
  destruct (relpath (cwd w) p start); [congruence | discriminate].
Qed.

Lemma get_file_info_Ret p w : exists info, get_file_info p w = (Ret info, w).
Proof.
  unfold get_file_info, try_except, bind, getsize, isfile, isdir, ret.
  destruct (fs w !! key_of w p); eauto.
Qed.

Definition visible (e : dir_entry) : Prop := startswith "." (entry_name e) = false.

(** The loop of [list_directory]: it appends entries for some of the names,
    in their order, never beyond [max_items], never a hidden one unless
    asked to, and with paths computed by [relpath]. *)
Lemma list_directory_loop_spec rp ws show_hidden max_items names :
  forall items count w r w',
    list_directory_loop rp ws show_hidden max_items names items count w = (Ret r, w') ->
    w' = w /\
    exists new,
      fst r = items ++ new
      /\ snd r = count + Z.of_nat (length new)
      /\ map entry_name new `sublist_of` names
      /\ (count <= max_items -> snd r <= max_items)
      /\ (show_hidden = false -> Forall visible new)
      /\ Forall (fun e => relative_to w ws (entry_path e)) new.
Proof.
  induction names as [|item rest IH]; intros items count w r w' H.
  - injection H as <- <-. split; [reflexivity|]. exists []. simpl.
    rewrite app_nil_r. repeat split; try constructor; lia.
  - cbn [list_directory_loop] in H.
    destruct (count >=? max_items) eqn:Ecount.
    { injection H as <- <-. split; [reflexivity|]. exists []. simpl.
      rewrite app_nil_r. repeat split; try constructor; try lia. apply sublist_nil_l. }
    destruct (negb show_hidden && startswith "." item) eqn:Ehid.
    { destruct (IH _ _ _ _ _ H) as (-> & new & H1 & H2 & H3 & H4 & H5 & H6).
      split; [reflexivity|]. exists new. repeat split; try assumption.
      apply sublist_cons. exact H3. }
    destruct (get_file_info_Ret (join rp item) w) as (info & Hinfo).
    rewrite (bind_Ret _ _ _ _ _ Hinfo) in H. destruct info as [info|err].
    2:{ destruct (IH _ _ _ _ _ H) as (-> & new & H1 & H2 & H3 & H4 & H5 & H6).
        split; [reflexivity|]. exists new. repeat split; try assumption.
        apply sublist_cons. exact H3. }
    apply bind_Ret_inv in H as (rel & w1 & Hrel & H).
    apply relpath_m_Ret_inv in Hrel as (-> & Hrel).
    destruct (IH _ _ _ _ _ H) as (-> & new & H1 & H2 & H3 & H4 & H5 & H6).
    split; [reflexivity|].
    eexists (_ :: new). repeat split.
    + rewrite H1, <- app_assoc. reflexivity.
    + rewrite H2. cbn [length]. lia.
    + cbn [map entry_name]. apply sublist_skip. exact H3.
    + intros Hle. apply H4. lia.
    + intros ->. constructor; [|apply H5; reflexivity].
      unfold visible. cbn [entry_name]. simpl in Ehid. exact Ehid.
    + constructor; [exact Hrel | exact H6].
Qed.

Lemma StronglySorted_sublist {A} (R : relation A) (l1 l2 : list A) :
  l1 `sublist_of` l2 -> StronglySorted R l2 -> StronglySorted R l1.
Proof.
  induction 1 as [|x l1 l2 Hs IH|x l1 l2 Hs IH]; intros Hsorted.
  - constructor.
  - apply StronglySorted_inv in Hsorted as [Hl2 Hx]. constructor; [auto|].
    eapply Forall_forall. intros y Hy. rewrite Forall_forall in Hx. apply Hx.
    eapply sublist_subseteq; eassumption.
  - apply StronglySorted_inv in Hsorted as [Hl2 _]. auto.
Qed.

Lemma sorted_StronglySorted names : StronglySorted String.le (sorted names).
Proof. unfold sorted. apply StronglySorted_merge_sort; apply _. Qed.

(** What a listing is made of. *)
Lemma list_directory_Report_inv path show_hidden max_items user_id w L w' :
  list_directory path show_hidden max_items user_id w = (Ret (Report L), w') ->
  exists ws p names w1 (r : list dir_entry * Z),
    (exists w0, get_user_workspace user_id w = (Ret ws, w0))
    /\ list_directory_loop p ws show_hidden max_items (sorted names) [] 0 w1 = (Ret r, w1)
    /\ cwd w1 = cwd w'
    /\ listing_items L = fst r /\ listing_count L = snd r
    /\ relative_to w' ws (listing_path L)
    /\ Forall (fun e => relative_to w' ws (entry_path e)) (listing_items L).
Proof.
  intros H. unfold list_directory, try_except in H.
  match type of H with
  | (match ?b with _ => _ end) = _ => destruct b as [[rep|e] w0] eqn:Hb
  end.
  2:{ destruct (is_ValueError e); discriminate. }
  injection H as -> ->.
  apply bind_Ret_inv in Hb as (ws & w1 & Hg & Hb).
  apply bind_Ret_inv in Hb as (p & w2 & Hr & Hb).
  apply bind_Ret_inv in Hb as (safe & w3 & Hs & Hb).
  assert (w3 = w2) as -> by (unfold is_safe_path, bind, getcwd, ret in Hs; congruence).
  destruct safe; cbn [negb] in Hb; [|discriminate].
  rewrite bind_path_exists in Hb.
  destruct (match fs w2 !! key_of w2 p with Some _ => true | None => false end);
    cbn [negb] in Hb; [|discriminate].
  rewrite bind_isdir in Hb.
  destruct (match fs w2 !! key_of w2 p with Some IDir => true | _ => false end);
    cbn [negb] in Hb; [|discriminate].
  apply bind_Ret_inv in Hb as (names & w4 & Hl & Hb).
  assert (w4 = w2) as ->.
  { unfold listdir in Hl. destruct (fs w2 !! key_of w2 p) as [[?|]|]; congruence. }
  apply bind_Ret_inv in Hb as (r & w5 & Hloop & Hb).
  destruct (list_directory_loop_spec _ _ _ _ _ _ _ _ _ _ Hloop)
    as (-> & new & H1 & H2 & H3 & H4 & H5 & H6).
  destruct (fst r) as [|e0 l0] eqn:Hitems; [discriminate|].
  apply bind_Ret_inv in Hb as (rel & w6 & Hrel & Hb).
  apply relpath_m_Ret_inv in Hrel as (-> & Hrel).
  injection Hb as <- <-.
  exists ws, p, names, w2, r. cbn [listing_items listing_count listing_path].
  split; [eauto|].
  repeat split; try assumption; try (symmetry; assumption); try reflexivity.
  all: first [rewrite H1; exact H6 | rewrite <- Hitems, H1; exact H6].
Qed.

(** C10. For a limit [max_items >= 0], a listing returned by
    [list_directory] has at most [max_items] entries (as many as its count
    says), the names of its entries are in lexicographic order, and none of
    them begins with a dot unless [show_hidden] is set. *)
Theorem list_directory_listing
    (path : string) (show_hidden : bool) (max_items : Z) (user_id : option string)
    (w w' : World) (L : listing) :
  0 <= max_items ->
  list_directory path show_hidden max_items user_id w = (Ret (Report L), w') ->
  Z.of_nat (length (listing_items L)) <= max_items
  /\ listing_count L = Z.of_nat (length (listing_items L))
  /\ StronglySorted String.le (map entry_name (listing_items L))
  /\ (show_hidden = false -> Forall visible (listing_items L)).
Proof.
  intros Hmax H.
  destruct (list_directory_Report_inv _ _ _ _ _ _ _ H)
    as (ws & p & names & w1 & r & _ & Hloop & _ & Hitems & Hcount & _ & _).
  destruct (list_directory_loop_spec _ _ _ _ _ _ _ _ _ _ Hloop)
    as (_ & new & H1 & H2 & H3 & H4 & H5 & _).
  change ([] ++ new) with new in H1. specialize (H4 Hmax).
  rewrite Hitems, Hcount, H1. split; [lia|]. split; [lia|]. split.
  - eapply StronglySorted_sublist; [exact H3 | apply sorted_StronglySorted].
  - exact H5.
Qed.

(** A workspace of user ["u1"] with two files, a hidden file and a
    directory. *)
Definition srv_files : World :=
  {| cwd_components := ["srv"];
     fs := list_to_map
             [([], IDir); (["srv"], IDir); (["srv"; "user-workspaces"], IDir);
              (u1_key, IDir); (u1_key ++ ["b.txt"], IFile "bb");
              (u1_key ++ [".hidden"], IFile "h"); (u1_key ++ ["a.txt"], IFile "a");
              (u1_key ++ ["docs"], IDir); (u1_key ++ ["docs"; "c.md"], IFile "ccc")];
     urandom := fun n => Z.of_nat n;
     draws := 0 |}.

Definition first_two : listing :=
  {| listing_path := ".";
     listing_count := 2;
     listing_items :=
       [{| entry_name := "a.txt"; entry_type := "FILE"; entry_path := "a.txt";
           entry_size := "1 bytes" |};
        {| entry_name := "b.txt"; entry_type := "FILE"; entry_path := "b.txt";
           entry_size := "2 bytes" |}] |}.

Lemma list_directory_listing_witness :
  Z.of_nat (length (listing_items first_two)) <= 2
  /\ listing_count first_two = Z.of_nat (length (listing_items first_two))
  /\ StronglySorted String.le (map entry_name (listing_items first_two))
  /\ (false = false -> Forall visible (listing_items first_two)).
Proof.
  apply (list_directory_listing "." false 2 (Some "u1") srv_files
           (snd (list_directory "." false 2 (Some "u1") srv_files)) first_two).
  - lia.
  - apply run_Ret. vm_compute. reflexivity.
Defined.

Example list_directory_all :
  fst (list_directory "." true 100 (Some "u1") srv_files)
  = Ret (Report
      {| listing_path := ".";
         listing_count := 4;
         listing_items :=
           [{| entry_name := ".hidden"; entry_type := "FILE"; entry_path := ".hidden";
               entry_size := "1 bytes" |};
            {| entry_name := "a.txt"; entry_type := "FILE"; entry_path := "a.txt";
               entry_size := "1 bytes" |};
            {| entry_name := "b.txt"; entry_type := "FILE"; entry_path := "b.txt";
               entry_size := "2 bytes" |};
            {| entry_name := "docs"; entry_type := "DIR"; entry_path := "docs";
               entry_size := "" |}] |}).
Proof. vm_compute. reflexivity. Qed.

End Listing.

(** ** C4: the paths that the tools report *)

Module Reporting.
Import PyStr PosixPath PyUuid Os FilesystemServer PathFacts OsFacts ResolverFacts ToolFacts.
Import Scenario Roundtrip Listing.
Local Open Scope Z_scope.

(** The workspace a call works with. *)
Definition workspace_used (user_id : option string) (w : World) (ws : string) : Prop :=
  exists w1, get_user_workspace user_id w = (Ret ws, w1).

Lemma relative_to_cwd w w' ws r : cwd w = cwd w' -> relative_to w ws r -> relative_to w' ws r.
Proof. unfold relative_to. intros ->. auto. Qed.

Lemma resolve_user_path_cwd path user_id w r w' :
  resolve_user_path path user_id w = (r, w') -> cwd w' = cwd w.
Proof.
  rewrite resolve_user_path_unfold.
  destruct (get_user_workspace user_id w) as [[ws|e] w1] eqn:E;
    pose proof (get_user_workspace_cwd _ _ _ _ E) as Hc.
  - cbv zeta. destruct (negb _); intros [= _ <-]; exact Hc.
  - intros [= _ <-]. exact Hc.
Qed.

Lemma is_safe_path_state p ws w r w' : is_safe_path p ws w = (r, w') -> w' = w.
Proof. unfold is_safe_path, bind, getcwd, ret. congruence. Qed.

Lemma listdir_state p w r w' : listdir p w = (r, w') -> w' = w.
Proof. unfold listdir. destruct (fs w !! key_of w p) as [[?|]|]; congruence. Qed.

Section SearchFacts.

Variable fnmatch : string -> string -> bool.

Lemma search_items_spec root ws pattern max_results items :
  forall matches count w r w',
    search_items fnmatch root ws pattern max_results items matches count w = (Ret r, w') ->
    w' = w /\
    exists new, fst r = matches ++ new
                /\ Forall (fun m => relative_to w ws (match_path m)) new.
Proof.
  induction items as [|item rest IH]; intros matches count w r w' H.
  - injection H as <- <-. split; [reflexivity|]. exists []. rewrite app_nil_r. auto.
  - cbn [search_items] in H.
    destruct (count >=? max_results).
    { injection H as <- <-. split; [reflexivity|]. exists []. rewrite app_nil_r. auto. }
    destruct (fnmatch item pattern); [|eauto].
    apply bind_Ret_inv in H as (safe & w1 & Hs & H).
    apply is_safe_path_state in Hs as ->.
    destruct safe; [|eauto].
    destruct (get_file_info_Ret (join root item) w) as (info & Hinfo).
    rewrite (bind_Ret _ _ _ _ _ Hinfo) in H.
    apply bind_Ret_inv in H as (rel & w1 & Hrel & H).
    apply relpath_m_Ret_inv in Hrel as (-> & Hrel).
    destruct info as [info|err]; [|discriminate].
    destruct (IH _ _ _ _ _ H) as (-> & new & H1 & H2).
    split; [reflexivity|]. eexists (_ :: new). split.
    + rewrite H1, <- app_assoc. reflexivity.
    + constructor; [exact Hrel | exact H2].
Qed.

Lemma search_walk_spec ws pattern file_only max_results triples :
  forall matches count w r w',
    search_walk fnmatch ws pattern file_only max_results triples matches count w
    = (Ret r, w') ->
    w' = w /\
    exists new, fst r = matches ++ new
                /\ Forall (fun m => relative_to w ws (match_path m)) new.
Proof.
  induction triples as [|[[root dirs] files] rest IH]; intros matches count w r w' H.
  - injection H as <- <-. split; [reflexivity|]. exists []. rewrite app_nil_r. auto.
  - cbn [search_walk] in H.
    destruct (count >=? max_results).
    { injection H as <- <-. split; [reflexivity|]. exists []. rewrite app_nil_r. auto. }
    apply bind_Ret_inv in H as (safe & w1 & Hs & H).
    apply is_safe_path_state in Hs as ->.
    destruct safe; cbn [negb] in H; [|eauto].
    apply bind_Ret_inv in H as (r1 & w1 & Hitems & H).
    destruct (search_items_spec _ _ _ _ _ _ _ _ _ _ Hitems) as (-> & new1 & H1 & H2).
    destruct (IH _ _ _ _ _ H) as (-> & new2 & H3 & H4).
    split; [reflexivity|]. exists (new1 ++ new2). split.
    + rewrite H3, H1, <- app_assoc. reflexivity.
    + apply Forall_app. split; assumption.
Qed.

Lemma search_files_Report_inv directory pattern file_only max_results user_id w S w' :
  search_files fnmatch directory pattern file_only max_results user_id w
  = (Ret (Report S), w') ->
  exists ws, workspace_used user_id w ws
             /\ relative_to w ws (search_dir S)
             /\ Forall (fun m => relative_to w ws (match_path m)) (search_matches S).
Proof.
  intros H. unfold search_files, try_except in H.
  match type of H with
  | (match ?b with _ => _ end) = _ => destruct b as [[rep|e] w0] eqn:Hb
  end.
  2:{ destruct (is_ValueError e); discriminate. }
  injection H as -> ->.
  apply bind_Ret_inv in Hb as (ws & w1 & Hg & Hb).
  apply bind_Ret_inv in Hb as (p & w2 & Hr & Hb).
  pose proof (get_user_workspace_cwd _ _ _ _ Hg) as Hc1.
  pose proof (resolve_user_path_cwd _ _ _ _ _ Hr) as Hc2.
  apply bind_Ret_inv in Hb as (safe & w3 & Hs & Hb).
  apply is_safe_path_state in Hs as ->.
  destruct safe; cbn [negb] in Hb; [|discriminate].
  rewrite bind_path_exists in Hb.
  destruct (match fs w2 !! key_of w2 p with Some _ => true | None => false end);
    cbn [negb] in Hb; [|discriminate].
  rewrite bind_isdir in Hb.
  destruct (match fs w2 !! key_of w2 p with Some IDir => true | _ => false end);
    cbn [negb] in Hb; [|discriminate].
  apply bind_Ret_inv in Hb as (triples & w4 & Hwalk & Hb).
  assert (w4 = w2) as -> by (unfold walk in Hwalk; congruence).
  apply bind_Ret_inv in Hb as (r & w5 & Hloop & Hb).
  destruct (search_walk_spec _ _ _ _ _ _ _ _ _ _ Hloop) as (-> & new & H1 & H2).
  destruct (fst r) as [|m0 l0] eqn:Hm; [discriminate|].
  apply bind_Ret_inv in Hb as (rel & w6 & Hrel & Hb).
  apply relpath_m_Ret_inv in Hrel as (-> & Hrel).
  injection Hb as <- <-.
  assert (cwd w2 = cwd w) as Hc by congruence.
  exists ws. split; [exists w1; exact Hg|]. cbn [search_dir search_matches]. split.
  - eapply relative_to_cwd; eassumption.
  - rewrite H1. change ([] ++ new) with new.
    eapply Forall_impl; [exact H2|]. intros m. apply relative_to_cwd. exact Hc.
Qed.

End SearchFacts.

Lemma get_file_info_tool_Report_inv path user_id w I w' :
  get_file_info_tool path user_id w = (Ret (Report I), w') ->
  exists ws, workspace_used user_id w ws /\ relative_to w ws (info_path I).
Proof.
  intros H. unfold get_file_info_tool, try_except in H.
  match type of H with
  | (match ?b with _ => _ end) = _ => destruct b as [[rep|e] w0] eqn:Hb
  end.
  2:{ destruct (is_ValueError e); discriminate. }
  injection H as -> ->.
  apply bind_Ret_inv in Hb as (ws & w1 & Hg & Hb).
  apply bind_Ret_inv in Hb as (p & w2 & Hr & Hb).
  pose proof (get_user_workspace_cwd _ _ _ _ Hg) as Hc1.
  pose proof (resolve_user_path_cwd _ _ _ _ _ Hr) as Hc2.
  apply bind_Ret_inv in Hb as (safe & w3 & Hs & Hb).
  apply is_safe_path_state in Hs as ->.
  destruct safe; cbn [negb] in Hb; [|discriminate].
  rewrite bind_path_exists in Hb.
  destruct (match fs w2 !! key_of w2 p with Some _ => true | None => false end);
    cbn [negb] in Hb; [|discriminate].
  apply bind_Ret_inv in Hb as (info & w4 & Hinfo & Hb).
  apply get_file_info_state in Hinfo as ->.
  apply bind_Ret_inv in Hb as (rel & w5 & Hrel & Hb).
  apply relpath_m_Ret_inv in Hrel as (-> & Hrel).
  destruct info as [info|err]; [|discriminate].
  apply bind_Ret_inv in Hb as (items & w6 & _ & Hb).
  injection Hb as <- _.
  exists ws. split; [exists w1; exact Hg|]. cbn [info_path].
  eapply relative_to_cwd; [|exact Hrel]. congruence.
Qed.

Lemma get_workspace_info_Report_inv user_id w W w' :
  get_workspace_info user_id w = (Ret (Report W), w') ->
  exists ws, workspace_used user_id w ws /\ workspace_path W = abspath (cwd w) ws.
Proof.
  intros H. unfold get_workspace_info, try_except in H.
  match type of H with
  | (match ?b with _ => _ end) = _ => destruct b as [[rep|e] w0] eqn:Hb
  end.
  2:{ discriminate. }
  injection H as -> ->.
  apply bind_Ret_inv in Hb as (ws & w1 & Hg & Hb).
  pose proof (get_user_workspace_cwd _ _ _ _ Hg) as Hc1.
  apply bind_Ret_inv in Hb as (c & w2 & Hcwd & Hb).
  unfold getcwd in Hcwd. injection Hcwd as <- <-.
  apply bind_Ret_inv in Hb as (triples & w3 & _ & Hb).
  apply bind_Ret_inv in Hb as ([[files dirs] sz] & w4 & _ & Hb).
  injection Hb as <- _.
  exists ws. split; [exists w1; exact Hg|]. cbn [workspace_path]. rewrite Hc1. reflexivity.
Qed.

(** C4 (as stated, fails). [get_workspace_info] reports the absolute path of
    the workspace on the host. *)
Lemma workspace_info_reports_absolute_path :
  fst (get_workspace_info (Some "u1") srv_files)
  = Ret (Report
      {| workspace_id := "db6cd388-0abf-538a-8503-dd3358d93458";
         workspace_path := "/srv/user-workspaces/db6cd388-0abf-538a-8503-dd3358d93458";
         total_files := 4; total_dirs := 1; total_size := 7 |})
  /\ abspath (cwd srv_files) (workspace_of "u1")
     = "/srv/user-workspaces/db6cd388-0abf-538a-8503-dd3358d93458"
  /\ isabs "/srv/user-workspaces/db6cd388-0abf-538a-8503-dd3358d93458" = true.
Proof. repeat split; vm_compute; reflexivity. Qed.

(** C4 (amended). Every path in a report of [list_directory],
    [search_files] or [get_file_info_tool] was computed by
    [os.path.relpath] against the workspace of the call, and is therefore
    not absolute; [get_workspace_info] reports the absolute path of the
    workspace. *)
Theorem reported_paths_relative :
  (forall path show_hidden max_items user_id w w' L,
      list_directory path show_hidden max_items user_id w = (Ret (Report L), w') ->
      exists ws, workspace_used user_id w ws
                 /\ Forall (fun r => relative_to w ws r /\ isabs r = false)
                      (listing_path L :: map entry_path (listing_items L)))
  /\ (forall fnmatch directory pattern file_only max_results user_id w w' S,
         search_files fnmatch directory pattern file_only max_results user_id w
         = (Ret (Report S), w') ->
         exists ws, workspace_used user_id w ws
                    /\ Forall (fun r => relative_to w ws r /\ isabs r = false)
                         (search_dir S :: map match_path (search_matches S)))
  /\ (forall path user_id w w' I,
         get_file_info_tool path user_id w = (Ret (Report I), w') ->
         exists ws, workspace_used user_id w ws
                    /\ relative_to w ws (info_path I) /\ isabs (info_path I) = false)
  /\ (forall user_id w w' W,
         get_workspace_info user_id w = (Ret (Report W), w') ->
         exists ws, workspace_used user_id w ws
                    /\ workspace_path W = abspath (cwd w) ws
                    /\ isabs (workspace_path W) = true).
Proof.
  assert (forall w ws r, relative_to w ws r -> relative_to w ws r /\ isabs r = false) as Hrel.
  { intros w ws r H. split; [exact H | eapply relative_to_not_abs; exact H]. }
  split; [|split; [|split]].
  - intros path show_hidden max_items user_id w w' L H.
    destruct (list_directory_Report_inv _ _ _ _ _ _ _ H)
      as (ws & p & names & w1 & r & (w0 & Hg) & Hloop & Hc & _ & _ & Hpath & Hitems).
    assert (cwd w' = cwd w) as Hcw.
    { unfold list_directory, try_except in H.
      match type of H with
      | (match ?b with _ => _ end) = _ => destruct b as [[rep|e] w2] eqn:Hb
      end; [|destruct (is_ValueError e); discriminate].
      injection H as Hrep <-. subst rep. clear - Hb Hg.
      apply bind_Ret_inv in Hb as (ws' & w1' & Hg' & Hb).
      apply bind_Ret_inv in Hb as (p' & w2' & Hr' & Hb).
      apply bind_Ret_inv in Hb as (safe & w3 & Hs & Hb).
      apply is_safe_path_state in Hs as ->.
      pose proof (get_user_workspace_cwd _ _ _ _ Hg') as Hc1.
      pose proof (resolve_user_path_cwd _ _ _ _ _ Hr') as Hc2.
      destruct safe; cbn [negb] in Hb; [|discriminate].
      rewrite bind_path_exists in Hb.
      destruct (match fs w2' !! key_of w2' p' with Some _ => true | None => false end);
        cbn [negb] in Hb; [|discriminate].
      rewrite bind_isdir in Hb.
      destruct (match fs w2' !! key_of w2' p' with Some IDir => true | _ => false end);
        cbn [negb] in Hb; [|discriminate].
      apply bind_Ret_inv in Hb as (names' & w4 & Hl & Hb).
      apply listdir_state in Hl as ->.
      apply bind_Ret_inv in Hb as (r' & w5 & Hloop' & Hb).
      destruct (list_directory_loop_spec _ _ _ _ _ _ _ _ _ _ Hloop') as (-> & _).
      destruct (fst r'); [discriminate|].
      apply bind_Ret_inv in Hb as (rel & w6 & Hrel' & Hb).
      apply relpath_m_state in Hrel' as ->. injection Hb as _ <-. congruence. }
    exists ws. split; [exists w0; exact Hg|]. constructor.
    + apply Hrel. eapply relative_to_cwd; eassumption.
    + apply Forall_map. eapply Forall_impl; [exact Hitems|].
      intros e He. apply Hrel. eapply relative_to_cwd; eassumption.
  - intros fnmatch directory pattern file_only max_results user_id w w' S H.
    destruct (search_files_Report_inv _ _ _ _ _ _ _ _ _ H) as (ws & Hws & Hdir & Hm).
    exists ws. split; [exact Hws|]. constructor; [apply Hrel; exact Hdir|].
    apply Forall_map. eapply Forall_impl; [exact Hm|]. intros m. apply Hrel.
  - intros path user_id w w' I H.
    destruct (get_file_info_tool_Report_inv _ _ _ _ _ H) as (ws & Hws & Hp).
    exists ws. split; [exact Hws|]. apply Hrel. exact Hp.
  - intros user_id w w' W H.
    destruct (get_workspace_info_Report_inv _ _ _ _ H) as (ws & Hws & Hp).
    exists ws. split; [exact Hws|]. split; [exact Hp|].
    rewrite Hp. apply abspath_isabs. apply cwd_isabs.
Qed.

Lemma reported_paths_relative_witness :
  exists ws, workspace_used (Some "u1") srv_files ws
             /\ Forall (fun r => relative_to srv_files ws r /\ isabs r = false)
                  (listing_path first_two :: map entry_path (listing_items first_two)).
Proof.
  apply (proj1 reported_paths_relative "." false 2 (Some "u1") srv_files
           (snd (list_directory "." false 2 (Some "u1") srv_files)) first_two).
  apply run_Ret. vm_compute. reflexivity.
Defined.

End Reporting.

(** ** Which strings name a workspace *)

Module IdentifierFacts.
Import PyStr PosixPath PyUuid Os FilesystemServer PathFacts OsFacts ResolverFacts.

(** A character that no spelling of a UUID can contain: not a hexadecimal
    digit, not white space, and none of the signs that [uuid.UUID] and
    [int] skip. *)
Definition foreign (c : ascii) : bool :=
  negb (mem_char c C_SPACE) && negb (mem_char c "urn:uuid:{}-+_xX")
  && match hex_value c with None => true | Some _ => false end.

Lemma mem_char_ne a c chars :
  mem_char a chars = true -> mem_char c chars = false -> eqb_ascii a c = false.
Proof.
  intros Ha Hc. destruct (eqb_ascii a c) eqn:E; [|reflexivity].
  apply eqb_ascii_true in E. subst. congruence.
Qed.

Lemma mem_char_drop_prefix c old s :
  startswith old s = true -> mem_char c old = false ->
  mem_char c (drop (String.length old) s) = mem_char c s.
Proof.
  revert s. induction old as [|a old IH]; intros s Hs Hc; [reflexivity|].
  destruct s as [|b s]; [discriminate|]. cbn [startswith] in Hs.
  apply andb_true_iff in Hs as [Hab Hs]. apply eqb_ascii_true in Hab. subst b.
  cbn [mem_char] in Hc. apply orb_false_iff in Hc as [Hac Hc].
  cbn [String.length drop mem_char]. rewrite Hac. simpl. apply IH; assumption.
Qed.

Lemma mem_char_remove_all_fuel c old fuel s :
  mem_char c old = false -> mem_char c s = true ->
  mem_char c (remove_all_fuel fuel old s) = true.
Proof.
  intros Hc. revert s. induction fuel as [|fuel IH]; intros s Hs; [exact Hs|].
  destruct s as [|a s]; [discriminate|]. cbn [remove_all_fuel].
  destruct (startswith old (String a s)) eqn:E.
  - apply IH. rewrite mem_char_drop_prefix; assumption.
  - cbn [mem_char] in *. apply orb_true_iff in Hs as [Hs|Hs].
    + rewrite Hs. reflexivity.
    + rewrite (IH _ Hs). apply orb_true_r.
Qed.

Lemma mem_char_remove_all c old s :
  mem_char c old = false -> mem_char c s = true -> mem_char c (remove_all old s) = true.
Proof.
  intros Hc Hs. unfold remove_all. destruct old; [exact Hs|].
  apply mem_char_remove_all_fuel; assumption.
Qed.

Lemma mem_char_lstrip_set c chars s :
  mem_char c chars = false -> mem_char c (lstrip_set chars s) = mem_char c s.
Proof.
  intros Hc. induction s as [|a s IH]; [reflexivity|]. cbn [lstrip_set].
  destruct (mem_char a chars) eqn:E; [|reflexivity].
  rewrite IH. cbn [mem_char]. rewrite (mem_char_ne a c chars E Hc). reflexivity.
Qed.

Lemma mem_char_rstrip_set c chars s :
  mem_char c chars = false -> mem_char c (rstrip_set chars s) = mem_char c s.
Proof.
  intros Hc. induction s as [|a s IH]; [reflexivity|]. cbn [rstrip_set].
  destruct (rstrip_set chars s) as [|b r] eqn:E.
  - cbn [mem_char] in *. rewrite <- IH. destruct (mem_char a chars) eqn:Ea.
    + rewrite (mem_char_ne a c chars Ea Hc). reflexivity.
    + cbn [mem_char]. reflexivity.
  - cbn [mem_char] in *. rewrite <- IH. reflexivity.
Qed.

Lemma scan_digits_foreign c s prev acc :
  eqb_ascii c "_" = false -> hex_value c = None -> mem_char c s = true ->
  scan_digits prev acc s = None.
Proof.
  intros Hu Hh. revert prev acc. induction s as [|a s IH]; intros prev acc Hs; [discriminate|].
  cbn [mem_char] in Hs. cbn [scan_digits].
  destruct (eqb_ascii a c) eqn:Eac.
  - apply eqb_ascii_true in Eac. subst a. rewrite Hu, Hh. reflexivity.
  - simpl in Hs. destruct (eqb_ascii a "_").
    + destruct prev; [reflexivity|]. apply IH. exact Hs.
    + destruct (hex_value a); [|reflexivity]. apply IH. exact Hs.
Qed.

(** The sign and the prefix that [int(s, 16)] skips, by tests on the
    leading characters. *)
Definition skip_sign (s : string) : Z * string :=
  match s with
  | String a r =>
      if eqb_ascii a "+" then (1%Z, r) else if eqb_ascii a "-" then ((-1)%Z, r) else (1%Z, s)
  | EmptyString => (1%Z, s)
  end.

Definition skip_prefix (s : string) : string :=
  match s with
  | String a (String x r) =>
      if eqb_ascii a "0" && (eqb_ascii x "x" || eqb_ascii x "X") then
        match r with
        | String u r' => if eqb_ascii u "_" then r' else r
        | EmptyString => r
        end
      else s
  | _ => s
  end.

Definition leading_underscore (s : string) : bool :=
  match s with
  | String a _ => eqb_ascii a "_"
  | EmptyString => false
  end.

Lemma int16_unfold s :
  int16 s =
  let '(sign, s1) := skip_sign (strip_set C_SPACE s) in
  let s2 := skip_prefix s1 in
  match s2 with
  | EmptyString => None
  | _ => if leading_underscore s2 then None
         else option_map (Z.mul sign) (scan_digits false 0 s2)
  end.
Proof.
  unfold int16. generalize (strip_set C_SPACE s). clear s. intros s.
  assert (forall t : string,
    match t with
    | String "0" (String x r) =>
        if eqb_ascii x "x" || eqb_ascii x "X" then
          match r with String "_" r' => r' | _ => r end
        else t
    | _ => t
    end = skip_prefix t) as Hp.
  { intros [|a [|x r]]; [reflexivity| |].
    - destruct a as [[] [] [] [] [] [] [] []]; reflexivity.
    - destruct a as [[] [] [] [] [] [] [] []]; try reflexivity.
      unfold skip_prefix. cbn [eqb_ascii Ascii.eqb Bool.eqb andb].
      change (Ascii.eqb x "x") with (eqb_ascii x "x").
      change (Ascii.eqb x "X") with (eqb_ascii x "X").
      destruct (eqb_ascii x "x" || eqb_ascii x "X"); [|reflexivity].
      destruct r as [|u r']; [reflexivity|].
      destruct u as [[] [] [] [] [] [] [] []]; reflexivity. }
  assert (forall (sign : Z) (t : string),
    match t with
    | EmptyString => None
    | String "_" _ => None
    | _ => option_map (Z.mul sign) (scan_digits false 0 t)
    end =
    match t with
    | EmptyString => None
    | _ => if leading_underscore t then None
           else option_map (Z.mul sign) (scan_digits false 0 t)
    end) as Hu.
  { intros sign [|a t]; [reflexivity|].
    destruct a as [[] [] [] [] [] [] [] []]; reflexivity. }
  assert (forall t : string,
    match t with
    | String "+" r => (1%Z, r)
    | String "-" r => ((-1)%Z, r)
    | _ => (1%Z, t)
    end = skip_sign t) as Hs.
  { intros [|a r]; [reflexivity|].
    destruct a as [[] [] [] [] [] [] [] []]; reflexivity. }
  rewrite Hs. destruct (skip_sign s) as [sign s1]. cbv zeta. rewrite Hp. apply Hu.
Qed.

Lemma int16_foreign c s : foreign c = true -> mem_char c s = true -> int16 s = None.
Proof.
  unfold foreign. intros Hf Hs.
  apply andb_true_iff in Hf as [Hf Hh]. apply andb_true_iff in Hf as [Hsp Hm].
  apply negb_true_iff in Hsp, Hm.
  destruct (hex_value c) eqn:Ehex; [discriminate|]. clear Hh.
  assert (forall a, mem_char a "urn:uuid:{}-+_xX0" = true -> eqb_ascii a c = false) as Hne.
  { intros a Ha. destruct (eqb_ascii a c) eqn:E; [|reflexivity].
    apply eqb_ascii_true in E. subst a. cbn [mem_char] in Ha, Hm.
    rewrite !orb_false_r in Ha. rewrite !orb_false_r in Hm.
    repeat (apply orb_false_iff in Hm as [? Hm]).
    repeat match goal with H : eqb_ascii _ c = false |- _ => rewrite H in Ha end.
    cbn [orb] in Ha. apply eqb_ascii_true in Ha. subst c.
    discriminate. }
  rewrite int16_unfold.
  assert (mem_char c (strip_set C_SPACE s) = true) as H1.
  { unfold strip_set. rewrite mem_char_rstrip_set, mem_char_lstrip_set; assumption. }
  generalize dependent (strip_set C_SPACE s). clear s Hs. intros s H1.
  destruct (skip_sign s) as [sign s1] eqn:Es.
  assert (mem_char c s1 = true) as H2.
  { unfold skip_sign in Es. destruct s as [|a r]; [discriminate|].
    destruct (eqb_ascii a "+") eqn:E1.
    - injection Es as _ <-. cbn [mem_char] in H1. rewrite Hne in H1; [exact H1|].
      apply eqb_ascii_true in E1. subst a. reflexivity.
    - destruct (eqb_ascii a "-") eqn:E2.
      + injection Es as _ <-. cbn [mem_char] in H1. rewrite Hne in H1; [exact H1|].
        apply eqb_ascii_true in E2. subst a. reflexivity.
      + injection Es as _ <-. exact H1. }
  assert (mem_char c (skip_prefix s1) = true) as H3.
  { clear Es. unfold skip_prefix. destruct s1 as [|a [|x r]]; try exact H2.
    destruct (eqb_ascii a "0" && (eqb_ascii x "x" || eqb_ascii x "X")) eqn:E; [|exact H2].
    apply andb_true_iff in E as [Ea Ex]. apply eqb_ascii_true in Ea. subst a.
    cbn [mem_char] in H2. rewrite (Hne "0"%char) in H2 by reflexivity.
    assert (eqb_ascii x c = false) as Hx.
    { apply orb_true_iff in Ex as [Ex|Ex]; apply eqb_ascii_true in Ex; subst x;
        apply Hne; reflexivity. }
    rewrite Hx in H2. simpl in H2.
    destruct r as [|u r']; [exact H2|].
    destruct (eqb_ascii u "_") eqn:Eu; [|exact H2].
    apply eqb_ascii_true in Eu. subst u. cbn [mem_char] in H2.
    rewrite (Hne "_"%char) in H2 by reflexivity. exact H2. }
  cbv zeta. destruct (skip_prefix s1) as [|a r] eqn:E3; [reflexivity|].
  destruct (leading_underscore (String a r)); [reflexivity|].
  rewrite (scan_digits_foreign c (String a r) false 0); [reflexivity | | exact Ehex | exact H3].
  rewrite eqb_ascii_sym. apply Hne. reflexivity.
Qed.

(** A string with a foreign character is no UUID. *)
Lemma UUID_foreign c s : foreign c = true -> mem_char c s = true -> UUID s = None.
Proof.
  intros Hf Hs. unfold UUID.
  assert (mem_char c "urn:uuid:{}-+_xX" = false) as Hm.
  { unfold foreign in Hf. apply andb_true_iff in Hf as [Hf _].
    apply andb_true_iff in Hf as [_ Hf]. apply negb_true_iff in Hf. exact Hf. }
  assert (forall old, (forall a, mem_char a old = true -> mem_char a "urn:uuid:{}-+_xX" = true) ->
                      mem_char c old = false) as Hsub.
  { intros old Hold. destruct (mem_char c old) eqn:E; [|reflexivity].
    rewrite (Hold c E) in Hm. discriminate. }
  assert (mem_char c "urn:" = false) as H1.
  { cbn [mem_char] in *. rewrite !orb_false_r in *.
    repeat (apply orb_false_iff in Hm as [? Hm]).
    repeat match goal with H : eqb_ascii _ c = false |- _ => rewrite H end. reflexivity. }
  assert (mem_char c "uuid:" = false) as H2.
  { cbn [mem_char] in *. rewrite !orb_false_r in *.
    repeat (apply orb_false_iff in Hm as [? Hm]).
    repeat match goal with H : eqb_ascii _ c = false |- _ => rewrite H end. reflexivity. }
  assert (mem_char c "{}" = false) as H3.
  { cbn [mem_char] in *. rewrite !orb_false_r in *.
    repeat (apply orb_false_iff in Hm as [? Hm]).
    repeat match goal with H : eqb_ascii _ c = false |- _ => rewrite H end. reflexivity. }
  assert (mem_char c "-" = false) as H4.
  { cbn [mem_char] in *. rewrite !orb_false_r in *.
    repeat (apply orb_false_iff in Hm as [? Hm]).
    repeat match goal with H : eqb_ascii _ c = false |- _ => rewrite H end. reflexivity. }
  clear Hsub.
  set (hex := remove_all "-" (strip_set "{}" (remove_all "uuid:" (remove_all "urn:" s)))).
  assert (mem_char c hex = true) as Hhex.
  { unfold hex. apply mem_char_remove_all; [exact H4|].
    unfold strip_set. rewrite mem_char_rstrip_set, mem_char_lstrip_set by exact H3.
    apply mem_char_remove_all; [exact H2|]. apply mem_char_remove_all; [exact H1 | exact Hs]. }
  destruct (negb (Nat.eqb (String.length hex) 32)); [reflexivity|].
  rewrite (int16_foreign c hex Hf Hhex). reflexivity.
Qed.

(** *** The spelling of a derived identifier *)

Fixpoint all_chars (P : ascii -> bool) (s : string) : bool :=
  match s with
  | EmptyString => true
  | String a r => P a && all_chars P r
  end.

(** The characters of [str(uuid)]. *)
Definition uuid_char (a : ascii) : bool := mem_char a "0123456789abcdef-".

Lemma all_chars_app P s t : all_chars P (s +:+ t) = all_chars P s && all_chars P t.
Proof. induction s as [|a s IH]; simpl; [reflexivity|]. rewrite IH. apply andb_assoc. Qed.

Lemma all_chars_substring P n m s :
  all_chars P s = true -> all_chars P (substring n m s) = true.
Proof.
  revert n m. induction s as [|a s IH]; intros n m H.
  - destruct n, m; reflexivity.
  - cbn [all_chars] in H. apply andb_true_iff in H as [Ha Hs].
    destruct n as [|n]; cbn [substring].
    + destruct m as [|m]; [reflexivity|]. cbn [all_chars]. rewrite Ha. apply IH. exact Hs.
    + apply IH. exact Hs.
Qed.

Lemma all_chars_mem P c s : all_chars P s = true -> mem_char c s = true -> P c = true.
Proof.
  induction s as [|a s IH]; [discriminate|]. cbn [all_chars mem_char].
  intros H Hm. apply andb_true_iff in H as [Ha Hs].
  apply orb_true_iff in Hm as [E|Hm]; [|auto].
  apply eqb_ascii_true in E. subst. exact Ha.
Qed.

Lemma hex_digit_uuid_char i : uuid_char (hex_digit (Z.land i 15)) = true.
Proof.
  change 15%Z with (Z.ones 4). rewrite Z.land_ones by lia.
  pose proof (Z.mod_pos_bound i (2 ^ 4) ltac:(lia)) as Hb.
  set (d := (i mod 2 ^ 4)%Z) in *. change (2 ^ 4)%Z with 16%Z in Hb.
  assert (d = 0 \/ d = 1 \/ d = 2 \/ d = 3 \/ d = 4 \/ d = 5 \/ d = 6 \/ d = 7 \/ d = 8
          \/ d = 9 \/ d = 10 \/ d = 11 \/ d = 12 \/ d = 13 \/ d = 14 \/ d = 15)%Z as Hd by lia.
  clearbody d. repeat (destruct Hd as [-> | Hd]; [reflexivity|]). subst d. reflexivity.
Qed.

Lemma all_chars_hex_fixed n i acc :
  all_chars uuid_char acc = true -> all_chars uuid_char (hex_fixed n i acc) = true.
Proof.
  revert i acc. induction n as [|n IH]; intros i acc H; [exact H|].
  cbn [hex_fixed]. apply IH. cbn [all_chars]. rewrite hex_digit_uuid_char. exact H.
Qed.

Lemma str_of_uuid_chars i : all_chars uuid_char (str_of_uuid i) = true.
Proof.
  unfold str_of_uuid. cbv zeta.
  assert (all_chars uuid_char (hex_fixed 32 i "") = true) as H
    by (apply all_chars_hex_fixed; reflexivity).
  rewrite !all_chars_app. rewrite !all_chars_substring by exact H. reflexivity.
Qed.

Lemma string_length_app s t : String.length (s +:+ t) = String.length s + String.length t.
Proof. induction s as [|a s IH]; simpl; [reflexivity|]. rewrite IH. reflexivity. Qed.

Lemma length_hex_fixed n i acc :
  String.length (hex_fixed n i acc) = n + String.length acc.
Proof.
  revert i acc. induction n as [|n IH]; intros i acc; [reflexivity|].
  cbn [hex_fixed]. rewrite IH. simpl. lia.
Qed.

Lemma length_substring n m s :
  n + m <= String.length s -> String.length (substring n m s) = m.
Proof.
  revert n m. induction s as [|a s IH]; intros n m H.
  - simpl in H. assert (n = 0 /\ m = 0) as [-> ->] by lia. reflexivity.
  - destruct n as [|n]; cbn [substring].
    + destruct m as [|m]; [reflexivity|]. simpl. f_equal. apply IH. simpl in H. lia.
    + apply IH. simpl in H. lia.
Qed.

Lemma length_str_of_uuid i : String.length (str_of_uuid i) = 36.
Proof.
  unfold str_of_uuid. cbv zeta. rewrite !string_length_app.
  rewrite !length_substring by (rewrite length_hex_fixed; simpl; lia). reflexivity.
Qed.

(** *** The directory name of a workspace *)

(** The name chosen for a supplied identifier is a single path segment:
    not empty, without separator and without dot. *)
Lemma canonical_id_segment u :
  canonical_id u <> "" /\ mem_char sep (canonical_id u) = false
  /\ mem_char extsep (canonical_id u) = false.
Proof.
  unfold canonical_id. destruct (UUID u) as [i|] eqn:E.
  - repeat split.
    + intros ->. discriminate.
    + destruct (mem_char sep u) eqn:Es; [|reflexivity].
      rewrite (UUID_foreign sep u) in E by (reflexivity || exact Es). discriminate.
    + destruct (mem_char extsep u) eqn:Es; [|reflexivity].
      rewrite (UUID_foreign extsep u) in E by (reflexivity || exact Es). discriminate.
  - pose proof (str_of_uuid_chars (uuid5 NAMESPACE_DNS u)) as Hc.
    pose proof (length_str_of_uuid (uuid5 NAMESPACE_DNS u)) as Hl.
    repeat split.
    + intros H. rewrite H in Hl. discriminate.
    + destruct (mem_char sep _) eqn:Es; [|reflexivity].
      pose proof (all_chars_mem _ _ _ Hc Es). discriminate.
    + destruct (mem_char extsep _) eqn:Es; [|reflexivity].
      pose proof (all_chars_mem _ _ _ Hc Es). discriminate.
Qed.

Lemma segment_norm_comp x :
  x <> "" -> mem_char sep x = false -> mem_char extsep x = false -> norm_comp x.
Proof.
  intros H1 H2 H3. repeat split; try assumption; intros ->; discriminate.
Qed.

Lemma canonical_id_norm_comp u : norm_comp (canonical_id u).
Proof.
  destruct (canonical_id_segment u) as (H1 & H2 & H3). apply segment_norm_comp; assumption.
Qed.

(** *** The absolute path of a workspace *)

(** The leading slashes and the components that [normpath] computes. *)
Definition norm_parts (p : string) : nat * list string :=
  (initial_slashes_of p,
   rev (fold_left (normpath_step (initial_slashes_of p)) (split sep p) [])).

Lemma app_assoc_s (a b c : string) : (a +:+ b) +:+ c = a +:+ (b +:+ c).
Proof. apply Reading.append_assoc. Qed.

Lemma normpath_parts p :
  isabs p = true ->
  normpath p = repeat_sep (fst (norm_parts p)) +:+ PyStr.join "/" (snd (norm_parts p)).
Proof.
  intros H. unfold normpath, norm_parts. cbn [fst snd].
  destruct (String.eqb p "") eqn:E.
  { apply String.eqb_eq in E. subst. discriminate. }
  cbv zeta.
  destruct (initial_slashes_abs p H) as [-> | ->]; reflexivity.
Qed.

Lemma split_snoc Y n :
  mem_char sep n = false -> split sep (Y +:+ String sep n) = split sep Y ++ [n].
Proof.
  intros Hn. induction Y as [|a Y IH].
  - change ("" +:+ String sep n) with (String sep n). cbn [split]. rewrite eqb_ascii_refl.
    rewrite (split_no_sep_id sep n Hn). reflexivity.
  - change (String a Y +:+ String sep n) with (String a (Y +:+ String sep n)).
    cbn [split]. rewrite IH. destruct (eqb_ascii a sep); [reflexivity|].
    destruct (split sep Y) as [|x xs] eqn:E; [|reflexivity].
    exfalso. exact (split_not_nil sep Y E).
Qed.

Lemma initial_slashes_snoc Y t :
  isabs Y = true -> endswith_char sep Y = false ->
  initial_slashes_of (Y +:+ t) = initial_slashes_of Y.
Proof.
  intros Ha He. destruct Y as [|a [|b [|c Y]]]; try discriminate.
  - unfold isabs in Ha. cbn [startswith] in Ha. rewrite andb_true_r in Ha.
    apply eqb_ascii_true in Ha. subst a. cbn [endswith_char] in He. discriminate.
  - unfold isabs in Ha. cbn [startswith] in Ha. rewrite andb_true_r in Ha.
    apply eqb_ascii_true in Ha. subst a. cbn [endswith_char] in He.
    unfold initial_slashes_of.
    change (String "/" (String b "") +:+ t) with (String "/" (String b t)).
    cbn [startswith]. rewrite eqb_ascii_refl. cbn [andb].
    rewrite (eqb_ascii_sym "/" b). change "/"%char with sep. rewrite He. reflexivity.
  - reflexivity.
Qed.

Lemma endswith_char_app c s a t :
  endswith_char c (s +:+ String a t) = endswith_char c (String a t).
Proof.
  induction s as [|x s IH]; [reflexivity|].
  change (String x s +:+ String a t) with (String x (s +:+ String a t)).
  cbn [endswith_char]. destruct (s +:+ String a t) eqn:E; [|exact IH].
  destruct s; discriminate.
Qed.

Lemma norm_parts_snoc Y n :
  isabs Y = true -> endswith_char sep Y = false -> norm_comp n ->
  norm_parts (Y +:+ String sep n) = (fst (norm_parts Y), snd (norm_parts Y) ++ [n]).
Proof.
  intros Ha He Hn. unfold norm_parts. cbn [fst snd].
  rewrite initial_slashes_snoc by assumption.
  rewrite split_snoc by (destruct Hn as (_ & _ & _ & H); exact H).
  rewrite fold_left_app. cbn [fold_left]. rewrite normpath_step_push by exact Hn.
  reflexivity.
Qed.

Lemma norm_parts_comps Y : isabs Y = true -> Forall norm_comp (snd (norm_parts Y)).
Proof.
  intros Ha. unfold norm_parts. cbn [snd]. apply Forall_rev_norm.
  apply fold_normpath_abs; [|constructor|apply split_no_sep].
  destruct (initial_slashes_abs Y Ha) as [-> | ->]; discriminate.
Qed.

Lemma join_snoc x xs n :
  PyStr.join "/" ((x :: xs) ++ [n]) = PyStr.join "/" (x :: xs) +:+ "/" +:+ n.
Proof.
  revert x. induction xs as [|y ys IH]; intros x; [reflexivity|].
  change ((x :: y :: ys) ++ [n]) with (x :: ((y :: ys) ++ [n])).
  change (PyStr.join "/" (x :: (y :: ys) ++ [n]))
    with (x +:+ "/" +:+ PyStr.join "/" ((y :: ys) ++ [n])).
  rewrite IH.
  change (PyStr.join "/" (x :: y :: ys)) with (x +:+ "/" +:+ PyStr.join "/" (y :: ys)).
  rewrite !app_assoc_s. reflexivity.
Qed.

Lemma split_repeat_sep k s :
  List.filter truthy (split sep (repeat_sep k +:+ s)) = List.filter truthy (split sep s).
Proof.
  induction k as [|k IH]; [reflexivity|].
  change (repeat_sep (S k) +:+ s) with (String sep (repeat_sep k +:+ s)).
  cbn [split]. rewrite eqb_ascii_refl. cbn [List.filter truthy]. exact IH.
Qed.

Lemma filter_truthy_norm comps : Forall norm_comp comps -> List.filter truthy comps = comps.
Proof.
  induction 1 as [|x l Hx _ IH]; [reflexivity|]. cbn [List.filter].
  destruct x as [|a x]; [destruct Hx as (Hx & _); congruence|].
  cbn [truthy]. rewrite IH. reflexivity.
Qed.

(** The components of a normalised absolute path. *)
Lemma components_shape k comps :
  Forall norm_comp comps -> components (repeat_sep k +:+ PyStr.join "/" comps) = comps.
Proof.
  intros H. unfold components. rewrite split_repeat_sep.
  destruct comps as [|x xs]; [reflexivity|].
  rewrite split_join; [apply filter_truthy_norm; exact H | discriminate |].
  eapply Forall_impl; [exact H|]. intros y (_ & _ & _ & Hy). exact Hy.
Qed.

(** Every workspace lies directly in one directory, the absolute form of
    [USER_WORKSPACE_BASE]: its absolute path is that directory, a slash
    and the name. *)
Lemma workspace_shape c :
  isabs c = true ->
  exists k comps,
    (k = 1 \/ k = 2) /\ Forall norm_comp comps /\ comps <> [] /\
    abspath c USER_WORKSPACE_BASE = repeat_sep k +:+ PyStr.join "/" comps /\
    forall n, norm_comp n ->
      abspath c (join USER_WORKSPACE_BASE n)
      = (repeat_sep k +:+ PyStr.join "/" comps) +:+ "/" +:+ n
      /\ components (abspath c (join USER_WORKSPACE_BASE n)) = comps ++ [n].
Proof.
  intros Hc.
  set (Y0 := if endswith_char sep c then c +:+ "." else c +:+ "/.").
  assert (isabs Y0 = true) as HY0.
  { unfold Y0, isabs in *. destruct (endswith_char sep c); apply startswith_app_r; exact Hc. }
  assert (endswith_char sep Y0 = false) as HE0.
  { unfold Y0. destruct (endswith_char sep c).
    - apply (endswith_char_app sep c "." "").
    - rewrite (endswith_char_app sep c "/" "."). reflexivity. }
  assert (forall t, join c ("./" +:+ t) = Y0 +:+ String sep t) as Hjoin.
  { intros t. unfold join, Y0. cbn [startswith eqb_ascii Ascii.eqb Bool.eqb andb].
    assert (truthy c = true) as Ht by (destruct c; [discriminate | reflexivity]).
    rewrite Ht. cbn [negb orb].
    destruct (endswith_char sep c); rewrite !app_assoc_s; reflexivity. }
  set (Y1 := Y0 +:+ String sep "user-workspaces").
  assert (norm_comp "user-workspaces") as Hbase
    by (repeat split; try discriminate; reflexivity).
  assert (isabs Y1 = true) as HY1 by (unfold Y1, isabs in *; apply startswith_app_r; exact HY0).
  assert (endswith_char sep Y1 = false) as HE1.
  { unfold Y1. rewrite endswith_char_app. reflexivity. }
  pose proof (norm_parts_snoc Y0 _ HY0 HE0 Hbase) as HP1. fold Y1 in HP1.
  pose proof (norm_parts_comps Y0 HY0) as HC0.
  destruct (norm_parts Y0) as [k comps0] eqn:E0. cbn [fst snd] in *.
  assert (k = 1 \/ k = 2) as Hk.
  { unfold norm_parts in E0. injection E0 as <- _. apply initial_slashes_abs. exact HY0. }
  assert (Forall norm_comp (comps0 ++ ["user-workspaces"])) as HC1.
  { apply Forall_app. split; [exact HC0 | constructor; [exact Hbase | constructor]]. }
  assert (abspath c USER_WORKSPACE_BASE
          = repeat_sep k +:+ PyStr.join "/" (comps0 ++ ["user-workspaces"])) as Habs.
  { unfold abspath. change (isabs USER_WORKSPACE_BASE) with false. cbv iota.
    change USER_WORKSPACE_BASE with ("./" +:+ "user-workspaces"). rewrite Hjoin. fold Y1.
    rewrite (normpath_parts Y1 HY1), HP1. reflexivity. }
  exists k, (comps0 ++ ["user-workspaces"]).
  split; [exact Hk|]. split; [exact HC1|]. split; [destruct comps0; discriminate|].
  split; [exact Habs|].
  intros n Hn.
  assert (abspath c (join USER_WORKSPACE_BASE n)
          = repeat_sep k +:+ PyStr.join "/" ((comps0 ++ ["user-workspaces"]) ++ [n])) as Hn1.
  { assert (join USER_WORKSPACE_BASE n = "./" +:+ ("user-workspaces" +:+ String sep n)) as Hj.
    { unfold join. destruct Hn as (_ & _ & _ & Hs).
      rewrite (no_sep_not_abs n Hs). reflexivity. }
    unfold abspath. rewrite Hj.
    change (isabs ("./" +:+ ("user-workspaces" +:+ String sep n))) with false. cbv iota.
    rewrite Hjoin.
    replace (Y0 +:+ String sep ("user-workspaces" +:+ String sep n))
      with (Y1 +:+ String sep n)
      by (unfold Y1; rewrite app_assoc_s; reflexivity).
    assert (isabs (Y1 +:+ String sep n) = true) as HY2
      by (unfold isabs in *; apply startswith_app_r; exact HY1).
    rewrite (normpath_parts _ HY2), (norm_parts_snoc Y1 n HY1 HE1 Hn), HP1. reflexivity. }
  split.
  - rewrite Hn1. destruct (comps0 ++ ["user-workspaces"]) as [|x xs] eqn:E;
      [destruct comps0; discriminate|].
    rewrite join_snoc. rewrite !app_assoc_s. reflexivity.
  - rewrite Hn1. apply components_shape. apply Forall_app.
    split; [exact HC1 | constructor; [exact Hn | constructor]].
Qed.

End IdentifierFacts.

(** ** Further properties of the resolver *)

Module Resolution.
Import PyStr PosixPath PyUuid Os FilesystemServer PathFacts OsFacts ResolverFacts Scenario.
Import Traversal Roundtrip IdentifierFacts.

Lemma ret_Ret_inv {A} (a b : A) w w1 : ret a w = (Ret b, w1) -> a = b /\ w1 = w.
Proof. unfold ret. intros [= -> ->]. auto. Qed.

Lemma lstrip_char_repeat_sep n p : lstrip_char sep (repeat_sep n +:+ p) = lstrip_char sep p.
Proof. induction n as [|n IH]; [reflexivity|]. exact IH. Qed.

Lemma relative_part_lstrip p : relative_part p = lstrip_char sep p.
Proof.
  unfold relative_part, isabs. destruct p as [|a p]; [reflexivity|].
  cbn [startswith lstrip_char]. rewrite andb_true_r.
  change "/"%char with sep. rewrite (eqb_ascii_sym sep a).
  destruct (eqb_ascii a sep); reflexivity.
Qed.

Lemma relative_part_repeat_sep n p : relative_part (repeat_sep n +:+ p) = relative_part p.
Proof. rewrite !relative_part_lstrip. apply lstrip_char_repeat_sep. Qed.

(** Whatever identifier is passed, the workspace is named by
    [canonical_id] of some string. *)
Lemma get_user_workspace_name user_id w ws w1 :
  get_user_workspace user_id w = (Ret ws, w1) -> exists id, ws = workspace_of id.
Proof.
  intros H. unfold get_user_workspace in H.
  apply bind_Ret_inv in H as (id & w0 & _ & H).
  exists id. cbv zeta in H.
  apply bind_Ret_inv in H as (x & w2 & _ & H).
  unfold ret in H. injection H as H _. symmetry. exact H.
Qed.

(** X1. Leading slashes of a requested path are ignored: an absolute
    request is read relative to the workspace, with the same result, the
    same error and the same effect as the request without them. *)
Theorem resolve_user_path_leading_slashes n path user_id w :
  resolve_user_path (repeat_sep n +:+ path) user_id w = resolve_user_path path user_id w.
Proof.
  rewrite !resolve_user_path_unfold. rewrite relative_part_repeat_sep. reflexivity.
Qed.

(** X2. Whatever identifier is passed, the workspace that
    [get_user_workspace] returns is a direct child of the base directory:
    its path is [USER_WORKSPACE_BASE], a slash and a name that is not
    empty and contains neither a slash nor a dot, and the same holds of
    its absolute path and of its place in the filesystem. *)
Theorem workspace_direct_child user_id w ws w1 :
  get_user_workspace user_id w = (Ret ws, w1) ->
  exists name,
    ws = USER_WORKSPACE_BASE +:+ "/" +:+ name
    /\ name <> "" /\ mem_char sep name = false /\ mem_char extsep name = false
    /\ abspath (cwd w1) ws = abspath (cwd w1) USER_WORKSPACE_BASE +:+ "/" +:+ name
    /\ key_of w1 ws = key_of w1 USER_WORKSPACE_BASE ++ [name].
Proof.
  intros H. destruct (get_user_workspace_name _ _ _ _ H) as (id & ->).
  exists (canonical_id id).
  destruct (canonical_id_segment id) as (H1 & H2 & H3).
  pose proof (canonical_id_norm_comp id) as Hn.
  destruct (workspace_shape (cwd w1) (cwd_isabs w1)) as (k & comps & Hk & Hc & Hne & Hb & Hs).
  destruct (Hs _ Hn) as (Ha & Hk1).
  split; [|split; [exact H1|split; [exact H2|split; [exact H3|split]]]].
  - unfold workspace_of, join. rewrite (no_sep_not_abs _ H2). reflexivity.
  - unfold workspace_of. rewrite Ha, Hb. reflexivity.
  - unfold key_of, workspace_of. rewrite Hk1, Hb. rewrite components_shape by exact Hc.
    reflexivity.
Qed.

Lemma workspace_direct_child_witness :
  exists name,
    workspace_of "u1" = USER_WORKSPACE_BASE +:+ "/" +:+ name
    /\ name <> "" /\ mem_char sep name = false /\ mem_char extsep name = false
    /\ abspath (cwd srv_u1) (workspace_of "u1")
       = abspath (cwd srv_u1) USER_WORKSPACE_BASE +:+ "/" +:+ name
    /\ key_of srv_u1 (workspace_of "u1") = key_of srv_u1 USER_WORKSPACE_BASE ++ [name].
Proof.
  apply (workspace_direct_child (Some "u1") srv (workspace_of "u1") srv_u1).
  apply run_Ret. vm_compute. reflexivity.
Defined.

(** Once obtained, the workspace of a supplied identifier is a
    directory. *)
Lemma workspace_exists u w ws w1 :
  truthy u = true ->
  get_user_workspace (Some u) w = (Ret ws, w1) ->
  fs w1 !! key_of w1 ws = Some IDir.
Proof.
  intros Hu H.
  destruct (get_user_workspace_Ret u w ws w1 Hu H) as (-> & m & Hm & ->).
  rewrite key_of_set_fs. cbn [fs set_fs].
  pose proof (makedirs_walk_ready _ _ _ _ Hm) as Hr.
  destruct (workspace_shape (cwd w) (cwd_isabs w)) as (k & comps & _ & _ & _ & _ & Hs).
  destruct (Hs _ (canonical_id_norm_comp u)) as (_ & Hk).
  fold (workspace_of u) in Hk. fold (key_of w (workspace_of u)) in Hk.
  specialize (Hr (length (key_of w (workspace_of u)))).
  rewrite firstn_all in Hr. apply Hr. rewrite Hk, length_app. simpl. lia.
Qed.

(** X3. For a supplied identifier [get_user_workspace] only adds
    directories on the way to the workspace, leaves the workspace as a
    directory, and is idempotent: a second call returns the same path and
    changes nothing. *)
Theorem get_user_workspace_idempotent u w ws w1 :
  truthy u = true ->
  get_user_workspace (Some u) w = (Ret ws, w1) ->
  only_workspace_created u w w1
  /\ fs w1 !! key_of w1 ws = Some IDir
  /\ get_user_workspace (Some u) w1 = (Ret ws, w1).
Proof.
  intros Hu H. split; [eapply get_user_workspace_effect; eassumption|].
  split; [|eapply get_user_workspace_again; eassumption].
  eapply workspace_exists; eassumption.
Qed.

Lemma get_user_workspace_idempotent_witness :
  only_workspace_created "u1" srv srv_u1
  /\ fs srv_u1 !! key_of srv_u1 (workspace_of "u1") = Some IDir
  /\ get_user_workspace (Some "u1") srv_u1 = (Ret (workspace_of "u1"), srv_u1).
Proof.
  apply (get_user_workspace_idempotent "u1" srv (workspace_of "u1") srv_u1 eq_refl).
  apply run_Ret. vm_compute. reflexivity.
Defined.

(** X4. For a supplied identifier, whatever [resolve_user_path] returns
    passes [is_safe_path] against the workspace of that user, is an
    absolute path in normal form, and resolving it again changes nothing:
    the access check that every tool makes after resolving never fails. *)
Theorem resolved_path_is_safe u path w p w1 :
  truthy u = true ->
  resolve_user_path path (Some u) w = (Ret p, w1) ->
  is_safe_path p (workspace_of u) w1 = (Ret true, w1)
  /\ isabs p = true
  /\ abspath (cwd w1) p = p
  /\ resolve_user_path path (Some u) w1 = (Ret p, w1).
Proof.
  intros Hu H. destruct (tool_prelude u path w p w1 Hu H) as (Hg & Hr & Hs).
  destruct (resolve_user_path_Ret u path w p w1 Hu H) as (_ & Hp & _).
  pose proof (get_user_workspace_cwd _ _ _ _ Hg) as Hc.
  split; [exact Hs|]. split; [|split; [|exact Hr]].
  - rewrite Hp. apply abspath_isabs. apply cwd_isabs.
  - rewrite Hp, Hc. apply abspath_idem. apply cwd_isabs.
Qed.

Lemma resolved_path_is_safe_witness :
  is_safe_path "/srv/user-workspaces/db6cd388-0abf-538a-8503-dd3358d93458/docs/a.txt"
    (workspace_of "u1") srv_u1 = (Ret true, srv_u1)
  /\ isabs "/srv/user-workspaces/db6cd388-0abf-538a-8503-dd3358d93458/docs/a.txt" = true
  /\ abspath (cwd srv_u1)
       "/srv/user-workspaces/db6cd388-0abf-538a-8503-dd3358d93458/docs/a.txt"
     = "/srv/user-workspaces/db6cd388-0abf-538a-8503-dd3358d93458/docs/a.txt"
  /\ resolve_user_path "/docs/./a.txt" (Some "u1") srv_u1
     = (Ret "/srv/user-workspaces/db6cd388-0abf-538a-8503-dd3358d93458/docs/a.txt", srv_u1).
Proof.
  apply (resolved_path_is_safe "u1" "/docs/./a.txt" srv _ srv_u1 eq_refl).
  apply run_Ret. vm_compute. reflexivity.
Defined.

End Resolution.

(** ** The tools that only read *)

Module ReadOnly.
Import PyStr PosixPath PyUuid Os FilesystemServer PathFacts OsFacts ResolverFacts Scenario.
Import ToolFacts.
Local Open Scope os_scope.
Local Open Scope Z_scope.

(** A computation that hands back the state it was given. *)
Definition keeps_state {A} (m : M A) : Prop :=
  forall w r w1, m w = (r, w1) -> w1 = w.

Lemma keeps_state_ret {A} (a : A) : keeps_state (ret a).
Proof. intros w r w1 H. unfold ret in H. congruence. Qed.

Lemma keeps_state_raise {A} e : keeps_state (@raise A e).
Proof. intros w r w1 H. unfold raise in H. congruence. Qed.

Lemma keeps_state_bind {A B} (m : M A) (k : A -> M B) :
  keeps_state m -> (forall a, keeps_state (k a)) -> keeps_state (bind m k).
Proof.
  intros Hm Hk w r w1 H. unfold bind in H.
  destruct (m w) as [[a|e] w0] eqn:E.
  - rewrite (Hk a w0 r w1 H). exact (Hm _ _ _ E).
  - injection H as _ <-. exact (Hm _ _ _ E).
Qed.

Lemma keeps_state_try_except {A} (m : M A) h : keeps_state m -> keeps_state (try_except m h).
Proof.
  intros Hm w r w1 H. unfold try_except in H.
  destruct (m w) as [[a|e] w0] eqn:E; injection H as _ <-; exact (Hm _ _ _ E).
Qed.

Lemma keeps_state_getcwd : keeps_state getcwd.
Proof. intros w r w1 H. unfold getcwd in H. congruence. Qed.

Lemma keeps_state_path_exists p : keeps_state (path_exists p).
Proof. intros w r w1 H. unfold path_exists in H. congruence. Qed.

Lemma keeps_state_isfile p : keeps_state (isfile p).
Proof. intros w r w1 H. unfold isfile in H. congruence. Qed.

Lemma keeps_state_isdir p : keeps_state (isdir p).
Proof. intros w r w1 H. unfold isdir in H. congruence. Qed.

Lemma keeps_state_getsize p : keeps_state (getsize p).
Proof.
  intros w r w1 H. unfold getsize in H. destruct (fs w !! key_of w p); congruence.
Qed.

Lemma keeps_state_listdir p : keeps_state (listdir p).
Proof.
  intros w r w1 H. unfold listdir in H.
  destruct (fs w !! key_of w p) as [[?|]|]; congruence.
Qed.

Lemma keeps_state_read_text_lines p encoding n :
  keeps_state (read_text_lines p encoding n).
Proof.
  intros w r w1 H. unfold read_text_lines in H.
  destruct (fs w !! key_of w p) as [[data|]|];
    [destruct (lines_read encoding data n)| |]; congruence.
Qed.

Lemma keeps_state_walk top : keeps_state (walk top).
Proof. intros w r w1 H. unfold walk in H. congruence. Qed.

Lemma keeps_state_is_safe_path p ws : keeps_state (is_safe_path p ws).
Proof.
  unfold is_safe_path. apply keeps_state_bind; [apply keeps_state_getcwd|].
  intros c. apply keeps_state_ret.
Qed.

Lemma keeps_state_get_file_info p : keeps_state (get_file_info p).
Proof. intros w r w1. apply Roundtrip.get_file_info_state. Qed.

Lemma keeps_state_relpath_m p start : keeps_state (relpath_m p start).
Proof. intros w r w1. apply Roundtrip.relpath_m_state. Qed.

Create HintDb keeps.

#[local] Hint Resolve keeps_state_ret keeps_state_raise keeps_state_getcwd
  keeps_state_path_exists keeps_state_isfile keeps_state_isdir keeps_state_getsize
  keeps_state_listdir keeps_state_read_text_lines keeps_state_walk
  keeps_state_is_safe_path keeps_state_get_file_info keeps_state_relpath_m : keeps.

Ltac keeps_step :=
  match goal with
  | |- keeps_state (bind _ _) => apply keeps_state_bind; [|intros ?]
  | |- keeps_state (try_except _ _) => apply keeps_state_try_except
  | |- keeps_state (if ?b then _ else _) => destruct b
  | |- keeps_state (match ?x with inl _ => _ | inr _ => _ end) => destruct x
  | |- keeps_state (match ?x with Some _ => _ | None => _ end) => destruct x
  | |- keeps_state (match ?x with [] => _ | _ :: _ => _ end) => destruct x
  | |- keeps_state (let '(_, _) := ?x in _) => destruct x
  | |- keeps_state _ => solve [auto with keeps]
  end.

Lemma keeps_state_list_directory_loop rp ws show_hidden max_items names :
  forall items count,
    keeps_state (list_directory_loop rp ws show_hidden max_items names items count).
Proof.
  induction names as [|item rest IH]; intros items count; cbn [list_directory_loop].
  - apply keeps_state_ret.
  - repeat keeps_step; apply IH.
Qed.

Lemma keeps_state_search_items fnmatch root ws pattern max_results items :
  forall matches count,
    keeps_state (search_items fnmatch root ws pattern max_results items matches count).
Proof.
  induction items as [|item rest IH]; intros matches count; cbn [search_items].
  - apply keeps_state_ret.
  - repeat keeps_step; apply IH.
Qed.

Lemma keeps_state_search_walk fnmatch ws pattern file_only max_results triples :
  forall matches count,
    keeps_state (search_walk fnmatch ws pattern file_only max_results triples matches count).
Proof.
  induction triples as [|[[root dirs] files] rest IH]; intros matches count;
    cbn [search_walk].
  - apply keeps_state_ret.
  - repeat keeps_step; try apply IH. apply keeps_state_search_items.
Qed.

Lemma keeps_state_sum_sizes root files : forall total, keeps_state (sum_sizes root files total).
Proof.
  induction files as [|file rest IH]; intros total; cbn [sum_sizes].
  - apply keeps_state_ret.
  - repeat keeps_step; apply IH.
Qed.

Lemma keeps_state_workspace_stats triples :
  forall f d s, keeps_state (workspace_stats triples f d s).
Proof.
  induction triples as [|[[root dirs] files] rest IH]; intros f d s; cbn [workspace_stats].
  - apply keeps_state_ret.
  - apply keeps_state_bind; [apply keeps_state_sum_sizes | intros ?; apply IH].
Qed.

(** For a supplied identifier, resolving right after the workspace was
    obtained leaves the state alone, whether it succeeds or not. *)
Lemma resolve_after_workspace u path w ws w1 r w2 :
  truthy u = true -> get_user_workspace (Some u) w = (Ret ws, w1) ->
  resolve_user_path path (Some u) w1 = (r, w2) -> w2 = w1.
Proof.
  intros Hu Hg. rewrite resolve_user_path_unfold.
  rewrite (get_user_workspace_again u w ws w1 Hu Hg). cbv zeta.
  destruct (negb _); intros [= _ <-]; reflexivity.
Qed.

(** The shape shared by the tools: obtain the workspace, resolve, and go
    on with something that keeps the state. *)
Lemma tool_keeps_state {A} u path (k : string -> string -> M A) h w :
  truthy u = true -> (forall ws p, keeps_state (k ws p)) ->
  snd (try_except
         (bind (get_user_workspace (Some u))
            (fun ws => bind (resolve_user_path path (Some u)) (fun p => k ws p))) h w)
  = snd (get_user_workspace (Some u) w).
Proof.
  intros Hu Hk. unfold try_except, bind at 1.
  destruct (get_user_workspace (Some u) w) as [[ws|e] w1] eqn:Hg; [|reflexivity].
  unfold bind at 1.
  destruct (resolve_user_path path (Some u) w1) as [[p|e] w2] eqn:Hr;
    pose proof (resolve_after_workspace _ _ _ _ _ _ _ Hu Hg Hr) as ->; [|reflexivity].
  destruct (k ws p w1) as [[a|e] w3] eqn:Hk1; rewrite (Hk ws p _ _ _ Hk1); reflexivity.
Qed.

(** X5. For a supplied identifier, [list_directory], [read_file],
    [search_files], [get_file_info_tool] and [get_workspace_info] leave
    the state exactly as obtaining the workspace leaves it, whatever they
    answer: they create, change and delete nothing else. *)
Theorem reading_tools_change_nothing u w :
  truthy u = true ->
  (forall path show_hidden max_items,
      snd (list_directory path show_hidden max_items (Some u) w)
      = snd (get_user_workspace (Some u) w))
  /\ (forall path encoding max_lines,
         snd (read_file path encoding max_lines (Some u) w)
         = snd (get_user_workspace (Some u) w))
  /\ (forall fnmatch directory pattern file_only max_results,
         snd (search_files fnmatch directory pattern file_only max_results (Some u) w)
         = snd (get_user_workspace (Some u) w))
  /\ (forall path,
         snd (get_file_info_tool path (Some u) w) = snd (get_user_workspace (Some u) w))
  /\ snd (get_workspace_info (Some u) w) = snd (get_user_workspace (Some u) w).
Proof.
  intros Hu. repeat split; intros.
  - unfold list_directory. apply tool_keeps_state; [exact Hu|]. intros ws p.
    repeat keeps_step. apply keeps_state_list_directory_loop.
  - unfold read_file. apply tool_keeps_state; [exact Hu|]. intros ws p.
    repeat keeps_step.
  - unfold search_files. apply tool_keeps_state; [exact Hu|]. intros ws p.
    repeat keeps_step. apply keeps_state_search_walk.
  - unfold get_file_info_tool. apply tool_keeps_state; [exact Hu|]. intros ws p.
    repeat keeps_step.
  - unfold get_workspace_info, try_except, bind at 1.
    destruct (get_user_workspace (Some u) w) as [[ws|e] w1] eqn:Hg; [|reflexivity].
    match goal with
    | |- snd (match ?m w1 with _ => _ end) = _ =>
        assert (keeps_state m) as Hk;
        [|destruct (m w1) as [[a|e] w2] eqn:E; rewrite (Hk _ _ _ E); reflexivity]
    end.
    repeat keeps_step. apply keeps_state_workspace_stats.
Qed.

Lemma reading_tools_change_nothing_witness :
  snd (read_file "notes.txt" utf_8 10 (Some "u1") srv)
  = snd (get_user_workspace (Some "u1") srv).
Proof.
  apply (proj1 (proj2 (reading_tools_change_nothing "u1" srv eq_refl))).
Defined.

End ReadOnly.

(** ** Calls without an identifier *)

Module Anonymous.
Import PyStr PosixPath PyUuid Os FilesystemServer PathFacts OsFacts ResolverFacts Scenario.
Import ToolFacts Roundtrip IdentifierFacts Resolution.
Local Open Scope os_scope.
Local Open Scope Z_scope.

(** An identifier that is missing or empty. *)
Definition missing (user_id : option string) : bool :=
  match user_id with
  | Some u => negb (truthy u)
  | None => true
  end.

Lemma startswith_split p s : startswith p s = true -> exists r, s = p +:+ r.
Proof.
  revert s. induction p as [|a p IH]; intros s H.
  - exists s. reflexivity.
  - destruct s as [|b s]; [discriminate|]. cbn [startswith] in H.
    apply andb_true_iff in H as [Hab H]. apply eqb_ascii_true in Hab. subst b.
    destruct (IH s H) as (r & ->). exists r. reflexivity.
Qed.

Lemma append_inj_l (p a b : string) : p +:+ a = p +:+ b -> a = b.
Proof.
  induction p as [|x p IH]; [auto|]. rewrite !Reading.append_cons. intros [= H]. auto.
Qed.

Lemma append_same_length (a b r1 r2 : string) :
  a +:+ r1 = b +:+ r2 -> String.length a = String.length b -> a = b.
Proof.
  revert b. induction a as [|x a IH]; intros [|y b] H Hl; try discriminate; [reflexivity|].
  rewrite !Reading.append_cons in H. injection H as -> H. f_equal.
  apply IH; [exact H|]. simpl in Hl. lia.
Qed.

(** Two prefixes of one string that differ only in a last part of equal
    length are equal. *)
Lemma startswith_both p a b s :
  startswith (p +:+ a) s = true -> startswith (p +:+ b) s = true ->
  String.length a = String.length b -> a = b.
Proof.
  intros Ha Hb Hl. apply startswith_split in Ha as (r1 & H1), Hb as (r2 & H2).
  rewrite H1 in H2. rewrite !Reading.append_assoc in H2. apply append_inj_l in H2.
  eapply append_same_length; eassumption.
Qed.

(** Without an identifier the name is that of a random UUID. *)
Lemma get_user_workspace_missing user_id w ws w1 :
  missing user_id = true -> get_user_workspace user_id w = (Ret ws, w1) ->
  exists r, ws = workspace_of (str_of_uuid (uuid4 r)).
Proof.
  intros Hm H. unfold get_user_workspace in H.
  apply bind_Ret_inv in H as (id & w0 & Hid & H).
  assert (exists r, id = str_of_uuid (uuid4 r)) as (r & ->).
  { destruct user_id as [u|]; cbn [missing] in Hm.
    - apply negb_true_iff in Hm. rewrite Hm in Hid.
      apply bind_Ret_inv in Hid as (r & w' & _ & Hid).
      exists r. apply ret_Ret_inv in Hid as [<- _]. reflexivity.
    - apply bind_Ret_inv in Hid as (r & w' & _ & Hid).
      exists r. apply ret_Ret_inv in Hid as [<- _]. reflexivity. }
  exists r. cbv zeta in H.
  apply bind_Ret_inv in H as (x & w2 & _ & H).
  apply ret_Ret_inv in H as [<- _]. unfold workspace_of, canonical_id. reflexivity.
Qed.

Lemma canonical_id_random_length i : String.length (canonical_id (str_of_uuid i)) = 36%nat.
Proof.
  unfold canonical_id. destruct (UUID (str_of_uuid i)); apply length_str_of_uuid.
Qed.

(** Without an identifier the workspace is [USER_WORKSPACE_BASE], a slash
    and a name of thirty-six characters. *)
Lemma get_user_workspace_missing_name user_id w ws w1 :
  missing user_id = true -> get_user_workspace user_id w = (Ret ws, w1) ->
  exists n, ws = join USER_WORKSPACE_BASE n /\ norm_comp n /\ String.length n = 36%nat.
Proof.
  intros Hm H. destruct (get_user_workspace_missing _ _ _ _ Hm H) as (r & ->).
  exists (canonical_id (str_of_uuid (uuid4 r))).
  split; [reflexivity|]. split; [apply canonical_id_norm_comp|].
  apply canonical_id_random_length.
Qed.

(** Two workspaces with different names of equal length: what lies
    below the one by the string test does not lie below the other. *)
Lemma other_workspace_not_safe c n0 n1 p :
  isabs c = true -> norm_comp n0 -> norm_comp n1 ->
  String.length n0 = String.length n1 -> n0 <> n1 ->
  startswith (abspath c (join USER_WORKSPACE_BASE n1)) p = true ->
  startswith (abspath c (join USER_WORKSPACE_BASE n0)) p = false.
Proof.
  intros Hc H0 H1 Hl Hne Es.
  destruct (workspace_shape c Hc) as (k & comps & _ & _ & _ & _ & Hs).
  destruct (Hs _ H0) as (Ha0 & _). destruct (Hs _ H1) as (Ha1 & _).
  rewrite Ha1 in Es. rewrite Ha0.
  match goal with |- ?b = false => destruct b eqn:E0; [|reflexivity] end.
  exfalso. apply Hne.
  rewrite <- !Reading.append_assoc in Es, E0.
  eapply startswith_both; [exact E0 | exact Es | exact Hl].
Qed.

(** The prelude of a tool called without an identifier: the workspace is
    obtained twice, and when the two names differ the resolved path is not
    below the first one. *)
Lemma anonymous_prelude user_id path w ws0 w1 ws1 w2 :
  missing user_id = true ->
  get_user_workspace user_id w = (Ret ws0, w1) ->
  get_user_workspace user_id w1 = (Ret ws1, w2) ->
  ws0 <> ws1 ->
  resolve_user_path path user_id w1
  = (Raise (ValueError ("Path '" +:+ relative_part path +:+ "' is outside user workspace")),
     w2)
  \/ exists p, resolve_user_path path user_id w1 = (Ret p, w2)
               /\ is_safe_path p ws0 w2 = (Ret false, w2).
Proof.
  intros Hm H0 H1 Hne. rewrite resolve_user_path_unfold, H1. cbv zeta.
  destruct (get_user_workspace_missing_name _ _ _ _ Hm H0) as (n0 & -> & Hn0 & Hl0).
  destruct (get_user_workspace_missing_name _ _ _ _ Hm H1) as (n1 & -> & Hn1 & Hl1).
  clear H0 H1.
  destruct (startswith (abspath (cwd w2) (join USER_WORKSPACE_BASE n1)) _) eqn:Es;
    cbn [negb]; [right | left; reflexivity].
  eexists. split; [reflexivity|].
  unfold is_safe_path, bind, getcwd, ret. f_equal. f_equal.
  rewrite abspath_idem by apply cwd_isabs.
  eapply other_workspace_not_safe; [apply cwd_isabs | exact Hn0 | exact Hn1 | | | exact Es].
  - congruence.
  - intros ->. apply Hne. reflexivity.
Qed.

(** What a tool answers when its prelude fails: the error of the
    resolver, or the refusal of the access check. *)
Definition outside_text (path : string) : string :=
  "Error: Path '" +:+ relative_part path +:+ "' is outside user workspace".

Definition denied_text (path : string) : string := "Error: Access denied to path: " +:+ path.

Ltac anonymous_tool H0 Hpre :=
  let Hr := fresh "Hr" in
  let Hs := fresh "Hs" in
  let p := fresh "p" in
  destruct Hpre as [Hr | (p & Hr & Hs)];
  [ left;
    match type of Hr with
    | _ = (Raise ?e, ?w2) =>
        rewrite (try_except_Raise _ _ _ e w2);
        [reflexivity | rewrite (bind_Ret _ _ _ _ _ H0); apply bind_Raise; exact Hr]
    end
  | right; apply try_except_Ret;
    rewrite (bind_Ret _ _ _ _ _ H0), (bind_Ret _ _ _ _ _ Hr), (bind_Ret _ _ _ _ _ Hs);
    reflexivity ].

(** X6. Called with a missing or empty identifier, a tool obtains the
    workspace twice, each time under a fresh random name. When the two
    names differ, [list_directory], [read_file], [write_file],
    [delete_file], [search_files] and [get_file_info_tool] all answer with
    the error of the resolver or with "Access denied", and nothing but the
    two workspaces is created. *)
Theorem anonymous_calls_are_refused user_id path w ws0 w1 ws1 w2 :
  missing user_id = true ->
  get_user_workspace user_id w = (Ret ws0, w1) ->
  get_user_workspace user_id w1 = (Ret ws1, w2) ->
  ws0 <> ws1 ->
  (forall show_hidden max_items,
      list_directory path show_hidden max_items user_id w
      = (Ret (Message (outside_text path)), w2)
      \/ list_directory path show_hidden max_items user_id w
         = (Ret (Message (denied_text path)), w2))
  /\ (forall encoding max_lines,
         read_file path encoding max_lines user_id w = (Ret (Message (outside_text path)), w2)
         \/ read_file path encoding max_lines user_id w
            = (Ret (Message (denied_text path)), w2))
  /\ (forall content encoding append,
         write_file path content encoding append user_id w
         = (Ret (Message (outside_text path)), w2)
         \/ write_file path content encoding append user_id w
            = (Ret (Message (denied_text path)), w2))
  /\ (forall force,
         delete_file path force user_id w = (Ret (outside_text path), w2)
         \/ delete_file path force user_id w = (Ret (denied_text path), w2))
  /\ (forall fnmatch pattern file_only max_results,
         search_files fnmatch path pattern file_only max_results user_id w
         = (Ret (Message (outside_text path)), w2)
         \/ search_files fnmatch path pattern file_only max_results user_id w
            = (Ret (Message ("Error: Access denied to directory: " +:+ path)), w2))
  /\ (get_file_info_tool path user_id w = (Ret (Message (outside_text path)), w2)
      \/ get_file_info_tool path user_id w = (Ret (Message (denied_text path)), w2)).
Proof.
  intros Hm H0 H1 Hne.
  pose proof (anonymous_prelude user_id path w ws0 w1 ws1 w2 Hm H0 H1 Hne) as Hpre.
  repeat split; intros.
  - unfold list_directory. anonymous_tool H0 Hpre.
  - unfold read_file. anonymous_tool H0 Hpre.
  - unfold write_file. anonymous_tool H0 Hpre.
  - unfold delete_file. anonymous_tool H0 Hpre.
  - unfold search_files. anonymous_tool H0 Hpre.
  - unfold get_file_info_tool. anonymous_tool H0 Hpre.
Qed.

Lemma anonymous_calls_are_refused_witness :
  read_file "notes.txt" utf_8 10 None srv
  = (Ret (Message (outside_text "notes.txt")),
     snd (get_user_workspace None (snd (get_user_workspace None srv))))
  \/ read_file "notes.txt" utf_8 10 None srv
     = (Ret (Message (denied_text "notes.txt")),
        snd (get_user_workspace None (snd (get_user_workspace None srv)))).
Proof.
  apply (proj1 (proj2 (anonymous_calls_are_refused None "notes.txt" srv
           "./user-workspaces/00000000-0000-4000-8000-000000000000"
           (snd (get_user_workspace None srv))
           "./user-workspaces/00000000-0000-4000-8000-000000000001"
           (snd (get_user_workspace None (snd (get_user_workspace None srv))))
           eq_refl
           ltac:(apply run_Ret; vm_compute; reflexivity)
           ltac:(apply run_Ret; vm_compute; reflexivity)
           ltac:(discriminate)))).
Defined.

End Anonymous.

(** ** What write_file leaves behind *)

Module Writing.
Import PyStr PosixPath PyUuid Os FilesystemServer PathFacts OsFacts ResolverFacts Scenario.
Import ToolFacts Traversal Roundtrip Resolution.
Local Open Scope Z_scope.

(** The bytes a write starts from: those of the file when appending to an
    existing file, none otherwise. *)
Definition previous_data (append : bool) (i : option inode) : string :=
  match i with
  | Some (IFile data) => if append then data else EmptyString
  | _ => EmptyString
  end.

Lemma previous_data_overwrite i : previous_data false i = "".
Proof. destruct i as [[data|]|]; reflexivity. Qed.

(** The bytes that a write adds to the bytes [old] it starts from: a codec
    with a byte-order mark writes the mark at the start of a file only. *)
Definition added_bytes (encoding : Codec) (old content : string) : option string :=
  if truthy old then encode_more encoding content else encode encoding content.

Lemma write_text_inv p append encoding content w w4 :
  write_text p append encoding content w = (Ret tt, w4) ->
  exists bytes,
    added_bytes encoding (previous_data append (fs w !! key_of w p)) content = Some bytes
    /\ fs w !! key_of w p <> Some IDir
    /\ w4 = set_fs w (<[key_of w p :=
                          IFile (previous_data append (fs w !! key_of w p) +:+ bytes)]> (fs w)).
Proof.
  unfold write_text, added_bytes.
  destruct (fs w !! key_of w p) as [[old|]|] eqn:E; [| discriminate |];
    (destruct (fs w !! parent (key_of w p)) as [[?|]|]; [discriminate | | discriminate]);
    cbn [previous_data];
    match goal with
    | |- context [match ?e with Some _ => _ | None => _ end] =>
        destruct e as [bytes|] eqn:Ee; [|discriminate]
    end;
    intros [= <-]; exists bytes; (split; [reflexivity|]); (split; [congruence | reflexivity]).
Qed.

(** What creating the parent directory adds is a directory. *)
Lemma parent_creation_new (cond : bool) d w w3 :
  (if cond then makedirs d false else ret tt) w = (Ret tt, w3) ->
  forall j v, fs w3 !! j = Some v -> fs w !! j = None -> v = IDir.
Proof.
  destruct cond.
  - unfold makedirs. destruct (makedirs_walk [] (key_of w d) false (fs w)) as [e|m] eqn:E;
      [discriminate|].
    intros [= <-] j v Hj Hn. simpl in Hj.
    destruct (makedirs_walk_new _ _ _ _ _ E j v Hj Hn) as (-> & _). reflexivity.
  - intros [= <-] j v Hj Hn. congruence.
Qed.

(** A successful [write_file], step by step. *)
Lemma write_file_Report_inv u path content encoding append w r w2 :
  truthy u = true ->
  write_file path content encoding append (Some u) w = (Ret (Report r), w2) ->
  exists bytes,
    let p := target_of w u path in
    let data := previous_data append (fs w !! key_of w p) +:+ bytes in
    added_bytes encoding (previous_data append (fs w !! key_of w p)) content = Some bytes
    /\ cwd w2 = cwd w
    /\ allowed (lower (snd (splitext p))) = true
    /\ fs w2 !! key_of w p = Some (IFile data)
    /\ r = {| written_action := if append then "appended to" else "written to";
              written_file := written_file r;
              written_size := Z.of_nat (String.length data);
              written_length := Z.of_nat (len content) |}
    /\ relpath (cwd w) p (workspace_of u) = Some (written_file r)
    /\ (forall j v, j <> key_of w p -> fs w !! j = Some v -> fs w2 !! j = Some v)
    /\ (forall j v, j <> key_of w p -> fs w2 !! j = Some v -> fs w !! j = None -> v = IDir).
Proof.
  intros Hu Hw.
  unfold write_file, try_except in Hw.
  match type of Hw with
  | (match ?b with _ => _ end) = _ => destruct b as [[rep|e] w'] eqn:Hb
  end.
  2:{ destruct (is_ValueError e); discriminate. }
  injection Hw as -> ->.
  apply bind_Ret_inv in Hb as (ws & w1 & Hg & Hb).
  apply bind_Ret_inv in Hb as (p & w1' & Hr1 & Hb).
  pose proof (get_user_workspace_again u w ws w1 Hu Hg) as Hg1.
  pose proof (get_user_workspace_effect u w ws w1 Hu Hg) as (Hpres1 & Hnew1).
  destruct (get_user_workspace_Ret u w ws w1 Hu Hg) as (-> & m & Hm & Hw1).
  destruct (resolve_user_path_Ret u path w1 p w1' Hu Hr1) as (Hg1' & Hp & Hstart).
  rewrite Hg1 in Hg1'. injection Hg1' as <-.
  destruct (tool_prelude u path w1 p w1 Hu Hr1) as (_ & _ & Hs).
  rewrite (bind_Ret _ _ _ _ _ Hs) in Hb. cbv beta zeta in Hb. cbn [negb] in Hb.
  destruct (allowed (lower (snd (splitext p)))) eqn:Hext; cbn [negb] in Hb; [|discriminate].
  rewrite bind_path_exists in Hb.
  apply bind_Ret_inv in Hb as ([] & w3 & Hmk & Hb).
  apply bind_Ret_inv in Hb as ([] & w4 & Hwt & Hb).
  apply bind_Ret_inv in Hb as (info & w5 & Hgi & Hb).
  apply bind_Ret_inv in Hb as (rel & w6 & Hrel & Hb).
  pose proof (get_file_info_state _ _ _ _ Hgi) as ->.
  pose proof (relpath_m_state _ _ _ _ _ Hrel) as ->.
  apply ret_Ret_inv in Hb as [Hrep ->]. injection Hrep as Hrep. subst r.
  pose proof (parent_creation_new _ _ _ _ Hmk) as Hnew3.
  apply parent_creation_effect in Hmk as (Hc3 & Hpres3).
  apply write_text_inv in Hwt as (bytes & Henc & Hnd & ->).
  assert (cwd w1 = cwd w) as Hc1 by (rewrite Hw1; reflexivity).
  assert (target_of w1 u path = target_of w u path) as Ht
    by (unfold target_of; rewrite Hc1; reflexivity).
  rewrite Ht in Hp. clear Ht.
  assert (key_of w3 p = key_of w p) as Hk3 by (unfold key_of; rewrite Hc3, Hc1; reflexivity).
  rewrite Hk3 in *.
  assert (previous_data append (fs w3 !! key_of w p)
          = previous_data append (fs w !! key_of w p)) as Hold.
  { destruct (fs w !! key_of w p) as [v|] eqn:E.
    - rewrite (Hpres3 _ _ (Hpres1 _ _ E)). reflexivity.
    - destruct (fs w3 !! key_of w p) as [v|] eqn:E3; [|reflexivity].
      destruct (fs w1 !! key_of w p) as [v1|] eqn:E1.
      + destruct (Hnew1 _ _ E1 E) as (-> & _). pose proof (Hpres3 _ _ E1) as H3.
        rewrite E3 in H3. injection H3 as ->. congruence.
      + pose proof (Hnew3 _ _ E3 E1) as ->. congruence. }
  rewrite Hold in *.
  exists bytes. cbv zeta. rewrite <- Hp.
  set (data := previous_data append (fs w !! key_of w p) +:+ bytes) in *.
  set (W2 := set_fs w3 (<[key_of w p := IFile data]> (fs w3))) in *.
  assert (fs W2 !! key_of w p = Some (IFile data)) as Hfile
    by (unfold W2; simpl; apply lookup_insert_eq).
  assert (cwd W2 = cwd w) as Hc2 by (unfold W2; rewrite cwd_set_fs; congruence).
  split; [exact Henc|]. split; [exact Hc2|]. split; [exact Hext|].
  split; [exact Hfile|]. split; [|split; [|split]].
  - assert (key_of W2 p = key_of w p) as Hk by (unfold key_of; rewrite Hc2; reflexivity).
    rewrite <- Hk in Hfile. rewrite (get_file_info_at _ _ _ Hfile) in Hgi.
    apply ret_Ret_inv in Hgi as [<- _]. reflexivity.
  - cbn [written_file]. unfold relpath_m, bind, getcwd in Hrel.
    rewrite Hc2 in Hrel. destruct (relpath (cwd w) p (workspace_of u)) as [x|];
      [|discriminate]. apply ret_Ret_inv in Hrel as [<- _]. reflexivity.
  - intros j v Hj Hv. unfold W2. simpl. rewrite lookup_insert_ne by congruence. auto.
  - intros j v Hj Hv Hn. unfold W2 in Hv. simpl in Hv.
    rewrite lookup_insert_ne in Hv by congruence.
    destruct (fs w1 !! j) as [v1|] eqn:E1.
    + destruct (Hnew1 _ _ E1 Hn) as (-> & _). rewrite (Hpres3 _ _ E1) in Hv. congruence.
    + exact (Hnew3 _ _ Hv E1).
Qed.

(** The same run, as the states it goes through: [w1] once the workspace
    is there, [w3] once the directory of the target is there, and the
    final state with the file in place. *)
Lemma write_file_Report_steps u path content encoding append w r w2 :
  truthy u = true ->
  write_file path content encoding append (Some u) w = (Ret (Report r), w2) ->
  exists w1 w3 bytes,
    let p := target_of w u path in
    get_user_workspace (Some u) w = (Ret (workspace_of u), w1)
    /\ resolve_user_path path (Some u) w1 = (Ret p, w1)
    /\ (if truthy (dirname p)
           && negb (match fs w1 !! key_of w1 (dirname p) with Some _ => true | None => false end)
        then makedirs (dirname p) false else ret tt) w1 = (Ret tt, w3)
    /\ added_bytes encoding (previous_data append (fs w3 !! key_of w3 p)) content = Some bytes
    /\ fs w3 !! key_of w3 p <> Some IDir
    /\ w2 = set_fs w3 (<[key_of w3 p :=
                           IFile (previous_data append (fs w3 !! key_of w3 p) +:+ bytes)]>
                         (fs w3)).
Proof.
  intros Hu Hw.
  unfold write_file, try_except in Hw.
  match type of Hw with
  | (match ?b with _ => _ end) = _ => destruct b as [[rep|e] w'] eqn:Hb
  end.
  2:{ destruct (is_ValueError e); discriminate. }
  injection Hw as -> ->.
  apply bind_Ret_inv in Hb as (ws & w1 & Hg & Hb).
  apply bind_Ret_inv in Hb as (p & w1' & Hr1 & Hb).
  pose proof (get_user_workspace_again u w ws w1 Hu Hg) as Hg1.
  destruct (get_user_workspace_Ret u w ws w1 Hu Hg) as (-> & m & Hm & Hw1).
  destruct (resolve_user_path_Ret u path w1 p w1' Hu Hr1) as (Hg1' & Hp & Hstart).
  rewrite Hg1 in Hg1'. injection Hg1' as <-.
  destruct (tool_prelude u path w1 p w1 Hu Hr1) as (_ & _ & Hs).
  rewrite (bind_Ret _ _ _ _ _ Hs) in Hb. cbv beta zeta in Hb. cbn [negb] in Hb.
  destruct (allowed (lower (snd (splitext p)))) eqn:Hext; cbn [negb] in Hb; [|discriminate].
  rewrite bind_path_exists in Hb.
  apply bind_Ret_inv in Hb as ([] & w3 & Hmk & Hb).
  apply bind_Ret_inv in Hb as ([] & w4 & Hwt & Hb).
  apply bind_Ret_inv in Hb as (info & w5 & Hgi & Hb).
  apply bind_Ret_inv in Hb as (rel & w6 & Hrel & Hb).
  pose proof (get_file_info_state _ _ _ _ Hgi) as ->.
  pose proof (relpath_m_state _ _ _ _ _ Hrel) as ->.
  apply ret_Ret_inv in Hb as [_ ->].
  apply write_text_inv in Hwt as (bytes & Henc & Hnd & ->).
  assert (cwd w1 = cwd w) as Hc1 by (rewrite Hw1; reflexivity).
  assert (target_of w1 u path = target_of w u path) as Ht
    by (unfold target_of; rewrite Hc1; reflexivity).
  rewrite Ht in Hp. clear Ht. subst p.
  exists w1, w3, bytes. cbv zeta. auto 10.
Qed.

(** X7. When [write_file] succeeds for a supplied user and a path
    without a NUL character, the target (the normalised path below the
    workspace) is a file that holds the bytes it starts from, which are
    those the file had before when appending to an existing file and none
    otherwise, followed by the encoded content: encoded as at the start
    of a file when there are no bytes before it, and as further on in a
    file otherwise, so that a codec with a byte-order mark writes no
    second mark. The report gives the size of that file in bytes and the
    number of characters of the content; no other existing entry is
    changed, and whatever else is new is a directory. *)
Theorem write_file_effect u path content encoding append w r w2 :
  truthy u = true ->
  mem_char "000" path = false ->
  write_file path content encoding append (Some u) w = (Ret (Report r), w2) ->
  exists bytes,
    let p := target_of w u path in
    let old := match fs w !! key_of w p with
               | Some (IFile data) => if append then data else ""
               | _ => ""
               end in
    (if truthy old then encode_more encoding content else encode encoding content)
    = Some bytes
    /\ fs w2 !! key_of w2 p = Some (IFile (old +:+ bytes))
    /\ written_size r = Z.of_nat (String.length (old +:+ bytes))
    /\ written_length r = Z.of_nat (len content)
    /\ written_action r = (if append then "appended to" else "written to")
    /\ (forall j v, j <> key_of w p -> fs w !! j = Some v -> fs w2 !! j = Some v)
    /\ (forall j v, j <> key_of w p -> fs w2 !! j = Some v -> fs w !! j = None -> v = IDir).
Proof.
  intros Hu _ Hw.
  destruct (write_file_Report_inv _ _ _ _ _ _ _ _ Hu Hw)
    as (bytes & Henc & Hc & _ & Hfile & Hr & _ & Hpres & Hnew).
  exists bytes. cbv zeta.
  split; [exact Henc|]. split; [unfold key_of; rewrite Hc; exact Hfile|].
  rewrite Hr. cbn [written_size written_length written_action]. auto.
Qed.

(** A workspace of user ["u1"] that holds [notes.txt] with [data]. *)
Definition srv_file (data : string) : World := Reading.srv_with "notes.txt" data.

Lemma write_file_effect_witness :
  exists bytes,
    let p := target_of (srv_file "one ") "u1" "notes.txt" in
    let old := match fs (srv_file "one ") !! key_of (srv_file "one ") p with
               | Some (IFile data) => if true then data else ""
               | _ => ""
               end in
    (if truthy old then encode_more utf_8 "hello" else encode utf_8 "hello") = Some bytes
    /\ fs (snd (write_file "notes.txt" "hello" utf_8 true (Some "u1") (srv_file "one ")))
         !! key_of (snd (write_file "notes.txt" "hello" utf_8 true (Some "u1")
                           (srv_file "one "))) p
       = Some (IFile (old +:+ bytes))
    /\ written_size {| written_action := "appended to"; written_file := "notes.txt";
                       written_size := 9; written_length := 5 |}
       = Z.of_nat (String.length (old +:+ bytes))
    /\ written_length {| written_action := "appended to"; written_file := "notes.txt";
                         written_size := 9; written_length := 5 |}
       = Z.of_nat (len "hello")
    /\ written_action {| written_action := "appended to"; written_file := "notes.txt";
                         written_size := 9; written_length := 5 |}
       = "appended to"
    /\ (forall j v, j <> key_of (srv_file "one ") p -> fs (srv_file "one ") !! j = Some v ->
                    fs (snd (write_file "notes.txt" "hello" utf_8 true (Some "u1")
                               (srv_file "one "))) !! j
                    = Some v)
    /\ (forall j v, j <> key_of (srv_file "one ") p ->
                    fs (snd (write_file "notes.txt" "hello" utf_8 true (Some "u1")
                               (srv_file "one "))) !! j
                    = Some v ->
                    fs (srv_file "one ") !! j = None -> v = IDir).
Proof.
  apply (write_file_effect "u1" "notes.txt" "hello" utf_8 true (srv_file "one ")
           {| written_action := "appended to"; written_file := "notes.txt";
              written_size := 9; written_length := 5 |}
           (snd (write_file "notes.txt" "hello" utf_8 true (Some "u1") (srv_file "one ")))
           eq_refl eq_refl).
  apply run_Ret. vm_compute. reflexivity.
Defined.

(** The ['utf-8-sig'] codec: UTF-8 with the byte-order mark EF BB BF at
    the start of a file. The decoder skips one mark at the start; it
    waits for three bytes before it decides, and one or two bytes that
    begin a mark and are the whole file are taken for no text. *)
Definition BOM_UTF8 : string := String "239" (String "187" (String "191" "")).

Definition skip_mark (b : string) : string :=
  if startswith BOM_UTF8 b then drop 3 b else b.

Definition utf_8_sig : Codec :=
  {| codec_name := "utf-8-sig";
     encode := fun s => if utf8_valid s then Some (BOM_UTF8 +:+ s) else None;
     encode_more := fun s => if utf8_valid s then Some s else None;
     decode := fun b =>
       if (String.length b <? 3)%nat && startswith b BOM_UTF8 then Some ""
       else if utf8_valid (skip_mark b) then Some (skip_mark b) else None;
     decode_part := fun b =>
       if (String.length b <? 3)%nat && startswith b BOM_UTF8 then Some ""
       else utf8_part (skip_mark b) |}.

(** Appending with a codec that has a byte-order mark: a new file gets
    the mark, an existing file with content gets no second one, and the
    length reported is that of the content in characters (here the one
    character U+00E9, two bytes). *)
Example append_with_byte_order_mark :
  fs (snd (write_file "notes.txt" "b" utf_8_sig true (Some "u1")
             (snd (write_file "notes.txt" "a" utf_8_sig true (Some "u1") srv))))
    !! (u1_key ++ ["notes.txt"])
  = Some (IFile (BOM_UTF8 +:+ "ab"))
  /\ fst (write_file "notes.txt" (String "195" (String "169" "")) utf_8_sig true (Some "u1")
            (srv_file "one"))
     = Ret (Report {| written_action := "appended to"; written_file := "notes.txt";
                      written_size := 5; written_length := 1 |}).
Proof. split; vm_compute; reflexivity. Qed.

(** X8. Writing a file and then appending to it, both with success, for
    a path without a NUL character, leaves a file that holds the first
    content, encoded as at the start of a file, followed by the second
    content, encoded as further on in a file (as at the start of a file
    when the first write has left the file empty); the second report
    gives the sum of their sizes. *)
Theorem append_after_write u path c1 c2 encoding w r1 w2 r2 w3 b1 b2 :
  truthy u = true ->
  mem_char "000" path = false ->
  write_file path c1 encoding false (Some u) w = (Ret (Report r1), w2) ->
  write_file path c2 encoding true (Some u) w2 = (Ret (Report r2), w3) ->
  encode encoding c1 = Some b1 ->
  (if truthy b1 then encode_more encoding c2 else encode encoding c2) = Some b2 ->
  fs w3 !! key_of w3 (target_of w u path) = Some (IFile (b1 +:+ b2))
  /\ written_size r2 = Z.of_nat (String.length b1 + String.length b2).
Proof.
  intros Hu _ H1 H2 He1 He2.
  destruct (write_file_Report_inv _ _ _ _ _ _ _ _ Hu H1)
    as (b1' & Henc1 & Hc1 & _ & Hfile1 & _).
  destruct (write_file_Report_inv _ _ _ _ _ _ _ _ Hu H2)
    as (b2' & Henc2 & Hc2 & _ & Hfile2 & Hr2 & _).
  cbv zeta in *.
  assert (target_of w2 u path = target_of w u path) as Ht
    by (unfold target_of; rewrite Hc1; reflexivity).
  assert (forall p, key_of w2 p = key_of w p) as Hk2
    by (intros p; unfold key_of; rewrite Hc1; reflexivity).
  rewrite previous_data_overwrite in Henc1, Hfile1.
  unfold added_bytes in Henc1. cbn [truthy] in Henc1.
  rewrite He1 in Henc1. injection Henc1 as <-.
  change ("" +:+ b1) with b1 in Hfile1.
  rewrite Ht, !Hk2 in *. rewrite Hfile1 in *. cbn [previous_data] in *.
  unfold added_bytes in Henc2. rewrite He2 in Henc2. injection Henc2 as <-.
  split.
  - unfold key_of. rewrite Hc2, Hc1. exact Hfile2.
  - rewrite Hr2. cbn [written_size]. rewrite IdentifierFacts.string_length_app. reflexivity.
Qed.

Lemma append_after_write_witness :
  fs (snd (write_file "notes.txt" "world" utf_8 true (Some "u1")
             (snd (write_file "notes.txt" "hello " utf_8 false (Some "u1") srv))))
    !! key_of (snd (write_file "notes.txt" "world" utf_8 true (Some "u1")
                      (snd (write_file "notes.txt" "hello " utf_8 false (Some "u1") srv))))
         (target_of srv "u1" "notes.txt")
  = Some (IFile ("hello " +:+ "world"))
  /\ written_size {| written_action := "appended to"; written_file := "notes.txt";
                     written_size := 11; written_length := 5 |}
     = Z.of_nat (String.length "hello " + String.length "world").
Proof.
  apply (append_after_write "u1" "notes.txt" "hello " "world" utf_8 srv
           {| written_action := "written to"; written_file := "notes.txt";
              written_size := 6; written_length := 6 |}
           (snd (write_file "notes.txt" "hello " utf_8 false (Some "u1") srv))
           {| written_action := "appended to"; written_file := "notes.txt";
              written_size := 11; written_length := 5 |}
           (snd (write_file "notes.txt" "world" utf_8 true (Some "u1")
                   (snd (write_file "notes.txt" "hello " utf_8 false (Some "u1") srv))))
           "hello " "world" eq_refl eq_refl).
  - apply run_Ret. vm_compute. reflexivity.
  - apply run_Ret. vm_compute. reflexivity.
  - reflexivity.
  - reflexivity.
Defined.

End Writing.

(** ** What delete_file removes *)

Module Removal.
Import PyStr PosixPath PyUuid Os FilesystemServer PathFacts OsFacts ResolverFacts Scenario.
Import ToolFacts Traversal Roundtrip Resolution Writing.

(** [delete_file] up to the point where the kind of the target decides,
    for a target that exists. *)
Lemma delete_file_run u path force w w1 p i :
  truthy u = true ->
  resolve_user_path path (Some u) w = (Ret p, w1) ->
  fs w1 !! key_of w1 p = Some i ->
  exists rel,
    relpath (cwd w1) p (workspace_of u) = Some rel
    /\ delete_file path force (Some u) w =
       try_except
         (match i with
          | IFile _ => bind (remove p) (fun _ => ret ("File deleted successfully: " +:+ rel))
          | IDir =>
              if force
              then bind (rmtree p) (fun _ =>
                     ret ("Directory deleted successfully (forced): " +:+ rel))
              else bind (rmdir p) (fun _ =>
                     ret ("Empty directory deleted successfully: " +:+ rel))
          end)
         (fun e =>
            if is_ValueError e then "Error: " +:+ str_exn e
            else match e with
                 | OSError errno _ =>
                     if (errno =? 39)%Z then
                       "Error: Directory not empty. Use force=True to delete non-empty directory: "
                         +:+ path
                     else "Error deleting path: " +:+ str_exn e
                 | _ => "Error deleting path: " +:+ str_exn e
                 end) w1.
Proof.
  intros Hu Hr Hi.
  destruct (tool_prelude u path w p w1 Hu Hr) as (Hg & Hr1 & Hs).
  destruct (resolve_user_path_Ret u path w p w1 Hu Hr) as (_ & Hp & _).
  assert (truthy p = true) as Htp by (rewrite Hp; apply target_truthy).
  destruct (relpath_m_total p (workspace_of u) w1 Htp) as (rel & Hrel & _).
  exists rel. split.
  - unfold relpath_m, bind, getcwd in Hrel.
    destruct (relpath (cwd w1) p (workspace_of u)) as [x|]; [|discriminate].
    apply ret_Ret_inv in Hrel as [-> _]. reflexivity.
  - unfold delete_file, try_except.
    rewrite (bind_Ret _ _ _ _ _ Hg). cbv beta.
    rewrite (bind_Ret _ _ _ _ _ Hr1). cbv beta.
    rewrite (bind_Ret _ _ _ _ _ Hs). cbv beta. cbn [negb].
    rewrite bind_path_exists, Hi. cbn [negb].
    rewrite (bind_Ret _ _ _ _ _ (get_file_info_at p w1 _ Hi)). cbv beta.
    rewrite (bind_Ret _ _ _ _ _ Hrel). cbv beta.
    rewrite bind_isfile, Hi. destruct i as [data|]; [reflexivity|].
    rewrite bind_isdir, Hi. destruct force; reflexivity.
Qed.

Lemma delete_file_missing u path force w w1 p :
  truthy u = true ->
  resolve_user_path path (Some u) w = (Ret p, w1) ->
  fs w1 !! key_of w1 p = None ->
  delete_file path force (Some u) w = (Ret ("Error: Path does not exist: " +:+ path), w1).
Proof.
  intros Hu Hr Hi.
  destruct (tool_prelude u path w p w1 Hu Hr) as (Hg & Hr1 & Hs).
  unfold delete_file. apply try_except_Ret.
  rewrite (bind_Ret _ _ _ _ _ Hg). cbv beta.
  rewrite (bind_Ret _ _ _ _ _ Hr1). cbv beta.
  rewrite (bind_Ret _ _ _ _ _ Hs). cbv beta. cbn [negb].
  rewrite bind_path_exists, Hi. reflexivity.
Qed.

Lemma delete_file_file u path force w w1 p data :
  truthy u = true ->
  resolve_user_path path (Some u) w = (Ret p, w1) ->
  fs w1 !! key_of w1 p = Some (IFile data) ->
  exists rel,
    relpath (cwd w1) p (workspace_of u) = Some rel
    /\ delete_file path force (Some u) w
       = (Ret ("File deleted successfully: " +:+ rel),
          set_fs w1 (delete (key_of w1 p) (fs w1))).
Proof.
  intros Hu Hr Hi.
  destruct (delete_file_run u path force w w1 p _ Hu Hr Hi) as (rel & Hrel & Hrun).
  exists rel. split; [exact Hrel|]. rewrite Hrun. apply try_except_Ret.
  unfold bind, remove. rewrite Hi. reflexivity.
Qed.

Lemma delete_file_empty_dir u path w w1 p :
  truthy u = true ->
  resolve_user_path path (Some u) w = (Ret p, w1) ->
  fs w1 !! key_of w1 p = Some IDir ->
  listdir_key (fs w1) (key_of w1 p) = [] ->
  exists rel,
    relpath (cwd w1) p (workspace_of u) = Some rel
    /\ delete_file path false (Some u) w
       = (Ret ("Empty directory deleted successfully: " +:+ rel),
          set_fs w1 (delete (key_of w1 p) (fs w1))).
Proof.
  intros Hu Hr Hi Hl.
  destruct (delete_file_run u path false w w1 p _ Hu Hr Hi) as (rel & Hrel & Hrun).
  exists rel. split; [exact Hrel|]. rewrite Hrun. apply try_except_Ret.
  unfold bind, rmdir. rewrite Hi, Hl. reflexivity.
Qed.

(** X9. Let the request of a supplied user resolve to [p], in the state
    [w1] that has the workspace. If [p] does not exist, [delete_file]
    reports that and changes nothing more. If [p] is a file, it is
    removed, with or without [force], and nothing else changes. If [p] is
    a directory without entries, [delete_file] without [force] removes
    it, and nothing else changes. *)
Theorem delete_file_outcomes u path w w1 p :
  truthy u = true ->
  resolve_user_path path (Some u) w = (Ret p, w1) ->
  (fs w1 !! key_of w1 p = None ->
   forall force,
     delete_file path force (Some u) w = (Ret ("Error: Path does not exist: " +:+ path), w1))
  /\ (forall data, fs w1 !! key_of w1 p = Some (IFile data) ->
      forall force, exists rel,
        relpath (cwd w1) p (workspace_of u) = Some rel
        /\ delete_file path force (Some u) w
           = (Ret ("File deleted successfully: " +:+ rel),
              set_fs w1 (delete (key_of w1 p) (fs w1))))
  /\ (fs w1 !! key_of w1 p = Some IDir -> listdir_key (fs w1) (key_of w1 p) = [] ->
      exists rel,
        relpath (cwd w1) p (workspace_of u) = Some rel
        /\ delete_file path false (Some u) w
           = (Ret ("Empty directory deleted successfully: " +:+ rel),
              set_fs w1 (delete (key_of w1 p) (fs w1)))).
Proof.
  intros Hu Hr. split; [|split].
  - intros Hi force. eapply delete_file_missing; eassumption.
  - intros data Hi force. eapply delete_file_file; eassumption.
  - intros Hi Hl. eapply delete_file_empty_dir; eassumption.
Qed.

Lemma delete_file_outcomes_witness :
  exists rel,
    relpath (cwd (snd (resolve_user_path "docs/a.txt" (Some "u1") Deletion.srv_docs)))
      "/srv/user-workspaces/db6cd388-0abf-538a-8503-dd3358d93458/docs/a.txt"
      (workspace_of "u1") = Some rel
    /\ delete_file "docs/a.txt" false (Some "u1") Deletion.srv_docs
       = (Ret ("File deleted successfully: " +:+ rel),
          set_fs (snd (resolve_user_path "docs/a.txt" (Some "u1") Deletion.srv_docs))
            (delete (key_of (snd (resolve_user_path "docs/a.txt" (Some "u1") Deletion.srv_docs))
                       "/srv/user-workspaces/db6cd388-0abf-538a-8503-dd3358d93458/docs/a.txt")
               (fs (snd (resolve_user_path "docs/a.txt" (Some "u1") Deletion.srv_docs))))).
Proof.
  apply (proj1 (proj2 (delete_file_outcomes "u1" "docs/a.txt" Deletion.srv_docs
                  (snd (resolve_user_path "docs/a.txt" (Some "u1") Deletion.srv_docs))
                  "/srv/user-workspaces/db6cd388-0abf-538a-8503-dd3358d93458/docs/a.txt"
                  eq_refl
                  ltac:(apply run_Ret; vm_compute; reflexivity)))
           "hello" ltac:(vm_compute; reflexivity) false).
Defined.

(** X10. Writing a file that did not exist into a directory that did,
    and deleting it again, gives back the filesystem as it was once the
    workspace was there. *)
Theorem delete_after_write u path content encoding append force w r w2 :
  truthy u = true ->
  write_file path content encoding append (Some u) w = (Ret (Report r), w2) ->
  let w1 := snd (get_user_workspace (Some u) w) in
  let p := target_of w u path in
  fs w1 !! key_of w1 p = None ->
  fs w1 !! key_of w1 (dirname p) <> None ->
  exists rel w3,
    delete_file path force (Some u) w2 = (Ret ("File deleted successfully: " +:+ rel), w3)
    /\ fs w3 = fs w1.
Proof.
  intros Hu Hw w1 p Hnone Hdir.
  destruct (write_file_Report_steps _ _ _ _ _ _ _ _ Hu Hw)
    as (w1' & w3 & bytes & Hg & Hr1 & Hmk & Henc & Hnd & Hw2).
  cbv zeta in *. fold p in Hr1, Hmk, Hnd, Hw2.
  assert (w1 = w1') as <- by (unfold w1; rewrite Hg; reflexivity).
  destruct (fs w1 !! key_of w1 (dirname p)) as [d|] eqn:Ed; [|congruence].
  cbn [negb] in Hmk. rewrite andb_false_r in Hmk. apply ret_Ret_inv in Hmk as [_ ->].
  rewrite Hnone in Hw2. cbn [previous_data] in Hw2.
  destruct (get_user_workspace_Ret u w _ w1 Hu Hg) as (_ & m & Hm & Hw1).
  destruct (resolve_user_path_Ret u path w1 p w1 Hu Hr1) as (_ & Hp & Hstart).
  assert (cwd w2 = cwd w1) as Hc2 by (rewrite Hw2; reflexivity).
  assert (dirs_ready (fs w2) [] (key_of w2 (workspace_of u))) as Hready.
  { rewrite Hw2. rewrite key_of_set_fs. simpl.
    apply dirs_ready_insert_file; [|exact Hnd].
    replace (key_of w1 (workspace_of u)) with (key_of w (workspace_of u))
      by (unfold key_of; rewrite Hw1; reflexivity).
    rewrite Hw1. simpl. eapply makedirs_walk_ready. exact Hm. }
  assert (resolve_user_path path (Some u) w2 = (Ret p, w2)) as Hr2.
  { rewrite resolve_user_path_unfold.
    rewrite (get_user_workspace_ready u w2 Hu Hready). cbv zeta.
    rewrite Hc2. fold (target_of w1 u path). fold (workspace_abs_of w1 u).
    rewrite <- Hp, Hstart. reflexivity. }
  assert (key_of w2 p = key_of w1 p) as Hk2 by (unfold key_of; rewrite Hc2; reflexivity).
  assert (fs w2 !! key_of w2 p = Some (IFile ("" +:+ bytes))) as Hfile.
  { rewrite Hk2, Hw2. simpl. apply lookup_insert_eq. }
  destruct (delete_file_file u path force w2 w2 p _ Hu Hr2 Hfile) as (rel & _ & Hdel).
  exists rel. eexists. split; [exact Hdel|].
  rewrite Hk2, Hw2. simpl. apply delete_insert_id. exact Hnone.
Qed.

Lemma delete_after_write_witness :
  exists rel w3,
    delete_file "notes.txt" false (Some "u1")
      (snd (write_file "notes.txt" "hello" utf_8 false (Some "u1") srv))
    = (Ret ("File deleted successfully: " +:+ rel), w3)
    /\ fs w3 = fs (snd (get_user_workspace (Some "u1") srv)).
Proof.
  apply (delete_after_write "u1" "notes.txt" "hello" utf_8 false false srv
           {| written_action := "written to"; written_file := "notes.txt";
              written_size := 5; written_length := 5 |}
           (snd (write_file "notes.txt" "hello" utf_8 false (Some "u1") srv)) eq_refl).
  - apply run_Ret. vm_compute. reflexivity.
  - vm_compute. reflexivity.
  - vm_compute. discriminate.
Defined.

End Removal.

(** ** What search_files reports *)

Module Searching.
Import PyStr PosixPath PyUuid Os FilesystemServer PathFacts OsFacts ResolverFacts Scenario.
Import ToolFacts Roundtrip Resolution Reporting.
Local Open Scope Z_scope.

Section SearchBounds.

Variable fnmatch : string -> string -> bool.

(** A reported match: the path, relative to the workspace, of an entry
    whose name matches the pattern. *)
Definition matched (w : World) (ws pattern : string) (m : match_entry) : Prop :=
  exists root item,
    fnmatch item pattern = true
    /\ relpath (cwd w) (join root item) ws = Some (match_path m).

Lemma search_items_bound root ws pattern max_results items :
  forall matches count w r w',
    search_items fnmatch root ws pattern max_results items matches count w = (Ret r, w') ->
    count = Z.of_nat (length matches) ->
    snd r = Z.of_nat (length (fst r))
    /\ snd r <= Z.max count max_results
    /\ exists new, fst r = matches ++ new /\ Forall (matched w ws pattern) new.
Proof.
  induction items as [|item rest IH]; intros matches count w r w' H Hc.
  - apply ret_Ret_inv in H as [<- _]. cbn [fst snd]. split; [exact Hc|]. split; [lia|].
    exists []. rewrite app_nil_r. auto.
  - cbn [search_items] in H.
    destruct (count >=? max_results) eqn:Eg.
    { apply ret_Ret_inv in H as [<- _]. cbn [fst snd]. split; [exact Hc|]. split; [lia|].
      exists []. rewrite app_nil_r. auto. }
    destruct (fnmatch item pattern) eqn:Ef; [|eauto].
    apply bind_Ret_inv in H as (safe & w1 & Hs & H).
    apply is_safe_path_state in Hs as ->.
    destruct safe; [|eauto].
    apply bind_Ret_inv in H as (info & w1 & Hinfo & H).
    apply get_file_info_state in Hinfo as ->.
    apply bind_Ret_inv in H as (rel & w1 & Hrel & H).
    pose proof (relpath_m_state _ _ _ _ _ Hrel) as ->.
    destruct info as [info|err]; [|discriminate].
    destruct (IH _ _ _ _ _ H) as (H1 & H2 & new & H3 & H4).
    { rewrite length_app. simpl. lia. }
    split; [exact H1|]. split; [lia|].
    eexists (_ :: new). split.
    + rewrite H3, <- app_assoc. reflexivity.
    + constructor; [|exact H4]. exists root, item. split; [exact Ef|]. cbn [match_path].
      unfold relpath_m, bind, getcwd in Hrel.
      destruct (relpath (cwd w) (join root item) ws) as [x|]; [|discriminate].
      apply ret_Ret_inv in Hrel as [-> _]. reflexivity.
Qed.

Lemma search_walk_bound ws pattern file_only max_results triples :
  forall matches count w r w',
    search_walk fnmatch ws pattern file_only max_results triples matches count w
    = (Ret r, w') ->
    count = Z.of_nat (length matches) ->
    snd r = Z.of_nat (length (fst r))
    /\ snd r <= Z.max count max_results
    /\ exists new, fst r = matches ++ new /\ Forall (matched w ws pattern) new.
Proof.
  induction triples as [|[[root dirs] files] rest IH]; intros matches count w r w' H Hc.
  - apply ret_Ret_inv in H as [<- _]. cbn [fst snd]. split; [exact Hc|]. split; [lia|].
    exists []. rewrite app_nil_r. auto.
  - cbn [search_walk] in H.
    destruct (count >=? max_results) eqn:Eg.
    { apply ret_Ret_inv in H as [<- _]. cbn [fst snd]. split; [exact Hc|]. split; [lia|].
      exists []. rewrite app_nil_r. auto. }
    apply bind_Ret_inv in H as (safe & w1 & Hs & H).
    apply is_safe_path_state in Hs as ->.
    destruct safe; cbn [negb] in H; [|eauto].
    apply bind_Ret_inv in H as (r1 & w1 & Hitems & H).
    destruct (search_items_spec _ _ _ _ _ _ _ _ _ _ _ Hitems) as (-> & _).
    destruct (search_items_bound _ _ _ _ _ _ _ _ _ _ Hitems Hc) as (H1 & H2 & new1 & H3 & H4).
    destruct (IH _ _ _ _ _ H H1) as (H5 & H6 & new2 & H7 & H8).
    split; [exact H5|]. split; [lia|].
    exists (new1 ++ new2). split.
    + rewrite H7, H3, <- app_assoc. reflexivity.
    + apply Forall_app. split; assumption.
Qed.

End SearchBounds.

(** X11. A report of [search_files] holds at least one match and at most
    [max_results]; the count it gives is the number of matches; and every
    match is the path, relative to the workspace of the call, of an entry
    whose name matches the pattern. *)
Theorem search_files_bounded fnmatch directory pattern file_only max_results user_id w S w' :
  search_files fnmatch directory pattern file_only max_results user_id w
  = (Ret (Report S), w') ->
  search_count S = Z.of_nat (length (search_matches S))
  /\ 1 <= search_count S <= max_results
  /\ search_pattern S = pattern
  /\ exists ws, workspace_used user_id w ws
                /\ Forall (matched fnmatch w ws pattern) (search_matches S).
Proof.
  intros H. unfold search_files, try_except in H.
  match type of H with
  | (match ?b with _ => _ end) = _ => destruct b as [[rep|e] w0] eqn:Hb
  end.
  2:{ destruct (is_ValueError e); discriminate. }
  injection H as -> ->.
  apply bind_Ret_inv in Hb as (ws & w1 & Hg & Hb).
  apply bind_Ret_inv in Hb as (p & w2 & Hr & Hb).
  pose proof (get_user_workspace_cwd _ _ _ _ Hg) as Hc1.
  pose proof (resolve_user_path_cwd _ _ _ _ _ Hr) as Hc2.
  apply bind_Ret_inv in Hb as (safe & w3 & Hs & Hb).
  apply is_safe_path_state in Hs as ->.
  destruct safe; cbn [negb] in Hb; [|discriminate].
  rewrite bind_path_exists in Hb.
  destruct (match fs w2 !! key_of w2 p with Some _ => true | None => false end);
    cbn [negb] in Hb; [|discriminate].
  rewrite bind_isdir in Hb.
  destruct (match fs w2 !! key_of w2 p with Some IDir => true | _ => false end);
    cbn [negb] in Hb; [|discriminate].
  apply bind_Ret_inv in Hb as (triples & w4 & Hwalk & Hb).
  assert (w4 = w2) as -> by (unfold walk in Hwalk; congruence).
  apply bind_Ret_inv in Hb as (r & w5 & Hloop & Hb).
  destruct (search_walk_spec _ _ _ _ _ _ _ _ _ _ _ Hloop) as (-> & _).
  destruct (search_walk_bound _ _ _ _ _ _ _ _ _ _ _ Hloop eq_refl)
    as (H1 & H2 & new & H3 & H4).
  destruct (fst r) as [|m0 l0] eqn:Hm; [discriminate|].
  apply bind_Ret_inv in Hb as (rel & w6 & Hrel & Hb).
  apply ret_Ret_inv in Hb as [Hrep _]. injection Hrep as <-.
  cbn [search_count search_matches search_pattern].
  split; [reflexivity|]. split; [|split; [reflexivity|]].
  - cbn [length] in *. lia.
  - exists ws. split; [exists w1; exact Hg|]. simpl in H3. rewrite H3.
    eapply Forall_impl; [exact H4|].
    intros m (root & item & Hf & Hp). exists root, item. split; [exact Hf|].
    rewrite <- Hp. f_equal. congruence.
Qed.

Definition two_matches : search_report :=
  {| search_count := 2; search_pattern := "*"; search_dir := ".";
     search_matches :=
       [{| match_path := "b.txt"; match_type := "FILE"; match_size := "2 bytes" |};
        {| match_path := "a.txt"; match_type := "FILE"; match_size := "1 bytes" |}] |}.

Lemma search_files_bounded_witness :
  search_count two_matches = Z.of_nat (length (search_matches two_matches))
  /\ 1 <= search_count two_matches <= 2
  /\ search_pattern two_matches = "*"
  /\ exists ws, workspace_used (Some "u1") Listing.srv_files ws
                /\ Forall (matched (fun _ pattern => String.eqb pattern "*")
                             Listing.srv_files ws "*")
                     (search_matches two_matches).
Proof.
  apply (search_files_bounded (fun _ pattern => String.eqb pattern "*") "." "*" true 2
           (Some "u1") Listing.srv_files two_matches
           (snd (search_files (fun _ pattern => String.eqb pattern "*") "." "*" true 2
                   (Some "u1") Listing.srv_files))).
  apply run_Ret. vm_compute. reflexivity.
Defined.

End Searching.

(** ** shutil: copying and moving *)

Module Shutil.
Import PyStr PosixPath PyUuid Os.
Local Open Scope os_scope.

(** [repr(s)] of a [str]: the quote is the apostrophe unless the string
    has an apostrophe and no double quote; the quote and the backslash are
    escaped, control characters are written as escapes. Characters outside
    ASCII are taken to be printable and are kept. *)
Definition APOSTROPHE : ascii := "039"%char.
Definition DOUBLE_QUOTE : ascii := "034"%char.
Definition BACKSLASH : ascii := "092"%char.

Definition repr_char (quote a : ascii) : string :=
  let n := nat_of_ascii a in
  if eqb_ascii a quote || eqb_ascii a BACKSLASH then String BACKSLASH (String a EmptyString)
  else if Nat.eqb n 9 then String BACKSLASH "t"
  else if Nat.eqb n 10 then String BACKSLASH "n"
  else if Nat.eqb n 13 then String BACKSLASH "r"
  else if (n <? 32)%nat || Nat.eqb n 127 then
    String BACKSLASH
      (String "x" (String (hex_digit (Z.of_nat (n / 16)))
                     (String (hex_digit (Z.of_nat (n mod 16))) EmptyString)))
  else String a EmptyString.

Fixpoint repr_body (quote : ascii) (s : string) : string :=
  match s with
  | EmptyString => EmptyString
  | String a r => repr_char quote a +:+ repr_body quote r
  end.

Definition repr (s : string) : string :=
  let quote :=
    if mem_char APOSTROPHE s && negb (mem_char DOUBLE_QUOTE s) then DOUBLE_QUOTE
    else APOSTROPHE in
  String quote (repr_body quote s +:+ String quote EmptyString).

(** [shutil.Error] and its subclass [SameFileError] carry a message only.
    A function of this module hands such an exception to its caller as
    [Failed msg]; the caller passes it on to its own handler, where it is
    an [Exception] that is no [ValueError]. *)
Inductive raised (A : Type) :=
| Returned (a : A)
| Failed (msg : string).
Arguments Returned {A} a.
Arguments Failed {A} msg.

Definition EBUSY : Z := 16.
Definition EINVAL : Z := 22.

(** [shutil._samefile]: [os.path.samefile], and [False] when one of the
    two cannot be examined. Without links, two paths name the same file
    when they lead to the same entry. *)
Definition samefile (src dst : string) : M bool :=
  fun w =>
    (Ret (match fs w !! key_of w src, fs w !! key_of w dst with
          | Some _, Some _ => bool_decide (key_of w src = key_of w dst)
          | _, _ => false
          end), w).

(** [open(p, 'rb')] read to the end *)
Definition read_bytes (p : string) : M string :=
  fun w => match fs w !! key_of w p with
           | Some (IFile data) => (Ret data, w)
           | Some IDir => (Raise (OSError EISDIR p), w)
           | None => (Raise (OSError (missing_errno (fs w) (key_of w p)) p), w)
           end.

(** [open(p, 'wb')] followed by writing [data] *)
Definition write_bytes (p data : string) : M unit :=
  fun w =>
    let k := key_of w p in
    match fs w !! k with
    | Some IDir => (Raise (OSError EISDIR p), w)
    | _ =>
        match fs w !! parent k with
        | Some IDir => (Ret tt, set_fs w (<[k := IFile data]> (fs w)))
        | Some (IFile _) => (Raise (OSError ENOTDIR p), w)
        | None => (Raise (OSError (missing_errno (fs w) k) p), w)
        end
    end.

(** [shutil.copyfile(src, dst)]. There are no named pipes. When opening
    [dst] fails with [IsADirectoryError] the directory exists, so the
    error is raised again as it is. *)
Definition copyfile (src dst : string) : M (raised string) :=
  same <- samefile src dst ;;
  if same then ret (Failed (repr src +:+ " and " +:+ repr dst +:+ " are the same file"))
  else
    data <- read_bytes src ;;
    write_bytes dst data ;;;
    ret (Returned dst).

(** [shutil.copy2(src, dst)]; [copystat] has nothing to copy, the world
    keeps no times and no permission bits. *)
Definition copy2 (src dst : string) : M (raised string) :=
  d <- isdir dst ;;
  let dst := if d then join dst (basename src) else dst in
  copyfile src dst.

(** *** Renaming *)

(** [j] without its prefix [k] *)
Fixpoint strip_prefix (k j : list string) : option (list string) :=
  match k, j with
  | [], _ => Some j
  | x :: k', y :: j' => if String.eqb x y then strip_prefix k' j' else None
  | _ :: _, [] => None
  end.

(** The entries at and below [src], placed at and below [dst]. *)
Definition rekeyed (src dst : list string) (m : gmap (list string) inode)
  : gmap (list string) inode :=
  list_to_map
    (omap (fun kv : list string * inode =>
             match strip_prefix src (fst kv) with
             | Some rest => Some (dst ++ rest, snd kv)
             | None => None
             end)
       (map_to_list m)).

(** [rename(2)] on the tree: the new map, or the error number. *)
Definition rename_map (src dst : list string) (m : gmap (list string) inode)
  : Z + gmap (list string) inode :=
  match src, dst with
  | [], _ | _, [] => inl EBUSY
  | _, _ =>
      match m !! src with
      | None => inl (missing_errno m src)
      | Some i =>
          if bool_decide (src = dst) then inr m
          else
            match m !! parent dst with
            | None => inl (missing_errno m dst)
            | Some (IFile _) => inl ENOTDIR
            | Some IDir =>
                match i, m !! dst with
                | IFile data, Some IDir => inl EISDIR
                | IFile data, _ => inr (<[dst := IFile data]> (delete src m))
                | IDir, Some (IFile _) => inl ENOTDIR
                | IDir, target =>
                    if is_prefix src dst then inl EINVAL
                    else
                      match target, listdir_key m dst with
                      | Some _, _ :: _ => inl ENOTEMPTY
                      | _, _ => inr (rekeyed src dst m ∪ remove_tree src (delete dst m))
                      end
                end
            end
      end
  end.

(** [os.rename(src, dst)]; the error shows both paths. *)
Definition rename (src dst : string) : M unit :=
  fun w => match rename_map (key_of w src) (key_of w dst) (fs w) with
           | inr m => (Ret tt, set_fs w m)
           | inl errno => (Raise (OSError errno (src +:+ "' -> '" +:+ dst)), w)
           end.

(** [try: m except OSError: h] *)
Definition try_OSError {A} (m h : M A) : M A :=
  fun w => match m w with
           | (Raise (OSError _ _), w') => h w'
           | r => r
           end.

(** [shutil._basename] *)
Definition _basename (path : string) : string := basename (rstrip_char sep path).

(** [shutil._destinsrc] *)
Definition _destinsrc (src dst : string) : M bool :=
  cwd <- getcwd ;;
  let src := abspath cwd src in
  let dst := abspath cwd dst in
  let src := if endswith_char sep src then src else src +:+ "/" in
  let dst := if endswith_char sep dst then dst else dst +:+ "/" in
  ret (startswith src dst).

(** [shutil.copytree(src, dst, symlinks=True)] as [shutil.move] calls it:
    for a directory [src] and a [dst] that is not inside it. The entries
    of [src] are read, [dst] is created with [os.makedirs], which fails
    when it exists, and the tree is copied into it. Once [dst] is there
    every copy succeeds, so no list of errors is raised. *)
Definition copytree (src dst : string) : M (raised string) :=
  listdir src ;;;
  makedirs dst false ;;;
  (fun w => (Ret tt, set_fs w (rekeyed (key_of w src) (key_of w dst) (fs w) ∪ fs w))) ;;;
  ret (Returned dst).

(** [shutil.move(src, dst)]: the destination, or [None] when the source
    is the directory it is moved to. No file is immutable and the
    platform is not Darwin. *)
Definition move_to (src dst real_dst : string) : M (raised (option string)) :=
  try_OSError
    (rename src real_dst ;;; ret (Returned (Some real_dst)))
    (d <- isdir src ;;
     if d then
       inside <- _destinsrc src dst ;;
       if inside then
         ret (Failed ("Cannot move a directory '" +:+ src +:+ "' into itself '" +:+ dst
                        +:+ "'."))
       else
         r <- copytree src real_dst ;;
         match r with
         | Failed msg => ret (Failed msg)
         | Returned _ => rmtree src ;;; ret (Returned (Some real_dst))
         end
     else
       r <- copy2 src real_dst ;;
       match r with
       | Failed msg => ret (Failed msg)
       | Returned _ => remove src ;;; ret (Returned (Some real_dst))
       end).

Definition move (src dst : string) : M (raised (option string)) :=
  d <- isdir dst ;;
  if d then
    same <- samefile src dst ;;
    if same then rename src dst ;;; ret (Returned None)
    else
      let real_dst := join dst (_basename src) in
      ex <- path_exists real_dst ;;
      if ex then ret (Failed ("Destination path '" +:+ real_dst +:+ "' already exists"))
      else move_to src dst real_dst
  else move_to src dst dst.

End Shutil.

(** ** filesystem_server.py: copying, moving and creating directories *)

Module FileTools.
Import PyStr PosixPath PyUuid Os FilesystemServer Shutil.
Local Open Scope os_scope.
Local Open Scope Z_scope.

(** *** copy_file *)

Record copy_report := mk_copy_report {
  copied_source : string;
  copied_destination : string;
  copied_size : Z
}.

Definition copy_file (source destination : string) (user_id : option string)
  : M (reply copy_report) :=
  try_except
    (user_workspace <- get_user_workspace user_id ;;
     source_resolved <- resolve_user_path source user_id ;;
     dest_resolved <- resolve_user_path destination user_id ;;
     safe_source <- is_safe_path source_resolved user_workspace ;;
     safe_dest <- (if negb safe_source then ret false
                   else is_safe_path dest_resolved user_workspace) ;;
     if negb safe_source || negb safe_dest then
       ret (Message "Error: Access denied to one or both paths")
     else
     ex <- path_exists source_resolved ;;
     if negb ex then ret (Message ("Error: Source file does not exist: " +:+ source)) else
     f <- isfile source_resolved ;;
     if negb f then ret (Message ("Error: Source is not a file: " +:+ source)) else
     file_size <- getsize source_resolved ;;
     let file_size := Z.of_nat file_size in
     if file_size >? MAX_FILE_SIZE then
       ret (Message ("Error: File too large (" +:+ pretty file_size
                       +:+ " bytes). Maximum allowed: " +:+ pretty MAX_FILE_SIZE +:+ " bytes"))
     else
     let dest_dir := dirname dest_resolved in
     ex <- path_exists dest_dir ;;
     (if truthy dest_dir && negb ex then makedirs dest_dir false else ret tt) ;;;
     copied <- copy2 source_resolved dest_resolved ;;
     match copied with
     | Failed msg => ret (Message ("Error copying file: " +:+ msg))
     | Returned _ =>
         src_info <- get_file_info source_resolved ;;
         dest_info <- get_file_info dest_resolved ;;
         src_relative <- relpath_m source_resolved user_workspace ;;
         dest_relative <- relpath_m dest_resolved user_workspace ;;
         ret (Report {| copied_source := src_relative;
                        copied_destination := dest_relative;
                        copied_size := info_size dest_info |})
     end)
    (fun e => if is_ValueError e then Message ("Error: " +:+ str_exn e)
              else Message ("Error copying file: " +:+ str_exn e)).

(** *** move_file *)

Record move_report := mk_move_report {
  moved_from : string;
  moved_to : string;
  moved_size : Z
}.

Definition move_file (source destination : string) (user_id : option string)
  : M (reply move_report) :=
  try_except
    (user_workspace <- get_user_workspace user_id ;;
     source_resolved <- resolve_user_path source user_id ;;
     dest_resolved <- resolve_user_path destination user_id ;;
     safe_source <- is_safe_path source_resolved user_workspace ;;
     safe_dest <- (if negb safe_source then ret false
                   else is_safe_path dest_resolved user_workspace) ;;
     if negb safe_source || negb safe_dest then
       ret (Message "Error: Access denied to one or both paths")
     else
     ex <- path_exists source_resolved ;;
     if negb ex then ret (Message ("Error: Source file does not exist: " +:+ source)) else
     let dest_dir := dirname dest_resolved in
     ex <- path_exists dest_dir ;;
     (if truthy dest_dir && negb ex then makedirs dest_dir false else ret tt) ;;;
     old_info <- get_file_info source_resolved ;;
     moved <- move source_resolved dest_resolved ;;
     match moved with
     | Failed msg => ret (Message ("Error moving file: " +:+ msg))
     | Returned _ =>
         new_info <- get_file_info dest_resolved ;;
         src_relative <- (if negb (String.eqb source source_resolved)
                          then relpath_m source user_workspace
                          else ret source) ;;
         dest_relative <- relpath_m dest_resolved user_workspace ;;
         ret (Report {| moved_from := src_relative;
                        moved_to := dest_relative;
                        moved_size := info_size new_info |})
     end)
    (fun e => if is_ValueError e then Message ("Error: " +:+ str_exn e)
              else Message ("Error moving file: " +:+ str_exn e)).

(** *** create_directory *)

(** The block of debugging lines that [create_directory] builds and adds
    to some of its answers. The line of permission bits comes from
    [os.stat] and is left out, as are the lines printed to the standard
    output. *)
Record debug_info := mk_debug_info {
  debug_path : string;
  debug_workspace : string;
  debug_resolved : string;
  debug_workspace_exists : bool;
  debug_workspace_is_dir : option bool
}.

(** The answers of [create_directory]: the report of a created directory
    (its path; the creation time and the permission bits are left out), a
    plain message, or a message followed by the debugging block. *)
Inductive creation :=
| Created (path : string)
| Answer (text : string)
| AnswerWithDebug (text : string) (info : debug_info).

Definition EPERM : Z := 1.
Definition EACCES : Z := 13.

(** [os.access(p, os.W_OK)]: without permission bits, what exists can be
    written. *)
Definition access_W_OK (p : string) : M bool := path_exists p.

Definition create_directory (path : string) (parents : bool) (user_id : option string)
  : M creation :=
  try_except
    (user_workspace <- get_user_workspace user_id ;;
     resolved_path <- resolve_user_path path user_id ;;
     ws_exists <- path_exists user_workspace ;;
     ws_is_dir <- (if ws_exists then d <- isdir user_workspace ;; ret (Some d)
                   else ret None) ;;
     let debug := {| debug_path := path;
                     debug_workspace := user_workspace;
                     debug_resolved := resolved_path;
                     debug_workspace_exists := ws_exists;
                     debug_workspace_is_dir := ws_is_dir |} in
     safe <- is_safe_path resolved_path user_workspace ;;
     if negb safe then
       ret (AnswerWithDebug ("Error: Access denied to path: " +:+ path) debug)
     else
     ex <- path_exists resolved_path ;;
     if ex then ret (Answer ("Error: Path already exists: " +:+ path)) else
     ws_exists <- path_exists user_workspace ;;
     failed <- (if negb ws_exists then
                  try_except (makedirs user_workspace true ;;; ret None)
                    (fun workspace_error =>
                       Some (AnswerWithDebug
                               ("Error: Cannot create user workspace: "
                                  +:+ str_exn workspace_error) debug))
                else ret None) ;;
     match failed with
     | Some answer => ret answer
     | None =>
         writable <- access_W_OK user_workspace ;;
         if negb writable then
           ret (AnswerWithDebug
                  ("Error: No write permission to user workspace: " +:+ user_workspace) debug)
         else
         failed <- (fun w =>
                      match (if parents then makedirs resolved_path true
                             else mkdir resolved_path) w with
                      | (Raise (OSError errno filename), w') =>
                          let os_error := OSError errno filename in
                          if (errno =? EPERM) || (errno =? EACCES) then
                            (Ret (Some (AnswerWithDebug
                                          ("Error: Permission denied when creating directory: "
                                             +:+ str_exn os_error) debug)), w')
                          else
                            (Ret (Some (AnswerWithDebug
                                          ("Error: OS error when creating directory: "
                                             +:+ str_exn os_error) debug)), w')
                      | (Raise e, w') => (Raise e, w')
                      | (Ret _, w') => (Ret None, w')
                      end) ;;
         match failed with
         | Some answer => ret answer
         | None =>
             info <- get_file_info resolved_path ;;
             relative_path <- relpath_m resolved_path user_workspace ;;
             ret (Created relative_path)
         end
     end)
    (fun e => if is_ValueError e then Answer ("Error: " +:+ str_exn e)
              else Answer ("Error creating directory: " +:+ str_exn e)).

End FileTools.

(** ** Resolved paths and their directories *)

Module PathShape.
Import PyStr PosixPath PyUuid Os FilesystemServer PathFacts OsFacts ResolverFacts.
Import Reading IdentifierFacts.

(** A normalised absolute path: one or two slashes and the components,
    joined by single slashes. *)
Definition normal_shape (p : string) (comps : list string) : Prop :=
  exists k, (k = 1 \/ k = 2) /\ Forall norm_comp comps
            /\ p = repeat_sep k +:+ PyStr.join "/" comps.

Lemma abspath_normal_shape c p :
  isabs c = true -> exists comps, normal_shape (abspath c p) comps.
Proof.
  intros Hc. unfold abspath.
  destruct (normpath_abs_shape (if isabs p then p else join c p)) as (k & comps & Hk & Hall & E).
  { destruct (isabs p) eqn:Ep; [exact Ep | apply join_isabs; exact Hc]. }
  exists comps, k. auto.
Qed.

Lemma key_of_normal w p comps : normal_shape p comps -> key_of w p = comps.
Proof.
  intros (k & Hk & Hall & ->). unfold key_of, abspath.
  assert (isabs (repeat_sep k +:+ PyStr.join "/" comps) = true) as Ha
    by (destruct Hk as [-> | ->]; reflexivity).
  rewrite Ha. rewrite normpath_shape_fixed by assumption.
  apply components_shape. exact Hall.
Qed.

Lemma split_last_snoc (h n : string) :
  mem_char sep n = false ->
  split_last sep (h +:+ String sep n) = (h +:+ String sep "", n).
Proof.
  intros Hn.
  assert (split_last sep n = ("", n)) as Hsn.
  { destruct n as [|a n]; [reflexivity|]. cbn [split_last].
    destruct (split_last sep n). rewrite Hn. reflexivity. }
  induction h as [|a h IH].
  - change ("" +:+ String sep n) with (String sep n).
    cbn [split_last]. rewrite Hsn.
    cbn [mem_char]. rewrite eqb_ascii_refl. reflexivity.
  - rewrite !append_cons. cbn [split_last]. rewrite IH.
    assert (mem_char sep (String a (h +:+ String sep n)) = true) as Hm.
    { cbn [mem_char]. rewrite mem_char_app. cbn [mem_char]. rewrite eqb_ascii_refl.
      rewrite orb_true_r. apply orb_true_r. }
    rewrite Hm. reflexivity.
Qed.

Lemma all_sep_app a b : all_sep (a +:+ b) = all_sep a && all_sep b.
Proof.
  induction a as [|x a IH]; [reflexivity|]. rewrite append_cons. cbn [all_sep].
  rewrite IH. apply andb_assoc.
Qed.

Lemma all_sep_repeat_sep k : all_sep (repeat_sep k) = true.
Proof. induction k as [|k IH]; [reflexivity|]. cbn [repeat_sep all_sep]. rewrite IH. reflexivity. Qed.

Lemma join_norm_not_all_sep x xs :
  norm_comp x -> all_sep (PyStr.join "/" (x :: xs)) = false.
Proof.
  intros (Hne & _ & _ & Hs). destruct x as [|a x]; [congruence|].
  cbn [mem_char] in Hs. apply orb_false_iff in Hs as [Ha _].
  destruct xs as [|y ys].
  - cbn [PyStr.join all_sep]. rewrite Ha. reflexivity.
  - change (PyStr.join "/" (String a x :: y :: ys))
      with (String a x +:+ "/" +:+ PyStr.join "/" (y :: ys)).
    rewrite append_cons. cbn [all_sep]. rewrite Ha. reflexivity.
Qed.

Lemma rstrip_char_snoc c (y : string) :
  y <> "" -> endswith_char c y = false -> rstrip_char c (y +:+ String c "") = y.
Proof.
  induction y as [|a y IH]; [congruence|]. intros _ He.
  rewrite append_cons. cbn [rstrip_char].
  destruct y as [|b y].
  - change ("" +:+ String c "") with (String c ""). cbn [rstrip_char].
    rewrite eqb_ascii_refl. cbn [endswith_char] in He. rewrite He. reflexivity.
  - rewrite IH; [reflexivity | discriminate |]. exact He.
Qed.

Lemma endswith_char_mem c s : mem_char c s = false -> endswith_char c s = false.
Proof.
  induction s as [|a s IH]; [reflexivity|]. cbn [mem_char]. intros H.
  apply orb_false_iff in H as [Ha Hs]. cbn [endswith_char].
  destruct s; [exact Ha | exact (IH Hs)].
Qed.

Lemma join_norm_nonempty x xs : norm_comp x -> PyStr.join "/" (x :: xs) <> "".
Proof.
  intros (Hne & _). destruct x as [|a x]; [congruence|].
  destruct xs; [discriminate|].
  change (PyStr.join "/" (String a x :: s :: xs))
    with (String a x +:+ "/" +:+ PyStr.join "/" (s :: xs)).
  rewrite append_cons. discriminate.
Qed.

Lemma join_norm_no_trailing_sep x xs :
  Forall norm_comp (x :: xs) -> endswith_char sep (PyStr.join "/" (x :: xs)) = false.
Proof.
  revert x. induction xs as [|y ys IH]; intros x H.
  - inversion H as [|? ? (Hne & _ & _ & Hs) _]; subst. cbn [PyStr.join].
    apply endswith_char_mem. exact Hs.
  - inversion H as [|? ? Hx Hr]; subst.
    change (PyStr.join "/" (x :: y :: ys)) with (x +:+ "/" +:+ PyStr.join "/" (y :: ys)).
    rewrite <- append_assoc.
    specialize (IH y Hr).
    inversion Hr as [|? ? Hy _]; subst.
    pose proof (join_norm_nonempty y ys Hy) as Hne.
    destruct (PyStr.join "/" (y :: ys)) as [|a r] eqn:E; [congruence|].
    rewrite endswith_char_app. exact IH.
Qed.

(** The directory of a normalised absolute path is the path of all but
    its last component. *)
Lemma dirname_normal p comps :
  normal_shape p comps -> normal_shape (dirname p) (removelast comps).
Proof.
  intros (k & Hk & Hall & ->).
  destruct comps as [|x xs] using rev_ind.
  - exists k. split; [exact Hk|]. split; [constructor|].
    destruct Hk as [-> | ->]; reflexivity.
  - clear IHxs. rewrite removelast_last.
    apply Forall_app in Hall as (Hxs & Hx). inversion Hx as [|? ? Hx' _]; subst.
    assert (mem_char sep x = false) as Hsx by (destruct Hx' as (_ & _ & _ & H); exact H).
    exists k. split; [exact Hk|]. split; [exact Hxs|].
    unfold dirname, split_path.
    destruct xs as [|y ys].
    + cbn [app PyStr.join].
      assert (exists r, repeat_sep k = r +:+ String sep "") as (r & Hr).
      { destruct Hk as [-> | ->]; [exists "" | exists "/"]; reflexivity. }
      assert (repeat_sep k +:+ x = r +:+ String sep x) as Hp
        by (rewrite Hr, append_assoc; reflexivity).
      rewrite Hp, split_last_snoc by exact Hsx. rewrite <- Hr. cbv beta iota. cbn [fst].
      rewrite all_sep_repeat_sep. rewrite andb_false_r. rewrite append_nil_r. reflexivity.
    + assert (repeat_sep k +:+ PyStr.join "/" ((y :: ys) ++ [x])
              = (repeat_sep k +:+ PyStr.join "/" (y :: ys)) +:+ String sep x) as Hp.
      { rewrite join_snoc. rewrite !append_assoc. reflexivity. }
      rewrite Hp, split_last_snoc by exact Hsx. cbv beta iota. cbn [fst].
      assert (truthy ((repeat_sep k +:+ PyStr.join "/" (y :: ys)) +:+ String sep "") = true)
        as Ht by (destruct Hk as [-> | ->]; reflexivity).
      rewrite Ht. rewrite all_sep_app, all_sep_app.
      inversion Hxs as [|? ? Hy _]; subst.
      rewrite (join_norm_not_all_sep y ys Hy). rewrite andb_false_r. cbn [andb negb].
      apply rstrip_char_snoc.
      * destruct Hk as [-> | ->]; discriminate.
      * pose proof (join_norm_no_trailing_sep y ys Hxs) as He.
        pose proof (join_norm_nonempty y ys Hy) as Hne.
        destruct (PyStr.join "/" (y :: ys)) as [|a r] eqn:E; [congruence|].
        rewrite endswith_char_app. exact He.
Qed.

Lemma key_of_dirname w p comps :
  normal_shape p comps -> key_of w (dirname p) = parent (key_of w p).
Proof.
  intros H. rewrite (key_of_normal w p comps H).
  apply key_of_normal. apply dirname_normal. exact H.
Qed.

(** The path that [resolve_user_path] returns has this shape. *)
Lemma target_normal w u path : exists comps, normal_shape (target_of w u path) comps.
Proof. apply abspath_normal_shape. apply cwd_isabs. Qed.

Lemma key_of_dirname_target w w' u path :
  key_of w' (dirname (target_of w u path)) = parent (key_of w' (target_of w u path)).
Proof.
  destruct (target_normal w u path) as (comps & H). eapply key_of_dirname. exact H.
Qed.

End PathShape.

(** ** create_directory *)

Module Directories.
Import PyStr PosixPath PyUuid Os FilesystemServer PathFacts OsFacts ResolverFacts Scenario.
Import ToolFacts Traversal Roundtrip Resolution Removal Shutil FileTools PathShape.

(** The debugging block of a call whose workspace is in place. *)
Definition debug_of (u path p : string) : debug_info :=
  {| debug_path := path;
     debug_workspace := workspace_of u;
     debug_resolved := p;
     debug_workspace_exists := true;
     debug_workspace_is_dir := Some true |}.








(** A resolved path is never the root. *)
Lemma startswith_length p s : startswith p s = true -> String.length p <= String.length s.
Proof.
  intros H. destruct (Anonymous.startswith_split p s H) as (r & ->).
  rewrite IdentifierFacts.string_length_app. lia.
Qed.

Lemma target_key_nonempty u path w p w1 :
  truthy u = true -> resolve_user_path path (Some u) w = (Ret p, w1) -> key_of w1 p <> [].
Proof.
  intros Hu Hr E.
  destruct (resolve_user_path_Ret u path w p w1 Hu Hr) as (_ & Hpt & Hstart).
  destruct (target_normal w u path) as (comps & Hshape). rewrite <- Hpt in Hshape.
  rewrite (key_of_normal w1 p comps Hshape) in E. subst comps.
  destruct Hshape as (k & Hk & _ & Hp).
  destruct (IdentifierFacts.workspace_shape (cwd w) (cwd_isabs w))
    as (k' & comps & Hk' & Hall & Hne & _ & Hws).
  destruct (Hws _ (IdentifierFacts.canonical_id_norm_comp u)) as (Habs & _).
  apply startswith_length in Hstart. unfold workspace_abs_of, workspace_of in Hstart.
  rewrite Habs, Hp in Hstart.
  rewrite !IdentifierFacts.string_length_app in Hstart.
  destruct comps as [|c cs]; [congruence|].
  inversion Hall as [|? ? (Hc & _) _]; subst.
  assert (1 <= String.length (PyStr.join "/" (c :: cs))) as Hj.
  { destruct c as [|a c]; [congruence|]. destruct cs as [|c' cs].
    - simpl. lia.
    - change (PyStr.join "/" (String a c :: c' :: cs))
        with (String a c +:+ "/" +:+ PyStr.join "/" (c' :: cs)).
      rewrite Reading.append_cons. simpl. lia. }
  assert (String.length (repeat_sep k) <= 2) by (destruct Hk as [-> | ->]; simpl; lia).
  assert (1 <= String.length (repeat_sep k')) by (destruct Hk' as [-> | ->]; simpl; lia).
  change (String.length "/") with 1 in Hstart.
  change (String.length (PyStr.join "/" [])) with 0 in Hstart. lia.
Qed.













(** A directory below a directory that is missing: the request ["a/b"]
    in a new workspace. *)
Example create_directory_below_nothing :
  fst (create_directory "a/b" false (Some "u1") srv)
  = Ret (AnswerWithDebug
           ("Error: OS error when creating directory: [Errno 2] No such file or directory: "
              +:+ "'/srv/user-workspaces/db6cd388-0abf-538a-8503-dd3358d93458/a/b'")
           (debug_of "u1" "a/b"
              "/srv/user-workspaces/db6cd388-0abf-538a-8503-dd3358d93458/a/b")).
Proof. vm_compute. reflexivity. Qed.

(** A directory below a file of the workspace: the request ["f.txt/a/b"]
    when [f.txt] is a file. *)
Example create_directory_below_a_file :
  fst (create_directory "f.txt/a/b" false (Some "u1") (Reading.srv_with "f.txt" "x"))
  = Ret (AnswerWithDebug
           ("Error: OS error when creating directory: [Errno 20] Not a directory: "
              +:+ "'/srv/user-workspaces/db6cd388-0abf-538a-8503-dd3358d93458/f.txt/a/b'")
           (debug_of "u1" "f.txt/a/b"
              "/srv/user-workspaces/db6cd388-0abf-538a-8503-dd3358d93458/f.txt/a/b")).
Proof. vm_compute. reflexivity. Qed.




End Directories.

(** ** Requests made of plain names *)

Module PlainPaths.
Import PyStr PosixPath PyUuid Os FilesystemServer PathFacts OsFacts ResolverFacts.
Import Reading IdentifierFacts Resolution PathShape Directories.

Lemma join_app x xs y ys :
  PyStr.join "/" ((x :: xs) ++ (y :: ys))
  = PyStr.join "/" (x :: xs) +:+ "/" +:+ PyStr.join "/" (y :: ys).
Proof.
  revert x. induction xs as [|z zs IH]; intros x; [reflexivity|].
  change ((x :: z :: zs) ++ y :: ys) with (x :: ((z :: zs) ++ y :: ys)).
  change (PyStr.join "/" (x :: (z :: zs) ++ y :: ys))
    with (x +:+ "/" +:+ PyStr.join "/" ((z :: zs) ++ y :: ys)).
  rewrite IH.
  change (PyStr.join "/" (x :: z :: zs)) with (x +:+ "/" +:+ PyStr.join "/" (z :: zs)).
  rewrite !app_assoc_s. reflexivity.
Qed.

(** Plain names appended to an absolute path are appended to its
    normalised components. *)
Lemma norm_parts_app Y comps :
  isabs Y = true -> endswith_char sep Y = false -> Forall norm_comp comps -> comps <> [] ->
  norm_parts (Y +:+ "/" +:+ PyStr.join "/" comps)
  = (fst (norm_parts Y), snd (norm_parts Y) ++ comps).
Proof.
  intros Ha He. induction comps as [|n xs IH] using rev_ind; [congruence|].
  intros Hall _. apply Forall_app in Hall as (Hxs & Hn).
  inversion Hn as [|? ? Hn' _]; subst.
  destruct xs as [|x xs].
  - cbn [app PyStr.join]. change (Y +:+ "/" +:+ n) with (Y +:+ String sep n).
    apply norm_parts_snoc; assumption.
  - rewrite join_snoc.
    replace (Y +:+ "/" +:+ PyStr.join "/" (x :: xs) +:+ "/" +:+ n)
      with ((Y +:+ "/" +:+ PyStr.join "/" (x :: xs)) +:+ String sep n)
      by (rewrite !app_assoc_s; reflexivity).
    rewrite norm_parts_snoc.
    + rewrite IH by (assumption || discriminate). cbn [fst snd].
      rewrite <- app_assoc. reflexivity.
    + unfold isabs in *. apply startswith_app_r. exact Ha.
    + inversion Hxs as [|? ? Hx _]; subst.
      pose proof (join_norm_no_trailing_sep x xs Hxs) as Ht.
      pose proof (join_norm_nonempty x xs Hx) as Hne.
      destruct (PyStr.join "/" (x :: xs)) as [|a r] eqn:E; [congruence|].
      rewrite <- app_assoc_s. rewrite endswith_char_app. exact Ht.
    + exact Hn'.
Qed.

(** A trailing slash changes nothing. *)
Lemma norm_parts_trailing Y :
  isabs Y = true -> endswith_char sep Y = false ->
  norm_parts (Y +:+ "/") = norm_parts Y.
Proof.
  intros Ha He. unfold norm_parts.
  rewrite initial_slashes_snoc by assumption.
  change (Y +:+ "/") with (Y +:+ String sep "").
  rewrite split_snoc by reflexivity.
  rewrite fold_left_app. reflexivity.
Qed.

(** The path that [os.path.abspath] normalises for a workspace. *)
Definition stem (c n : string) : string :=
  (if endswith_char sep c then c +:+ "." else c +:+ "/.")
    +:+ "/user-workspaces" +:+ "/" +:+ n.

Lemma stem_facts c n :
  isabs c = true -> norm_comp n ->
  isabs (stem c n) = true
  /\ endswith_char sep (stem c n) = false
  /\ abspath c (join USER_WORKSPACE_BASE n) = normpath (stem c n)
  /\ (forall t, isabs t = false ->
        abspath c (join (join USER_WORKSPACE_BASE n) t) = normpath (stem c n +:+ "/" +:+ t)).
Proof.
  intros Hc Hn.
  assert (mem_char sep n = false) as Hs by (destruct Hn as (_ & _ & _ & H); exact H).
  assert (exists a r, n = String a r) as (a & r & En)
    by (destruct n as [|a r]; [destruct Hn as (H & _); congruence | eauto]).
  assert (truthy c = true) as Ht by (destruct c; [discriminate | reflexivity]).
  assert (forall t, join c ("./" +:+ t)
                    = (if endswith_char sep c then c +:+ "." else c +:+ "/.") +:+ "/" +:+ t)
    as Hjoin.
  { intros t. unfold join. cbn [startswith eqb_ascii Ascii.eqb Bool.eqb andb].
    rewrite Ht. cbn [negb orb].
    destruct (endswith_char sep c); rewrite !app_assoc_s; reflexivity. }
  assert (join USER_WORKSPACE_BASE n = "./" +:+ "user-workspaces/" +:+ n) as Hj.
  { unfold join. rewrite (no_sep_not_abs n Hs). reflexivity. }
  assert (endswith_char sep (join USER_WORKSPACE_BASE n) = false) as Hje.
  { rewrite Hj, En.
    change ("./" +:+ "user-workspaces/" +:+ String a r)
      with ("./user-workspaces/" +:+ String a r).
    rewrite endswith_char_app. rewrite <- En. apply endswith_char_mem. exact Hs. }
  split; [|split; [|split]].
  - unfold stem, isabs in *. destruct (endswith_char sep c);
      repeat apply startswith_app_r; exact Hc.
  - unfold stem. rewrite En.
    set (Y0 := if endswith_char sep c then c +:+ "." else c +:+ "/.").
    change (Y0 +:+ "/user-workspaces" +:+ "/" +:+ String a r)
      with (Y0 +:+ "/user-workspaces/" +:+ String a r).
    rewrite <- app_assoc_s. rewrite endswith_char_app.
    rewrite <- En. apply endswith_char_mem. exact Hs.
  - unfold abspath. rewrite Hj.
    change (isabs ("./" +:+ "user-workspaces/" +:+ n)) with false. cbv iota.
    rewrite Hjoin. reflexivity.
  - intros t Hta. unfold abspath.
    assert (join (join USER_WORKSPACE_BASE n) t = "./" +:+ "user-workspaces/" +:+ n +:+ "/" +:+ t)
      as Hjt.
    { unfold join at 1. unfold isabs in Hta. rewrite Hta, Hje.
      assert (truthy (join USER_WORKSPACE_BASE n) = true) as Htw by (rewrite Hj; reflexivity).
      rewrite Htw. cbn [negb orb]. rewrite Hj. rewrite !app_assoc_s. reflexivity. }
    rewrite Hjt.
    change (isabs ("./" +:+ "user-workspaces/" +:+ n +:+ "/" +:+ t)) with false. cbv iota.
    rewrite Hjoin. unfold stem. rewrite !app_assoc_s. reflexivity.
Qed.

(** Where a request of plain names lands: below the workspace, at those
    names. *)
Lemma target_plain w u comps :
  Forall norm_comp comps -> comps <> [] ->
  target_of w u (PyStr.join "/" comps) = workspace_abs_of w u +:+ "/" +:+ PyStr.join "/" comps
  /\ forall w', cwd w' = cwd w ->
       key_of w' (target_of w u (PyStr.join "/" comps)) = key_of w' (workspace_of u) ++ comps.
Proof.
  intros Hall Hne.
  destruct (stem_facts (cwd w) (canonical_id u) (cwd_isabs w) (canonical_id_norm_comp u))
    as (Ha & He & Hws & Hsub).
  pose proof (join_head_not_sep comps Hall) as Hrel.
  assert (relative_part (PyStr.join "/" comps) = PyStr.join "/" comps) as Hrp
    by (unfold relative_part, isabs; rewrite Hrel; reflexivity).
  set (Y := stem (cwd w) (canonical_id u)) in *.
  pose proof (norm_parts_comps Y Ha) as HA.
  pose proof (norm_parts_app Y comps Ha He Hall Hne) as Happ.
  assert (isabs (Y +:+ "/" +:+ PyStr.join "/" comps) = true) as Ha'
    by (unfold isabs in *; apply startswith_app_r; exact Ha).
  destruct (norm_parts Y) as [k A] eqn:EY. cbn [fst snd] in *.
  assert (k = 1 \/ k = 2) as Hk.
  { unfold norm_parts in EY. injection EY as <- _. apply initial_slashes_abs. exact Ha. }
  assert (workspace_abs_of w u = repeat_sep k +:+ PyStr.join "/" A) as Hwa.
  { unfold workspace_abs_of, workspace_of. rewrite Hws. fold Y.
    rewrite (normpath_parts Y Ha), EY. reflexivity. }
  assert (A <> []) as HAne.
  { destruct (workspace_shape (cwd w) (cwd_isabs w)) as (k' & cs & _ & Hcs & _ & _ & Hn').
    destruct (Hn' _ (canonical_id_norm_comp u)) as (_ & Hcomp).
    intros ->. unfold workspace_abs_of, workspace_of in Hwa. rewrite Hwa in Hcomp.
    rewrite components_shape in Hcomp by constructor. destruct cs; discriminate. }
  assert (target_of w u (PyStr.join "/" comps)
          = repeat_sep k +:+ PyStr.join "/" (A ++ comps)) as Htg.
  { unfold target_of, workspace_of. rewrite Hrp, (Hsub _ Hrel). fold Y.
    rewrite (normpath_parts _ Ha'), Happ. reflexivity. }
  split.
  - rewrite Htg, Hwa. destruct A as [|x xs]; [congruence|].
    destruct comps as [|y ys]; [congruence|].
    rewrite join_app. rewrite !app_assoc_s. reflexivity.
  - intros w' Hc.
    assert (key_of w' (workspace_of u) = A) as ->.
    { unfold key_of. rewrite Hc. fold (workspace_abs_of w u). rewrite Hwa.
      apply components_shape. exact HA. }
    rewrite Htg. apply (key_of_normal w'). exists k. split; [exact Hk|]. split; [|reflexivity].
    apply Forall_app; split; assumption.
Qed.

(** An empty request lands on the workspace itself. *)
Lemma target_empty w u : target_of w u "" = workspace_abs_of w u.
Proof.
  destruct (stem_facts (cwd w) (canonical_id u) (cwd_isabs w) (canonical_id_norm_comp u))
    as (Ha & He & Hws & Hsub).
  unfold target_of, workspace_abs_of, workspace_of.
  change (relative_part "") with "". rewrite (Hsub "" eq_refl), Hws.
  set (Y := stem (cwd w) (canonical_id u)) in *.
  change (Y +:+ "/" +:+ "") with (Y +:+ "/").
  assert (isabs (Y +:+ "/") = true) as Ha'
    by (unfold isabs in *; apply startswith_app_r; exact Ha).
  rewrite (normpath_parts _ Ha'), (normpath_parts _ Ha), norm_parts_trailing by assumption.
  reflexivity.
Qed.

(** A request never resolves to itself. *)
Lemma resolved_differs u path w p w1 :
  truthy u = true -> resolve_user_path path (Some u) w = (Ret p, w1) -> path <> p.
Proof.
  intros Hu Hr E.
  pose proof (target_key_nonempty u path w p w1 Hu Hr) as Hne.
  destruct (resolve_user_path_Ret u path w p w1 Hu Hr) as (Hg & Hpt & _).
  pose proof (get_user_workspace_cwd _ _ _ _ Hg) as Hc.
  destruct (target_normal w u path) as (comps & Hshape). rewrite <- Hpt in Hshape.
  pose proof (key_of_normal w1 p comps Hshape) as Hk. rewrite Hk in Hne.
  destruct Hshape as (k & Hk12 & Hall & Hp).
  assert (relative_part path = PyStr.join "/" comps) as Hrp.
  { rewrite E, Hp, relative_part_repeat_sep. unfold relative_part, isabs.
    rewrite (join_head_not_sep comps Hall). reflexivity. }
  assert (target_of w u path = target_of w u (PyStr.join "/" comps)) as Ht.
  { unfold target_of. rewrite Hrp. unfold relative_part, isabs.
    rewrite (join_head_not_sep comps Hall). reflexivity. }
  destruct (target_plain w u comps Hall Hne) as (_ & Hkey).
  specialize (Hkey w1 Hc). rewrite <- Ht, <- Hpt, Hk in Hkey.
  apply (f_equal (@length string)) in Hkey. rewrite length_app in Hkey.
  assert (length (key_of w1 (workspace_of u)) <> 0).
  { destruct (workspace_shape (cwd w1) (cwd_isabs w1)) as (k' & cs & _ & _ & _ & _ & Hn').
    destruct (Hn' _ (canonical_id_norm_comp u)) as (_ & Hcomp).
    unfold key_of, workspace_of. rewrite Hcomp. rewrite length_app. simpl. lia. }
  lia.
Qed.

(** X16. For a supplied user whose workspace can be obtained, a request
    made of plain names (none empty, [.] or [..], none with a slash),
    joined by slashes, resolves to the absolute path of the workspace, a
    slash and the request; in the tree that is the workspace's place
    extended by those names. The empty request resolves to the workspace
    itself. *)
Theorem resolve_user_path_plain u comps w ws w1 :
  truthy u = true -> Forall norm_comp comps -> comps <> [] ->
  get_user_workspace (Some u) w = (Ret ws, w1) ->
  resolve_user_path (PyStr.join "/" comps) (Some u) w
  = (Ret (abspath (cwd w) ws +:+ "/" +:+ PyStr.join "/" comps), w1)
  /\ key_of w1 (abspath (cwd w) ws +:+ "/" +:+ PyStr.join "/" comps) = key_of w1 ws ++ comps
  /\ resolve_user_path "" (Some u) w = (Ret (abspath (cwd w) ws), w1).
Proof.
  intros Hu Hall Hne Hg.
  destruct (get_user_workspace_Ret u w ws w1 Hu Hg) as (-> & _).
  pose proof (get_user_workspace_cwd _ _ _ _ Hg) as Hc.
  destruct (target_plain w u comps Hall Hne) as (Ht & Hk).
  fold (workspace_abs_of w u). rewrite <- Ht.
  split; [|split].
  - rewrite resolve_user_path_unfold, Hg. cbv zeta. rewrite Hc.
    fold (target_of w u (PyStr.join "/" comps)). fold (workspace_abs_of w u).
    rewrite Ht, startswith_app. reflexivity.
  - apply Hk. exact Hc.
  - rewrite resolve_user_path_unfold, Hg. cbv zeta. rewrite Hc.
    fold (target_of w u ""). fold (workspace_abs_of w u).
    rewrite target_empty, startswith_refl. reflexivity.
Qed.

Lemma resolve_user_path_plain_witness :
  resolve_user_path (PyStr.join "/" ["docs"; "a.txt"]) (Some "u1") Scenario.srv
  = (Ret (abspath (cwd Scenario.srv) (workspace_of "u1") +:+ "/" +:+ PyStr.join "/" ["docs"; "a.txt"]),
     Scenario.srv_u1)
  /\ key_of Scenario.srv_u1
       (abspath (cwd Scenario.srv) (workspace_of "u1") +:+ "/" +:+ PyStr.join "/" ["docs"; "a.txt"])
     = key_of Scenario.srv_u1 (workspace_of "u1") ++ ["docs"; "a.txt"]
  /\ resolve_user_path "" (Some "u1") Scenario.srv
     = (Ret (abspath (cwd Scenario.srv) (workspace_of "u1")), Scenario.srv_u1).
Proof.
  apply (resolve_user_path_plain "u1" ["docs"; "a.txt"] Scenario.srv (workspace_of "u1")
           Scenario.srv_u1 eq_refl).
  - repeat constructor; discriminate.
  - discriminate.
  - apply run_Ret. vm_compute. reflexivity.
Defined.

End PlainPaths.

(** ** copy_file and move_file *)

Module Transfers.
Import PyStr PosixPath PyUuid Os FilesystemServer PathFacts OsFacts ResolverFacts Scenario.
Import ToolFacts Traversal Roundtrip Resolution Shutil FileTools PathShape Directories PlainPaths.

(** Both tools begin alike: the workspace, the two resolved paths and the
    two containment tests. *)
Lemma two_paths_prelude u source destination w w1 ps pd :
  truthy u = true ->
  resolve_user_path source (Some u) w = (Ret ps, w1) ->
  fst (resolve_user_path destination (Some u) w) = Ret pd ->
  get_user_workspace (Some u) w = (Ret (workspace_of u), w1)
  /\ resolve_user_path source (Some u) w1 = (Ret ps, w1)
  /\ resolve_user_path destination (Some u) w1 = (Ret pd, w1)
  /\ is_safe_path ps (workspace_of u) w1 = (Ret true, w1)
  /\ is_safe_path pd (workspace_of u) w1 = (Ret true, w1)
  /\ key_of w1 (dirname pd) = parent (key_of w1 pd)
  /\ truthy ps = true /\ truthy pd = true.
Proof.
  intros Hu Hs Hd. apply run_Ret in Hd.
  destruct (tool_prelude u source w ps w1 Hu Hs) as (Hg & Hs1 & Hss).
  destruct (resolve_user_path_Ret u source w ps w1 Hu Hs) as (_ & Hps & _).
  destruct (resolve_user_path_Ret u destination w pd _ Hu Hd) as (Hg' & Hpd & _).
  assert (snd (resolve_user_path destination (Some u) w) = w1) as Hw by congruence.
  rewrite Hw in Hd.
  destruct (tool_prelude u destination w pd w1 Hu Hd) as (_ & Hd1 & Hsd).
  repeat split; try assumption.
  - rewrite Hpd. apply key_of_dirname_target.
  - rewrite Hps. apply target_truthy.
  - rewrite Hpd. apply target_truthy.
Qed.

(** The steps through that common beginning. *)
Ltac two_paths Hg Hs1 Hd1 Hss Hsd :=
  rewrite (bind_Ret _ _ _ _ _ Hg); cbv beta;
  rewrite (bind_Ret _ _ _ _ _ Hs1); cbv beta;
  rewrite (bind_Ret _ _ _ _ _ Hd1); cbv beta;
  rewrite (bind_Ret _ _ _ _ _ Hss); cbv beta; cbn [negb];
  rewrite (bind_Ret _ _ _ _ _ Hsd); cbv beta; cbn [negb orb].

Lemma bind_getsize {B} p (k : nat -> M B) w i :
  fs w !! key_of w p = Some i -> bind (getsize p) k w = k (inode_size i) w.
Proof. intros H. unfold bind, getsize. rewrite H. reflexivity. Qed.

(** *** shutil.copy2 *)



(** *** copy_file *)





(** *** shutil.move *)

Lemma rename_map_file (ks kd : list string) (m : gmap (list string) inode) (data : string) :
  ks <> [] -> kd <> [] -> m !! ks = Some (IFile data) -> ks <> kd ->
  m !! parent kd = Some IDir -> m !! kd <> Some IDir ->
  rename_map ks kd m = inr (<[kd := IFile data]> (delete ks m)).
Proof.
  intros Hs Hd Hf Hne Hp Hnd. unfold rename_map.
  destruct ks as [|x ks]; [congruence|]. destruct kd as [|y kd]; [congruence|].
  rewrite Hf, Hp. rewrite bool_decide_eq_false_2 by exact Hne.
  destruct (m !! (y :: kd)) as [[|]|]; congruence.
Qed.


(** A request that resolves to a file is not empty. *)
Lemma file_request_nonempty u source w ps w1 data :
  truthy u = true ->
  resolve_user_path source (Some u) w = (Ret ps, w1) ->
  fs w1 !! key_of w1 ps = Some (IFile data) ->
  truthy source = true.
Proof.
  intros Hu Hr Hf. destruct source as [|a s]; [|reflexivity]. exfalso.
  destruct (resolve_user_path_Ret u "" w ps w1 Hu Hr) as (Hg & Hp & _).
  pose proof (get_user_workspace_cwd _ _ _ _ Hg) as Hc.
  pose proof (workspace_exists u w _ w1 Hu Hg) as Hws.
  rewrite target_empty in Hp.
  assert (key_of w1 ps = key_of w1 (workspace_of u)) as Hk.
  { unfold key_of. rewrite Hp, Hc. unfold workspace_abs_of.
    rewrite abspath_idem by apply cwd_isabs. reflexivity. }
  congruence.
Qed.


(** *** move_file *)






(** *** What move_file refuses *)

Lemma bind_samefile {B} src dst (k : bool -> M B) w :
  bind (samefile src dst) k w =
  k (match fs w !! key_of w src, fs w !! key_of w dst with
     | Some _, Some _ => bool_decide (key_of w src = key_of w dst)
     | _, _ => false
     end) w.
Proof. reflexivity. Qed.

Lemma rstrip_char_noop c s : endswith_char c s = false -> rstrip_char c s = s.
Proof.
  induction s as [|a s IH]; [reflexivity|]. intros He. cbn [rstrip_char].
  destruct s as [|b s].
  - cbn [rstrip_char]. cbn [endswith_char] in He. rewrite He. reflexivity.
  - rewrite IH by exact He. reflexivity.
Qed.

Lemma normal_no_trailing_sep p comps :
  normal_shape p comps -> comps <> [] -> endswith_char sep p = false /\ truthy p = true.
Proof.
  intros (k & Hk & Hall & ->) Hne. destruct comps as [|x xs]; [congruence|].
  inversion Hall as [|? ? Hx _]; subst.
  pose proof (join_norm_no_trailing_sep x xs Hall) as Ht.
  pose proof (join_norm_nonempty x xs Hx) as Hn.
  destruct (PyStr.join "/" (x :: xs)) as [|a r] eqn:E; [congruence|].
  split.
  - rewrite IdentifierFacts.endswith_char_app. exact Ht.
  - destruct Hk as [-> | ->]; reflexivity.
Qed.

Lemma normal_basename p comps n : normal_shape p (comps ++ [n]) -> _basename p = n.
Proof.
  intros H.
  destruct (normal_no_trailing_sep p _ H ltac:(destruct comps; discriminate)) as (He & _).
  destruct H as (k & Hk & Hall & ->).
  apply Forall_app in Hall as (Hcs & Hn). inversion Hn as [|? ? Hn' _]; subst.
  assert (mem_char sep n = false) as Hs by (destruct Hn' as (_ & _ & _ & H); exact H).
  unfold _basename. rewrite rstrip_char_noop by exact He. unfold basename.
  destruct comps as [|x xs].
  - cbn [app PyStr.join].
    assert (exists r, repeat_sep k = r +:+ String sep "") as (r & Hr)
      by (destruct Hk as [-> | ->]; [exists "" | exists "/"]; reflexivity).
    assert (repeat_sep k +:+ n = r +:+ String sep n) as ->
      by (rewrite Hr, Reading.append_assoc; reflexivity).
    rewrite split_last_snoc by exact Hs. reflexivity.
  - assert (repeat_sep k +:+ PyStr.join "/" ((x :: xs) ++ [n])
            = (repeat_sep k +:+ PyStr.join "/" (x :: xs)) +:+ String sep n) as ->
      by (rewrite IdentifierFacts.join_snoc, !Reading.append_assoc; reflexivity).
    rewrite split_last_snoc by exact Hs. reflexivity.
Qed.

Lemma join_normal p comps n :
  normal_shape p comps -> comps <> [] -> norm_comp n ->
  join p n = p +:+ "/" +:+ n /\ normal_shape (p +:+ "/" +:+ n) (comps ++ [n]).
Proof.
  intros H Hne Hn. destruct (normal_no_trailing_sep p comps H Hne) as (He & Ht).
  split.
  - unfold join. destruct Hn as (_ & _ & _ & Hs).
    rewrite (no_sep_not_abs n Hs), Ht, He. reflexivity.
  - destruct H as (k & Hk & Hall & ->). exists k. split; [exact Hk|]. split.
    + apply Forall_app. split; [exact Hall | constructor; [exact Hn | constructor]].
    + destruct comps as [|x xs]; [congruence|].
      rewrite IdentifierFacts.join_snoc, !Reading.append_assoc. reflexivity.
Qed.

Lemma resolved_normal u path w p w1 :
  truthy u = true -> resolve_user_path path (Some u) w = (Ret p, w1) ->
  normal_shape p (key_of w1 p) /\ abspath (cwd w1) p = p.
Proof.
  intros Hu Hr.
  destruct (resolve_user_path_Ret u path w p w1 Hu Hr) as (Hg & Hpt & _).
  pose proof (get_user_workspace_cwd _ _ _ _ Hg) as Hc.
  destruct (target_normal w u path) as (comps & H). rewrite <- Hpt in H.
  rewrite (key_of_normal w1 p comps H). split; [exact H|].
  rewrite Hpt, Hc. apply abspath_idem. apply cwd_isabs.
Qed.



(** *** Moving a directory *)
















(** *** A directory as destination *)

Lemma copyfile_file src dst w data :
  fs w !! key_of w src = Some (IFile data) ->
  fs w !! key_of w dst <> Some IDir ->
  key_of w src <> key_of w dst ->
  fs w !! parent (key_of w dst) = Some IDir ->
  copyfile src dst w
  = (Ret (Returned dst), set_fs w (<[key_of w dst := IFile data]> (fs w))).
Proof.
  intros Hs Hd Hne Hp.
  unfold copyfile. rewrite bind_samefile, Hs.
  assert ((match fs w !! key_of w dst with
           | Some _ => bool_decide (key_of w src = key_of w dst)
           | None => false
           end) = false) as ->.
  { destruct (fs w !! key_of w dst); [|reflexivity]. apply bool_decide_eq_false_2. exact Hne. }
  cbv iota. unfold bind, read_bytes, write_bytes, ret. rewrite Hs.
  destruct (fs w !! key_of w dst) as [[|]|]; try congruence; rewrite Hp; reflexivity.
Qed.

Lemma normal_basename_plain p comps n : normal_shape p (comps ++ [n]) -> basename p = n.
Proof.
  intros H. pose proof (normal_basename p comps n H) as Hb. unfold _basename in Hb.
  destruct (normal_no_trailing_sep p _ H ltac:(destruct comps; discriminate)) as (He & _).
  rewrite rstrip_char_noop in Hb by exact He. exact Hb.
Qed.

(** X24. A destination that is an existing directory receives the file
    under the name of the source: [copy_file] writes the source's bytes
    there (replacing a file of that name), [move_file] moves the file
    there when the name is free. In both reports the destination is the
    directory as requested, not the file inside it. *)
Theorem transfer_into_directory u source destination w w1 ps pd data k n :
  truthy u = true ->
  resolve_user_path source (Some u) w = (Ret ps, w1) ->
  fst (resolve_user_path destination (Some u) w) = Ret pd ->
  fs w1 !! key_of w1 ps = Some (IFile data) ->
  key_of w1 ps = k ++ [n] ->
  fs w1 !! key_of w1 pd = Some IDir ->
  fs w1 !! parent (key_of w1 pd) = Some IDir ->
  ((Z.of_nat (String.length data) <= MAX_FILE_SIZE)%Z ->
   fs w1 !! (key_of w1 pd ++ [n]) <> Some IDir ->
   key_of w1 ps <> key_of w1 pd ++ [n] ->
   exists rep,
     copy_file source destination (Some u) w
     = (Ret (Report rep),
        set_fs w1 (<[key_of w1 pd ++ [n] := IFile data]> (fs w1)))
     /\ relpath (cwd w1) pd (workspace_of u) = Some (copied_destination rep))
  /\ (fs w1 !! (key_of w1 pd ++ [n]) = None ->
      exists rep,
        move_file source destination (Some u) w
        = (Ret (Report rep),
           set_fs w1 (<[key_of w1 pd ++ [n] := IFile data]> (delete (key_of w1 ps) (fs w1))))
        /\ relpath (cwd w1) pd (workspace_of u) = Some (moved_to rep)).
Proof.
  intros Hu Hs Hd Hfile Hk Hdd Hp.
  pose proof (file_request_nonempty u source w ps w1 data Hu Hs Hfile) as Hts.
  pose proof (resolved_differs u source w ps w1 Hu Hs) as Hdiff.
  pose proof (target_key_nonempty u source w ps w1 Hu Hs) as Hks.
  destruct (two_paths_prelude u source destination w w1 ps pd Hu Hs Hd)
    as (Hg & Hs1 & Hd1 & Hss & Hsd & Hdir & Htps & Htpd).
  destruct (resolved_normal u source w ps w1 Hu Hs) as (Hns & _).
  destruct (resolved_normal u destination w1 pd w1 Hu Hd1) as (Hnd & _).
  pose proof (target_key_nonempty u destination w1 pd w1 Hu Hd1) as Hkd.
  rewrite Hk in Hns.
  pose proof (normal_basename ps k n Hns) as Hb.
  pose proof (normal_basename_plain ps k n Hns) as Hb'.
  assert (norm_comp n) as Hn.
  { destruct Hns as (? & _ & Hall & _). apply Forall_app in Hall as (_ & Hall).
    inversion Hall; assumption. }
  destruct (join_normal pd _ n Hnd Hkd Hn) as (Hjoin & Hjn).
  pose proof (key_of_normal w1 _ _ Hjn) as Hkj.
  assert (key_of w1 pd ++ [n] <> key_of w1 pd) as Hlonger.
  { intros E. apply (f_equal (@length string)) in E. rewrite length_app in E. simpl in E. lia. }
  assert (parent (key_of w1 pd ++ [n]) = key_of w1 pd) as Hpar
    by (unfold parent; apply removelast_last).
  assert (forall (w2 : World) p r, cwd w2 = cwd w1 ->
            relpath_m p (workspace_of u) w2 = (Ret r, w2) ->
            relpath (cwd w1) p (workspace_of u) = Some r) as Hrel.
  { intros w2 p r Hc Hr. unfold relpath_m, bind, getcwd in Hr. rewrite Hc in Hr.
    destruct (relpath (cwd w1) p (workspace_of u)) as [x|]; [|discriminate].
    apply ret_Ret_inv in Hr as [-> _]. reflexivity. }
  split.
  - intros Hsize Hnd' Hne.
    set (w2 := set_fs w1 (<[key_of w1 pd ++ [n] := IFile data]> (fs w1))).
    assert (fs w2 !! key_of w2 ps = Some (IFile data)) as Hs2.
    { unfold w2. rewrite key_of_set_fs. simpl. rewrite lookup_insert_ne by congruence.
      exact Hfile. }
    assert (fs w2 !! key_of w2 pd = Some IDir) as Hd2.
    { unfold w2. rewrite key_of_set_fs. simpl. rewrite lookup_insert_ne by exact Hlonger.
      exact Hdd. }
    destruct (relpath_m_total ps (workspace_of u) w2 Htps) as (rs & Hrs & _).
    destruct (relpath_m_total pd (workspace_of u) w2 Htpd) as (rd & Hrd & _).
    assert (copy2 ps pd w1 = (Ret (Returned (pd +:+ "/" +:+ n)), w2)) as Hcopy.
    { unfold copy2. rewrite bind_isdir, Hdd. cbv iota zeta. rewrite Hb', Hjoin.
      unfold w2. rewrite <- Hkj. apply copyfile_file.
      - exact Hfile.
      - rewrite Hkj. exact Hnd'.
      - rewrite Hkj. exact Hne.
      - rewrite Hkj, Hpar. exact Hdd. }
    eexists. split.
    + unfold copy_file. apply try_except_Ret.
      two_paths Hg Hs1 Hd1 Hss Hsd.
      rewrite bind_path_exists, Hfile. cbn [negb].
      rewrite bind_isfile, Hfile. cbn [negb].
      rewrite (bind_getsize _ _ _ _ Hfile). cbv zeta. cbn [inode_size].
      assert ((Z.of_nat (String.length data) >? MAX_FILE_SIZE)%Z = false) as ->
        by (rewrite Z.gtb_ltb; apply Z.ltb_ge; exact Hsize).
      rewrite bind_path_exists, Hdir, Hp. cbn [negb]. rewrite andb_false_r.
      rewrite bind_ret_l.
      rewrite (bind_Ret _ _ _ _ _ Hcopy). cbv beta iota.
      rewrite (bind_Ret _ _ _ _ _ (get_file_info_at ps w2 _ Hs2)). cbv beta.
      rewrite (bind_Ret _ _ _ _ _ (get_file_info_at pd w2 _ Hd2)). cbv beta.
      rewrite (bind_Ret _ _ _ _ _ Hrs). cbv beta.
      rewrite (bind_Ret _ _ _ _ _ Hrd). reflexivity.
    + cbn [copied_destination]. apply (Hrel w2); [reflexivity | exact Hrd].
  - intros Hfree.
    set (w2 := set_fs w1 (<[key_of w1 pd ++ [n] := IFile data]>
                            (delete (key_of w1 ps) (fs w1)))).
    assert (key_of w1 ps <> key_of w1 pd) as Hne1 by congruence.
    assert (key_of w1 ps <> key_of w1 pd ++ [n]) as Hne2 by congruence.
    assert (fs w2 !! key_of w2 pd = Some IDir) as Hd2.
    { unfold w2. rewrite key_of_set_fs. simpl. rewrite lookup_insert_ne by exact Hlonger.
      rewrite lookup_delete_ne by exact Hne1. exact Hdd. }
    destruct (relpath_m_total source (workspace_of u) w2 Hts) as (rf & Hrf & _).
    destruct (relpath_m_total pd (workspace_of u) w2 Htpd) as (rd & Hrd & _).
    assert (move ps pd w1 = (Ret (Returned (Some (pd +:+ "/" +:+ n))), w2)) as Hmove.
    { unfold move. rewrite bind_isdir, Hdd. cbv iota.
      rewrite bind_samefile, Hfile, Hdd. rewrite bool_decide_eq_false_2 by exact Hne1.
      cbv iota zeta. rewrite Hb, Hjoin. rewrite bind_path_exists, Hkj, Hfree. cbv iota.
      unfold move_to, try_OSError, bind, rename. rewrite Hkj.
      rewrite (rename_map_file (key_of w1 ps) (key_of w1 pd ++ [n]) (fs w1) data Hks
                 ltac:(destruct (key_of w1 pd); discriminate)
                 Hfile Hne2 ltac:(rewrite Hpar; exact Hdd) ltac:(congruence)).
      reflexivity. }
    eexists. split.
    + unfold move_file. apply try_except_Ret.
      two_paths Hg Hs1 Hd1 Hss Hsd.
      rewrite bind_path_exists, Hfile. cbn [negb]. cbv zeta.
      rewrite bind_path_exists, Hdir, Hp. cbn [negb]. rewrite andb_false_r.
      rewrite bind_ret_l.
      rewrite (bind_Ret _ _ _ _ _ (get_file_info_at ps w1 _ Hfile)). cbv beta.
      rewrite (bind_Ret _ _ _ _ _ Hmove). cbv beta iota.
      rewrite (bind_Ret _ _ _ _ _ (get_file_info_at pd w2 _ Hd2)). cbv beta.
      assert (String.eqb source ps = false) as -> by (apply String.eqb_neq; exact Hdiff).
      cbn [negb].
      rewrite (bind_Ret _ _ _ _ _ Hrf). cbv beta.
      rewrite (bind_Ret _ _ _ _ _ Hrd). reflexivity.
    + cbn [moved_to]. apply (Hrel w2); [reflexivity | exact Hrd].
Qed.

Lemma transfer_into_directory_witness :
  exists rep,
    move_file "a.txt" "docs" (Some "u1") Listing.srv_files
    = (Ret (Report rep),
       set_fs (snd (resolve_user_path "a.txt" (Some "u1") Listing.srv_files))
         (<[key_of (snd (resolve_user_path "a.txt" (Some "u1") Listing.srv_files))
              "/srv/user-workspaces/db6cd388-0abf-538a-8503-dd3358d93458/docs" ++ ["a.txt"]
            := IFile "a"]>
            (delete
               (key_of (snd (resolve_user_path "a.txt" (Some "u1") Listing.srv_files))
                  "/srv/user-workspaces/db6cd388-0abf-538a-8503-dd3358d93458/a.txt")
               (fs (snd (resolve_user_path "a.txt" (Some "u1") Listing.srv_files))))))
    /\ relpath (cwd (snd (resolve_user_path "a.txt" (Some "u1") Listing.srv_files)))
         "/srv/user-workspaces/db6cd388-0abf-538a-8503-dd3358d93458/docs" (workspace_of "u1")
       = Some (moved_to rep).
Proof.
  apply (proj2 (transfer_into_directory "u1" "a.txt" "docs" Listing.srv_files
                  (snd (resolve_user_path "a.txt" (Some "u1") Listing.srv_files))
                  "/srv/user-workspaces/db6cd388-0abf-538a-8503-dd3358d93458/a.txt"
                  "/srv/user-workspaces/db6cd388-0abf-538a-8503-dd3358d93458/docs" "a"
                  u1_key "a.txt" eq_refl
                  ltac:(apply run_Ret; vm_compute; reflexivity)
                  ltac:(vm_compute; reflexivity)
                  ltac:(vm_compute; reflexivity)
                  ltac:(vm_compute; reflexivity)
                  ltac:(vm_compute; reflexivity)
                  ltac:(vm_compute; reflexivity))).
  vm_compute. reflexivity.
Defined.

End Transfers.

(** ** get_workspace_info *)

Module Statistics.
Import PyStr PosixPath PyUuid Os FilesystemServer PathFacts OsFacts ResolverFacts Scenario.
Import ToolFacts Resolution PathShape IdentifierFacts.
Local Open Scope Z_scope.

(** The loop over the files of one directory never fails and only adds. *)
Lemma sum_sizes_total root files acc w :
  exists total, sum_sizes root files acc w = (Ret total, w) /\ acc <= total
                /\ (files = [] -> total = acc).
Proof.
  revert acc. induction files as [|f rest IH]; intros acc.
  - exists acc. split; [reflexivity | split; [lia | intros _; reflexivity]].
  - cbn [sum_sizes]. cbv zeta. unfold bind at 1, try_except, bind at 1, getsize.
    destruct (fs w !! key_of w (join root f)) as [i|].
    + destruct (IH (acc + Z.of_nat (inode_size i))) as (total & Ht & Hle & _).
      exists total. split; [exact Ht|]. split; [lia | discriminate].
    + destruct (IH acc) as (total & Ht & Hle & _).
      exists total. split; [exact Ht|]. split; [lia | discriminate].
Qed.

Lemma workspace_stats_total triples f0 d0 s0 w :
  exists f d s,
    workspace_stats triples f0 d0 s0 w = (Ret (f, d, s), w)
    /\ f0 <= f /\ d0 <= d /\ s0 <= s
    /\ (Forall (fun t => snd (fst t) = [] /\ snd t = []) triples ->
        f = f0 /\ d = d0 /\ s = s0).
Proof.
  revert f0 d0 s0. induction triples as [|[[root dirs] files] rest IH]; intros f0 d0 s0.
  - exists f0, d0, s0. split; [reflexivity|]. repeat split; lia.
  - cbn [workspace_stats]. cbv zeta.
    destruct (sum_sizes_total root files s0 w) as (s1 & Hs1 & Hle & Hnil).
    rewrite (bind_Ret _ _ _ _ _ Hs1).
    destruct (IH (f0 + Z.of_nat (length files)) (d0 + Z.of_nat (length dirs)) s1)
      as (f & d & s & Hst & Hf & Hd & Hs & Hempty).
    exists f, d, s. split; [exact Hst|]. repeat split; try lia.
    + destruct (Hempty ltac:(inversion H; assumption)) as (-> & _ & _).
      inversion H as [|? ? [_ Hfiles] _]; subst. cbn [snd] in Hfiles. subst files.
      simpl. lia.
    + destruct (Hempty ltac:(inversion H; assumption)) as (_ & -> & _).
      inversion H as [|? ? [Hdirs _] _]; subst. cbn [fst snd] in Hdirs. subst dirs.
      simpl. lia.
    + destruct (Hempty ltac:(inversion H; assumption)) as (_ & _ & ->).
      inversion H as [|? ? [_ Hfiles] _]; subst. cbn [snd] in Hfiles. subst files.
      apply Hnil. reflexivity.
Qed.

(** The walk of a directory without entries is that directory alone. *)
Lemma walk_empty top w :
  listdir_key (fs w) (key_of w top) = [] ->
  Forall (fun t => snd (fst t) = [] /\ snd t = [])
    (walk_from (S (base.size (fs w))) (fs w) top (key_of w top)).
Proof.
  intros H. cbn [walk_from]. destruct (fs w !! key_of w top) as [[|]|]; try constructor.
  - rewrite H. cbn [List.filter flat_map fst snd]. split; reflexivity.
  - rewrite H. constructor.
Qed.

Lemma basename_workspace u : basename (workspace_of u) = canonical_id u.
Proof.
  pose proof (canonical_id_norm_comp u) as (_ & _ & _ & Hs).
  unfold workspace_of, join. rewrite (no_sep_not_abs _ Hs).
  change (negb (truthy USER_WORKSPACE_BASE) || endswith_char sep USER_WORKSPACE_BASE)%bool
    with false. cbv iota.
  unfold basename.
  change (USER_WORKSPACE_BASE +:+ "/" +:+ canonical_id u)
    with (USER_WORKSPACE_BASE +:+ String sep (canonical_id u)).
  rewrite split_last_snoc by exact Hs. reflexivity.
Qed.

(** X23. Once the workspace of a supplied user is obtained,
    [get_workspace_info] always answers with a report, never with an
    error: the identifier is the name of the workspace directory, the
    path is the absolute path of the workspace, the three totals are not
    negative, and they are zero for a workspace without entries. Nothing
    is changed beyond the creation of the workspace. *)
Theorem get_workspace_info_reports u w ws w1 :
  truthy u = true ->
  get_user_workspace (Some u) w = (Ret ws, w1) ->
  exists files dirs sz,
    get_workspace_info (Some u) w
    = (Ret (Report {| workspace_id := canonical_id u;
                      workspace_path := abspath (cwd w) ws;
                      total_files := files;
                      total_dirs := dirs;
                      total_size := sz |}), w1)
    /\ 0 <= files /\ 0 <= dirs /\ 0 <= sz
    /\ (listdir_key (fs w1) (key_of w1 ws) = [] -> files = 0 /\ dirs = 0 /\ sz = 0).
Proof.
  intros Hu Hg.
  destruct (get_user_workspace_Ret u w ws w1 Hu Hg) as (-> & _).
  pose proof (get_user_workspace_cwd _ _ _ _ Hg) as Hc.
  destruct (workspace_stats_total
              (walk_from (S (base.size (fs w1))) (fs w1) (workspace_of u)
                 (key_of w1 (workspace_of u))) 0 0 0 w1)
    as (f & d & s & Hst & Hf & Hd & Hs & Hempty).
  exists f, d, s. split; [|split; [exact Hf | split; [exact Hd | split; [exact Hs|]]]].
  - unfold get_workspace_info. apply try_except_Ret.
    rewrite (bind_Ret _ _ _ _ _ Hg). cbv beta.
    unfold bind at 1, getcwd. cbv beta iota zeta.
    unfold bind at 1, walk. cbv beta iota.
    rewrite (bind_Ret _ _ _ _ _ Hst). cbv beta iota.
    rewrite basename_workspace, Hc. reflexivity.
  - intros H. apply Hempty, walk_empty. exact H.
Qed.

Lemma get_workspace_info_reports_witness :
  exists files dirs sz,
    get_workspace_info (Some "u1") srv
    = (Ret (Report {| workspace_id := canonical_id "u1";
                      workspace_path := abspath (cwd srv) (workspace_of "u1");
                      total_files := files;
                      total_dirs := dirs;
                      total_size := sz |}), srv_u1)
    /\ 0 <= files /\ 0 <= dirs /\ 0 <= sz
    /\ (listdir_key (fs srv_u1) (key_of srv_u1 (workspace_of "u1")) = [] ->
        files = 0 /\ dirs = 0 /\ sz = 0).
Proof.
  apply (get_workspace_info_reports "u1" srv (workspace_of "u1") srv_u1 eq_refl).
  apply run_Ret. vm_compute. reflexivity.
Defined.

End Statistics.
